(** * The I2S module of the EVL audio driver (bcm2835-i2s-elk.c)

    A shallow embedding of the driver's register choreography and of its
    cyclic DMA protocol.  The peripheral and the DMA engine are the
    environment: every value the driver reads from a register and every
    result a DMA-engine call returns is drawn from an oracle, and every
    access the driver makes is appended to a trace.  The driver is
    deterministic in those answers, so a statement proved for all oracles
    holds for every behaviour of the hardware. *)

From Stdlib Require Import ZArith List String Bool Lia.
Import ListNotations.
Local Open Scope Z_scope.

(** ** Fixed-width integers *)

Module Int.

Definition wrap (bits z : Z) : Z := z mod 2 ^ bits.

(** uint32_t *)
Definition u32 (z : Z) : Z := z mod 2 ^ 32.

(** int32_t (int), two's complement *)
Definition s32 (z : Z) : Z := (z + 2 ^ 31) mod 2 ^ 32 - 2 ^ 31.

(** [~x] on a uint32_t *)
Definition not32 (z : Z) : Z := u32 (Z.lnot z).

End Int.
Import Int.

(** ** Declarations the source takes from its headers *)

(** The registers of the PCM/I2S block, by the names the source uses
    (BCM2835_I2S_<name>_REG). *)
Inductive i2s_reg : Type :=
| CS_A | FIFO_A | MODE_A | RXC_A | TXC_A | DREQ_A | INTEN_A | INTSTC_A | GRAY.

Definition reg_eqb (a b : i2s_reg) : bool :=
  match a, b with
  | CS_A, CS_A | FIFO_A, FIFO_A | MODE_A, MODE_A | RXC_A, RXC_A
  | TXC_A, TXC_A | DREQ_A, DREQ_A | INTEN_A, INTEN_A
  | INTSTC_A, INTSTC_A | GRAY, GRAY => true
  | _, _ => false
  end.

(** The bit masks, field macros and board constants of bcm2835-i2s-elk.h,
    elk-pi-config.h and hifi-berry-config.h.  These headers are not among
    the sources, so their values are a parameter of the whole development. *)
Class i2s_header : Type := {
  (* control and status register *)
  BCM2835_I2S_STBY : Z;
  BCM2835_I2S_SYNC : Z;
  BCM2835_I2S_RXD : Z;
  BCM2835_I2S_DMAEN : Z;
  BCM2835_I2S_RXTHR : Z -> Z;
  BCM2835_I2S_TXTHR : Z -> Z;
  BCM2835_I2S_RXCLR : Z;
  BCM2835_I2S_TXCLR : Z;
  BCM2835_I2S_TXON : Z;
  BCM2835_I2S_RXON : Z;
  BCM2835_I2S_EN : Z;
  (* mode register *)
  BCM2835_I2S_CLKDIS : Z;
  BCM2835_I2S_CLKM : Z;
  BCM2835_I2S_CLKI : Z;
  BCM2835_I2S_FSM : Z;
  BCM2835_I2S_FSI : Z;
  BCM2835_I2S_FLEN : Z -> Z;
  BCM2835_I2S_FSLEN : Z -> Z;
  (* channel format registers *)
  BCM2835_I2S_CHWEX : Z;
  BCM2835_I2S_CHEN : Z;
  BCM2835_I2S_CHWID : Z -> Z;
  BCM2835_I2S_CH1 : Z -> Z;
  BCM2835_I2S_CH2 : Z -> Z;
  BCM2835_I2S_CH1_POS : Z -> Z;
  BCM2835_I2S_CH2_POS : Z -> Z;
  (* DMA request register *)
  BCM2835_I2S_TX_PANIC : Z -> Z;
  BCM2835_I2S_RX_PANIC : Z -> Z;
  BCM2835_I2S_TX : Z -> Z;
  BCM2835_I2S_RX : Z -> Z;
  BCM2835_DMA_TX_PANIC_THR : Z;
  BCM2835_DMA_RX_PANIC_THR : Z;
  BCM2835_DMA_THR_TX : Z;
  BCM2835_DMA_THR_RX : Z;
  (* interrupt enable register *)
  BCM2835_I2S_INT_TXERR : Z;
  BCM2835_I2S_INT_RXERR : Z;
  (* commands and board constants *)
  BCM2835_I2S_START_CMD : Z;
  HIFI_BERRY_SAMPLING_RATE : Z;
  BCM2835_I2S_CVGATES_SUPPORT : bool;
  CVGATE_OUTS_LIST : list Z;
  CVGATE_INS_LIST : list Z;
  (* widths of size_t / pointers / dma_addr_t on the target *)
  word_bits : Z
}.

Definition BCM2835_PCM_WORD_LEN : Z := 32.
Definition BCM2835_PCM_SLOTS : Z := 2.

(** errno values of the kernel *)
Definition EIO : Z := 5.
Definition ENOMEM : Z := 12.
Definition EBUSY : Z := 16.
Definition ENODEV : Z := 19.
Definition EINVAL : Z := 22.

(** ** The DMA engine as the driver sees it *)

(** audio_dev->dma_tx and audio_dev->dma_rx *)
Inductive dma_chan : Type := DMA_TX | DMA_RX.

Inductive dma_transfer_direction : Type :=
| DMA_MEM_TO_MEM | DMA_MEM_TO_DEV | DMA_DEV_TO_MEM | DMA_DEV_TO_DEV
| DMA_TRANS_NONE.

Inductive dma_status : Type :=
| DMA_COMPLETE | DMA_IN_PROGRESS | DMA_PAUSED | DMA_ERROR.

Record dma_slave_config : Type := {
  cfg_direction : dma_transfer_direction;
  cfg_src_addr : Z; cfg_dst_addr : Z;
  cfg_src_addr_width : Z; cfg_dst_addr_width : Z;
  cfg_src_maxburst : Z; cfg_dst_maxburst : Z
}.

(** A descriptor handed out by dmaengine_prep_dma_cyclic; the driver only
    touches its callback fields. *)
Record dma_async_tx_descriptor : Type := {
  desc_chan : dma_chan;
  callback : bool;        (* callback == bcm2835_i2s_dma_callback *)
  callback_param : bool   (* callback_param == audio_dev *)
}.

(** ** Traces *)

Inductive event : Type :=
| Readl (r : i2s_reg) (v : Z)
| Writel (r : i2s_reg) (v : Z)
| Wmb
| Printk (msg : string) (args : list Z)
| SlaveConfig (c : dma_chan) (cfg : dma_slave_config) (ret : Z)
| PrepDmaCyclic (c : dma_chan) (buf_addr buf_len period_len : Z)
                (dir : dma_transfer_direction) (got : bool)
| Submit (c : dma_chan) (cookie : Z)
| IssuePending (c : dma_chan)
| TerminateAsync (c : dma_chan) (ret : Z)
| Synchronize (c : dma_chan)
| TxStatus (c : dma_chan) (st : dma_status)
| EvlRaiseFlag
| ClkSetRate (rate ret : Z)
| ClkPrepareEnable
| GpioSetValue (pin val : Z)
| GpioGetValue (pin val : Z)
| Store32 (addr val : Z)
| Load32 (addr val : Z).

(** The newest event is the head of the list.  [Printk] stands for printk,
    dev_err and dev_warn alike; it carries the format string without its
    trailing newline (and without the blanks a line continuation leaves
    inside the message of bcm2835_i2s_exit) and the integer arguments. *)
Definition history : Type := list event.

(** ** The environment: what hardware and kernel answer *)

Record env : Type := {
  (** the value the k-th read of a register returns *)
  feed : i2s_reg -> nat -> Z;
  dmaengine_slave_config : history -> dma_chan -> Z;
  dmaengine_prep_dma_cyclic : history -> dma_chan -> bool;
  dmaengine_submit : history -> dma_chan -> Z;
  dmaengine_terminate_async : history -> dma_chan -> Z;
  dmaengine_tx_status : history -> dma_chan -> dma_status * (Z * Z);
  clk_set_rate : history -> Z -> Z;
  gpio_get_value : history -> Z -> Z;
  mem_load : history -> Z -> Z
}.

(** ** Driver state *)

Record audio_evl_buffers : Type := {
  cv_gate_out : Z;
  cv_gate_in : Z;
  tx_buf : Z;
  rx_buf : Z;
  buffer_len : Z;
  period_len : Z;
  tx_phys_addr : Z;
  rx_phys_addr : Z
}.

Record audio_evl_dev : Type := {
  audio_hat : string;
  fifo_dma_addr : Z;
  addr_width : Z;
  dma_burst_size : Z;
  tx_desc : option dma_async_tx_descriptor;
  rx_desc : option dma_async_tx_descriptor;
  dma_tx_cookie : Z;
  dma_rx_cookie : Z;
  kinterrupts : Z;
  buffer_idx : Z;
  cv_gate_enabled : bool;
  clk_rate : Z;
  buffer : audio_evl_buffers
}.

Record world : Type := {
  dev : audio_evl_dev;
  (** how often each register has been read *)
  nreads : i2s_reg -> nat;
  (** the value last written to each register *)
  latched : i2s_reg -> Z;
  trace : history
}.

Definition set_dev (f : audio_evl_dev -> audio_evl_dev) (w : world) : world :=
  {| dev := f (dev w); nreads := nreads w; latched := latched w;
     trace := trace w |}.

Definition emit (e : event) (w : world) : world :=
  {| dev := dev w; nreads := nreads w; latched := latched w;
     trace := e :: trace w |}.

(** ** A state monad with faults and fuel *)

Inductive fault : Type :=
| OutOfBounds (index size : Z)   (* a store past the end of a local array *)
| NullDescriptor (c : dma_chan). (* a NULL descriptor dereferenced *)

Inductive outcome (A : Type) : Type :=
| Ok (a : A) (w : world)
| Fault (f : fault) (w : world)
| OutOfFuel (w : world).
Arguments Ok {A} a w.
Arguments Fault {A} f w.
Arguments OutOfFuel {A} w.

Definition M (A : Type) : Type := world -> outcome A.

Definition ret {A} (a : A) : M A := fun w => Ok a w.

Definition bind {A B} (m : M A) (k : A -> M B) : M B :=
  fun w => match m w with
           | Ok a w' => k a w'
           | Fault f w' => Fault f w'
           | OutOfFuel w' => OutOfFuel w'
           end.

Notation "x <- m ;; k" := (bind m (fun x => k))
  (at level 61, m at next level, right associativity).
Notation "m ;;; k" := (bind m (fun _ => k))
  (at level 61, right associativity).

Definition get : M world := fun w => Ok w w.
Definition modify (f : world -> world) : M unit := fun w => Ok tt (f w).
Definition log (e : event) : M unit := modify (emit e).
Definition raise {A} (f : fault) : M A := fun w => Fault f w.
Definition out_of_fuel {A} : M A := fun w => OutOfFuel w.
Definition update_dev (f : audio_evl_dev -> audio_evl_dev) : M unit :=
  modify (set_dev f).

Definition final_world {A} (o : outcome A) : world :=
  match o with Ok _ w | Fault _ w | OutOfFuel w => w end.

Definition returned {A} (o : outcome A) : option A :=
  match o with Ok a _ => Some a | _ => None end.

Definition fault_of {A} (o : outcome A) : option fault :=
  match o with Fault f _ => Some f | _ => None end.

Section Driver.

Context {Hdr : i2s_header}.
Variable E : env.

(** ** Register interface *)

(** Modelled from the spec: rpi_reg_read of rpi-audio-evl.h, which is not
    among the sources.  "read(register) -> u32 ... every call performs a
    real device access": the value comes from the peripheral. *)
Definition rpi_reg_read (r : i2s_reg) : M Z :=
  fun w =>
    let v := u32 (feed E r (nreads w r)) in
    Ok v {| dev := dev w;
            nreads := fun r' => if reg_eqb r' r then S (nreads w r')
                                else nreads w r';
            latched := latched w;
            trace := Readl r v :: trace w |}.

(** Modelled from the spec: rpi_reg_write of rpi-audio-evl.h,
    "write(register, value)". *)
Definition rpi_reg_write (r : i2s_reg) (value : Z) : M unit :=
  fun w =>
    let v := u32 value in
    Ok tt {| dev := dev w;
             nreads := nreads w;
             latched := fun r' => if reg_eqb r' r then v else latched w r';
             trace := Writel r v :: trace w |}.

(** Modelled from the spec: rpi_reg_update_bits of rpi-audio-evl.h,
    "update_bits(register, mask, value) (read-modify-write restricted to
    mask)". *)
Definition rpi_reg_update_bits (r : i2s_reg) (mask value : Z) : M unit :=
  orig <- rpi_reg_read r ;;
  rpi_reg_write r
    (Z.lor (Z.land orig (not32 (u32 mask))) (Z.land (u32 value) (u32 mask))).

(** ** bcm2835_i2s_clear_fifos *)

(** The loop [while (--timeout) { read csreg; if ((csreg & SYNC) != sync)
    break; }].  [timeout] is the C variable; [fuel] bounds the unfolding. *)
Fixpoint clear_fifos_poll (fuel : nat) (timeout sync : Z) : M unit :=
  match fuel with
  | O => out_of_fuel
  | S fuel' =>
      let timeout := s32 (timeout - 1) in
      if timeout =? 0 then ret tt
      else
        csreg <- rpi_reg_read CS_A ;;
        if negb (Z.land csreg BCM2835_I2S_SYNC =? sync) then ret tt
        else clear_fifos_poll fuel' timeout sync
  end.

Definition bcm2835_i2s_clear_fifos (tx rx : bool) : M unit :=
  let timeout := 1000 in
  let off := u32 (if tx then BCM2835_I2S_TXON else 0) in
  let off := Z.lor off (u32 (if rx then BCM2835_I2S_RXON else 0)) in
  let clr := u32 (if tx then BCM2835_I2S_TXCLR else 0) in
  let clr := Z.lor clr (u32 (if rx then BCM2835_I2S_RXCLR else 0)) in
  (* Backup the current state *)
  csreg <- rpi_reg_read CS_A ;;
  let i2s_active_state :=
    Z.land csreg (Z.lor BCM2835_I2S_RXON BCM2835_I2S_TXON) in
  (* Stop I2S module *)
  rpi_reg_update_bits CS_A off 0 ;;;
  (* Clear the FIFOs *)
  rpi_reg_update_bits CS_A clr clr ;;;
  sync <- rpi_reg_read CS_A ;;
  let sync := Z.land sync BCM2835_I2S_SYNC in
  rpi_reg_update_bits CS_A BCM2835_I2S_SYNC (not32 sync) ;;;
  (* Wait for the SYNC flag changing its state *)
  clear_fifos_poll 1000 timeout sync ;;;
  (* Restore I2S state *)
  rpi_reg_update_bits CS_A (Z.lor BCM2835_I2S_RXON BCM2835_I2S_TXON)
    i2s_active_state.


(** ** bcm2835_i2s_synch_frame *)

(** [int32_t tmp[9]], uninitialised: [None] is a slot never written. *)
Definition tmp_size : nat := 9.
Definition tmp_init : list (option Z) := repeat None tmp_size.

Fixpoint list_set {A} (l : list A) (i : nat) (x : A) : list A :=
  match l, i with
  | [], _ => []
  | _ :: t, O => x :: t
  | h :: t, S i' => h :: list_set t i' x
  end.

(** [a[i] = v] on a local array; a store past its end has no defined
    behaviour in C and is a fault here. *)
Definition array_store (a : list (option Z)) (i v : Z) : M (list (option Z)) :=
  if (0 <=? i) && (i <? Z.of_nat (List.length a))
  then ret (list_set a (Z.to_nat i) (Some v))
  else raise (OutOfBounds i (Z.of_nat (List.length a))).

(** The locals of the loop: samples[0], samples[1], discarded, tmp. *)
Record synch_locals : Type := {
  samples0 : Z;
  samples1 : Z;
  discarded : Z;
  tmp : list (option Z)
}.

(** [while (samples[0] != 0 || samples[1] != 0) { ... }]; [fuel] bounds the
    number of times the body runs. *)
(** The body of [if (val & BCM2835_I2S_RXD) { ... }]: push a zero, shift
    the sample window, pop one sample, record it, count it. *)
Definition synch_frame_pop (l : synch_locals) : M synch_locals :=
  rpi_reg_write FIFO_A 0 ;;;
  let s1 := samples0 l in
  v <- rpi_reg_read FIFO_A ;;
  let s0 := s32 v in
  tmp' <- array_store (tmp l) (discarded l) s0 ;;
  ret {| samples0 := s0; samples1 := s1;
         discarded := u32 (discarded l + 1); tmp := tmp' |}.

(** [while (samples[0] != 0 || samples[1] != 0) { ... }]; [fuel] bounds the
    number of times the body runs. *)
Fixpoint synch_frame_loop (fuel : nat) (l : synch_locals)
  : M synch_locals :=
  if negb (samples0 l =? 0) || negb (samples1 l =? 0) then
    match fuel with
    | O => out_of_fuel
    | S fuel' =>
        val <- rpi_reg_read CS_A ;;
        if negb (Z.land val BCM2835_I2S_RXD =? 0) then
          l' <- synch_frame_pop l ;;
          synch_frame_loop fuel' l'
        else synch_frame_loop fuel' l
    end
  else ret l.

Definition synch_frame_start : synch_locals :=
  {| samples0 := 255; samples1 := 255; discarded := 0; tmp := tmp_init |}.

Definition samples_discarded_msg : string :=
  "bcm2835-i2s: %d samples discarded".

Definition bcm2835_i2s_synch_frame (fuel : nat) (mask : Z) : M unit :=
  rpi_reg_update_bits CS_A mask mask ;;;
  l <- synch_frame_loop fuel synch_frame_start ;;
  log (Printk samples_discarded_msg [discarded l]).

(** ** bcm2835_i2s_start_stop *)

Definition audio_hat_is (name : string) : M bool :=
  w <- get ;; ret (String.eqb (audio_hat (dev w)) name).

Definition bcm2835_i2s_start_stop (fuel : nat) (cmd : Z) : M unit :=
  log Wmb ;;;
  let mask := u32 (Z.lor BCM2835_I2S_RXON BCM2835_I2S_TXON) in
  if cmd =? BCM2835_I2S_START_CMD then
    elk_pi <- audio_hat_is "elk-pi" ;;
    if elk_pi then bcm2835_i2s_synch_frame fuel mask
    else rpi_reg_update_bits CS_A mask mask
  else rpi_reg_update_bits CS_A mask 0.


(** ** bcm2835_i2s_dma_callback *)

Definition ask {A} (f : history -> A) : M A :=
  fun w => Ok (f (trace w)) w.

Definition dma_status_eqb (a b : dma_status) : bool :=
  match a, b with
  | DMA_COMPLETE, DMA_COMPLETE | DMA_IN_PROGRESS, DMA_IN_PROGRESS
  | DMA_PAUSED, DMA_PAUSED | DMA_ERROR, DMA_ERROR => true
  | _, _ => false
  end.

Definition dma_status_code (s : dma_status) : Z :=
  match s with
  | DMA_COMPLETE => 0 | DMA_IN_PROGRESS => 1 | DMA_PAUSED => 2
  | DMA_ERROR => 3
  end.

Definition dma_status_msg : string :=
  "bcm2835-i2s: DMA TX status: %d (%u %u)".

Definition check_tx_status (c : dma_chan) : M unit :=
  r <- ask (fun h => dmaengine_tx_status E h c) ;;
  let '(status, (residue, in_flight_bytes)) := r in
  log (TxStatus c status) ;;;
  if dma_status_eqb status DMA_ERROR
  then log (Printk dma_status_msg
              [dma_status_code status; residue; in_flight_bytes])
  else ret tt.

(** [for (i = 0; i < NUM_OF_CVGATE_OUTS; i++)
       gpio_set_value(cv_gate_out[i], *buffer->cv_gate_out & BIT(i));] *)
Fixpoint cv_gates_write (pins : list Z) (i : Z) : M unit :=
  match pins with
  | [] => ret tt
  | pin :: rest =>
      w <- get ;;
      let addr := cv_gate_out (buffer (dev w)) in
      word <- ask (fun h => u32 (mem_load E h addr)) ;;
      log (Load32 addr word) ;;;
      let val := u32 (Z.land word (Z.shiftl 1 i)) in
      log (GpioSetValue pin val) ;;;
      cv_gates_write rest (i + 1)
  end.

(** [for (i = 0; i < NUM_OF_CVGATE_INS; i++)
       val |= gpio_get_value(cv_gate_in[i]) << i;] *)
Fixpoint cv_gates_read (pins : list Z) (i val : Z) : M Z :=
  match pins with
  | [] => ret val
  | pin :: rest =>
      g <- ask (fun h => s32 (gpio_get_value E h pin)) ;;
      log (GpioGetValue pin g) ;;;
      cv_gates_read rest (i + 1) (u32 (Z.lor val (s32 (Z.shiftl g i))))
  end.

(** [kinterrupts] is declared in rpi-audio-evl.h; it is taken as a 64-bit
    counter. *)
Definition bcm2835_i2s_dma_callback : M unit :=
  check_tx_status DMA_TX ;;;
  check_tx_status DMA_RX ;;;
  update_dev (fun d =>
    {| audio_hat := audio_hat d; fifo_dma_addr := fifo_dma_addr d;
       addr_width := addr_width d; dma_burst_size := dma_burst_size d;
       tx_desc := tx_desc d; rx_desc := rx_desc d;
       dma_tx_cookie := dma_tx_cookie d; dma_rx_cookie := dma_rx_cookie d;
       kinterrupts := wrap 64 (kinterrupts d + 1);
       buffer_idx := Z.land (Z.lnot (buffer_idx d)) 1;
       cv_gate_enabled := cv_gate_enabled d; clk_rate := clk_rate d;
       buffer := buffer d |}) ;;;
  log EvlRaiseFlag ;;;
  if BCM2835_I2S_CVGATES_SUPPORT then
    w <- get ;;
    if cv_gate_enabled (dev w) then
      cv_gates_write CVGATE_OUTS_LIST 0 ;;;
      val <- cv_gates_read CVGATE_INS_LIST 0 0 ;;
      log (Store32 (cv_gate_in (buffer (dev w))) val)
    else ret tt
  else ret tt.

(** ** bcm2835_i2s_dma_prepare_cyclic *)

Definition slave_config_failed_msg : string := "DMA slave config failed".
Definition unsupported_direction_msg : string :=
  "bcm2835-i2s: unsupported dma direction".

(** The two supported branches differ in the cfg fields they fill, the
    channel and the buffer address; [prepare_on] is their common tail. *)
Definition prepare_on (chan : dma_chan) (cfg : dma_slave_config)
  (buf_addr : audio_evl_buffers -> Z) (dir : dma_transfer_direction)
  : M (option dma_async_tx_descriptor) :=
  rc <- ask (fun h => s32 (dmaengine_slave_config E h chan)) ;;
  log (SlaveConfig chan cfg rc) ;;;
  if negb (rc =? 0) then
    log (Printk slave_config_failed_msg []) ;;;
    ret None
  else
    w <- get ;;
    let b := buffer (dev w) in
    got <- ask (fun h => dmaengine_prep_dma_cyclic E h chan) ;;
    log (PrepDmaCyclic chan (buf_addr b) (buffer_len b) (period_len b)
           dir got) ;;;
    ret (if got
         then Some {| desc_chan := chan; callback := false;
                      callback_param := false |}
         else None).

Definition bcm2835_i2s_dma_prepare_cyclic (dir : dma_transfer_direction)
  : M (option dma_async_tx_descriptor) :=
  w <- get ;;
  let d := dev w in
  match dir with
  | DMA_MEM_TO_DEV =>
      prepare_on DMA_TX
        {| cfg_direction := dir; cfg_src_addr := 0;
           cfg_dst_addr := fifo_dma_addr d;
           cfg_src_addr_width := 0; cfg_dst_addr_width := addr_width d;
           cfg_src_maxburst := 0; cfg_dst_maxburst := dma_burst_size d |}
        tx_phys_addr dir
  | DMA_DEV_TO_MEM =>
      prepare_on DMA_RX
        {| cfg_direction := dir; cfg_src_addr := fifo_dma_addr d;
           cfg_dst_addr := 0;
           cfg_src_addr_width := addr_width d; cfg_dst_addr_width := 0;
           cfg_src_maxburst := dma_burst_size d; cfg_dst_maxburst := 0 |}
        rx_phys_addr dir
  | _ =>
      log (Printk unsupported_direction_msg []) ;;;
      ret None
  end.

(** ** bcm2835_i2s_dma_prepare *)

Definition set_tx_desc (x : option dma_async_tx_descriptor)
  (d : audio_evl_dev) : audio_evl_dev :=
  {| audio_hat := audio_hat d; fifo_dma_addr := fifo_dma_addr d;
     addr_width := addr_width d; dma_burst_size := dma_burst_size d;
     tx_desc := x; rx_desc := rx_desc d;
     dma_tx_cookie := dma_tx_cookie d; dma_rx_cookie := dma_rx_cookie d;
     kinterrupts := kinterrupts d; buffer_idx := buffer_idx d;
     cv_gate_enabled := cv_gate_enabled d; clk_rate := clk_rate d;
     buffer := buffer d |}.

Definition set_rx_desc (x : option dma_async_tx_descriptor)
  (d : audio_evl_dev) : audio_evl_dev :=
  {| audio_hat := audio_hat d; fifo_dma_addr := fifo_dma_addr d;
     addr_width := addr_width d; dma_burst_size := dma_burst_size d;
     tx_desc := tx_desc d; rx_desc := x;
     dma_tx_cookie := dma_tx_cookie d; dma_rx_cookie := dma_rx_cookie d;
     kinterrupts := kinterrupts d; buffer_idx := buffer_idx d;
     cv_gate_enabled := cv_gate_enabled d; clk_rate := clk_rate d;
     buffer := buffer d |}.

Definition terminate_async (c : dma_chan) : M Z :=
  rc <- ask (fun h => s32 (dmaengine_terminate_async E h c)) ;;
  log (TerminateAsync c rc) ;;;
  ret rc.

Definition no_tx_descriptor_msg : string := "failed to get DMA TX descriptor".
Definition no_rx_descriptor_msg : string := "failed to get DMA RX descriptor".

Definition bcm2835_i2s_dma_prepare : M Z :=
  txd <- bcm2835_i2s_dma_prepare_cyclic DMA_MEM_TO_DEV ;;
  update_dev (set_tx_desc txd) ;;;
  match txd with
  | None =>
      log (Printk no_tx_descriptor_msg []) ;;;
      ret (- EBUSY)
  | Some _ =>
      rxd <- bcm2835_i2s_dma_prepare_cyclic DMA_DEV_TO_MEM ;;
      update_dev (set_rx_desc rxd) ;;;
      match rxd with
      | None =>
          log (Printk no_rx_descriptor_msg []) ;;;
          terminate_async DMA_TX ;;;
          ret (- EBUSY)
      | Some r =>
          update_dev (set_rx_desc
            (Some {| desc_chan := desc_chan r; callback := true;
                     callback_param := true |})) ;;;
          ret 0
      end
  end.

(** ** bcm2835_i2s_submit_dma *)

(** dma_submit_error of linux/dmaengine.h *)
Definition dma_submit_error (cookie : Z) : Z :=
  if cookie <? 0 then cookie else 0.

Definition set_cookie (c : dma_chan) (cookie : Z) (d : audio_evl_dev)
  : audio_evl_dev :=
  {| audio_hat := audio_hat d; fifo_dma_addr := fifo_dma_addr d;
     addr_width := addr_width d; dma_burst_size := dma_burst_size d;
     tx_desc := tx_desc d; rx_desc := rx_desc d;
     dma_tx_cookie := match c with DMA_TX => cookie
                                 | DMA_RX => dma_tx_cookie d end;
     dma_rx_cookie := match c with DMA_RX => cookie
                                 | DMA_TX => dma_rx_cookie d end;
     kinterrupts := kinterrupts d; buffer_idx := buffer_idx d;
     cv_gate_enabled := cv_gate_enabled d; clk_rate := clk_rate d;
     buffer := buffer d |}.

(** [dmaengine_submit(desc)]: calls through the descriptor, so a NULL
    descriptor is a fault. *)
Definition submit (c : dma_chan) (desc : option dma_async_tx_descriptor)
  : M Z :=
  match desc with
  | None => raise (NullDescriptor c)
  | Some _ =>
      cookie <- ask (fun h => s32 (dmaengine_submit E h c)) ;;
      log (Submit c cookie) ;;;
      ret cookie
  end.

Definition rx_submit_failed_msg : string := "rx dmaengine_submit failed".
Definition tx_submit_failed_msg : string := "tx dmaengine_submit failed".

Definition bcm2835_i2s_submit_dma : M Z :=
  w <- get ;;
  cookie <- submit DMA_RX (rx_desc (dev w)) ;;
  update_dev (set_cookie DMA_RX cookie) ;;;
  if negb (dma_submit_error cookie =? 0) then
    log (Printk rx_submit_failed_msg []) ;;;
    ret (- EIO)
  else
    w <- get ;;
    cookie <- submit DMA_TX (tx_desc (dev w)) ;;
    update_dev (set_cookie DMA_TX cookie) ;;;
    if negb (dma_submit_error cookie =? 0) then
      log (Printk tx_submit_failed_msg []) ;;;
      ret (- EIO)
    else
      log (IssuePending DMA_RX) ;;;
      log (IssuePending DMA_TX) ;;;
      ret 0.

(** ** bcm2835_i2s_exit *)

Definition terminate_failed_msg : string :=
  "bcm2835-i2s: dmaengine_terminate_async failed".

Definition bcm2835_i2s_exit : M Z :=
  rc <- terminate_async DMA_TX ;;
  if rc <? 0 then
    log (Printk terminate_failed_msg []) ;;;
    ret rc
  else
    log (Synchronize DMA_TX) ;;;
    rc <- terminate_async DMA_RX ;;
    if rc <? 0 then
      log (Printk terminate_failed_msg []) ;;;
      ret rc
    else
      log (Synchronize DMA_RX) ;;;
      ret 0.


(** ** bcm2835_i2s_configure *)

(** The locals the hardware-variant branch of bcm2835_i2s_configure
    leaves behind. *)
Record hat_locals : Type := {
  bit_clock_master : bool;
  frame_sync_master : bool;
  mode0 : Z;
  ch1_pos : Z;
  ch2_pos : Z
}.

Definition set_clk_rate (r : Z) (d : audio_evl_dev) : audio_evl_dev :=
  {| audio_hat := audio_hat d; fifo_dma_addr := fifo_dma_addr d;
     addr_width := addr_width d; dma_burst_size := dma_burst_size d;
     tx_desc := tx_desc d; rx_desc := rx_desc d;
     dma_tx_cookie := dma_tx_cookie d; dma_rx_cookie := dma_rx_cookie d;
     kinterrupts := kinterrupts d; buffer_idx := buffer_idx d;
     cv_gate_enabled := cv_gate_enabled d; clk_rate := r;
     buffer := buffer d |}.

Definition clk_set_rate_failed_msg : string :=
  "bcm2835_i2s_configure: clk_set_rate failed".

(** [if (!strcmp(hat, "hifi-berry")) ... else if (!strcmp(hat,
    "hifi-berry-pro")) ... else ...] *)
Definition configure_hat (frame_length : Z) : M hat_locals :=
  hifi_berry <- audio_hat_is "hifi-berry" ;;
  if hifi_berry then
    let bclk_rate := s32 (frame_length * HIFI_BERRY_SAMPLING_RATE) in
    (* clk_set_rate takes an unsigned long: the int is converted *)
    let rate := wrap word_bits bclk_rate in
    rc <- ask (fun h => s32 (clk_set_rate E h rate)) ;;
    log (ClkSetRate rate rc) ;;;
    (if negb (rc =? 0) then log (Printk clk_set_rate_failed_msg [])
     else ret tt) ;;;
    update_dev (set_clk_rate bclk_rate) ;;;
    log ClkPrepareEnable ;;;
    ret {| bit_clock_master := true; frame_sync_master := true;
           mode0 := u32 BCM2835_I2S_CLKI; ch1_pos := 1; ch2_pos := 33 |}
  else
    hifi_berry_pro <- audio_hat_is "hifi-berry-pro" ;;
    if hifi_berry_pro then
      ret {| bit_clock_master := false; frame_sync_master := false;
             mode0 := 0; ch1_pos := 1; ch2_pos := 33 |}
    else
      ret {| bit_clock_master := false; frame_sync_master := false;
             mode0 := 0; ch1_pos := 0; ch2_pos := 32 |}.

Definition lor32 (a b : Z) : Z := u32 (Z.lor a b).

Definition bcm2835_i2s_configure : M unit :=
  let data_length := BCM2835_PCM_WORD_LEN in
  let slots := BCM2835_PCM_SLOTS in
  let slot_width := BCM2835_PCM_WORD_LEN in
  let frame_length := s32 (slots * slot_width) in
  let format := lor32 BCM2835_I2S_CHEN BCM2835_I2S_CHWEX in
  let format :=
    lor32 format (BCM2835_I2S_CHWID (Z.land (u32 (data_length - 8)) 15)) in
  let framesync_length := u32 (Z.quot frame_length 2) in
  l <- configure_hat frame_length ;;
  (* CH2 format is the same as for CH1 *)
  let format := lor32 (BCM2835_I2S_CH1 format) (BCM2835_I2S_CH2 format) in
  let mode := mode0 l in
  let mode := lor32 mode (BCM2835_I2S_FLEN (frame_length - 1)) in
  let mode := lor32 mode (BCM2835_I2S_FSLEN framesync_length) in
  let mode :=
    if negb (bit_clock_master l)
    then lor32 mode (Z.lor (Z.lor BCM2835_I2S_CLKDIS BCM2835_I2S_CLKM)
                       BCM2835_I2S_CLKI)
    else mode in
  let mode :=
    if negb (frame_sync_master l) then lor32 mode BCM2835_I2S_FSM
    else mode in
  (* Invert frame sync to have channel 0 (left) with low FS signal *)
  let mode := lor32 mode BCM2835_I2S_FSI in
  let chan_format :=
    Z.lor (Z.lor format (BCM2835_I2S_CH1_POS (ch1_pos l)))
      (BCM2835_I2S_CH2_POS (ch2_pos l)) in
  rpi_reg_write MODE_A mode ;;;
  rpi_reg_write RXC_A chan_format ;;;
  rpi_reg_write TXC_A chan_format ;;;
  rpi_reg_update_bits MODE_A BCM2835_I2S_CLKDIS 0 ;;;
  (* Setup the DMA parameters *)
  rpi_reg_update_bits CS_A
    (Z.lor (Z.lor (BCM2835_I2S_RXTHR 1) (BCM2835_I2S_TXTHR 1))
       BCM2835_I2S_DMAEN)
    4294967295 ;;;
  rpi_reg_update_bits DREQ_A
    (Z.lor (Z.lor (Z.lor (BCM2835_I2S_TX_PANIC BCM2835_DMA_TX_PANIC_THR)
                     (BCM2835_I2S_RX_PANIC BCM2835_DMA_RX_PANIC_THR))
              (BCM2835_I2S_TX BCM2835_DMA_THR_TX))
       (BCM2835_I2S_RX BCM2835_DMA_THR_RX))
    4294967295.

(** ** bcm2835_i2s_enable *)

Definition bcm2835_i2s_enable : M unit :=
  (* Disable RAM STBY *)
  rpi_reg_update_bits CS_A BCM2835_I2S_STBY BCM2835_I2S_STBY ;;;
  rpi_reg_update_bits INTEN_A
    (Z.lor BCM2835_I2S_INT_TXERR BCM2835_I2S_INT_RXERR)
    (Z.lor BCM2835_I2S_INT_TXERR BCM2835_I2S_INT_RXERR) ;;;
  (* Enable PCM block *)
  rpi_reg_update_bits CS_A BCM2835_I2S_EN BCM2835_I2S_EN.

(** ** bcm2835_i2s_clear_regs *)

Definition bcm2835_i2s_clear_regs : M unit :=
  rpi_reg_write CS_A 0 ;;;
  rpi_reg_write MODE_A 0 ;;;
  rpi_reg_write RXC_A 0 ;;;
  rpi_reg_write TXC_A 0 ;;;
  rpi_reg_write DREQ_A 0 ;;;
  rpi_reg_write INTEN_A 0 ;;;
  rpi_reg_write INTSTC_A 0 ;;;
  rpi_reg_write GRAY 0.

(** ** bcm2835_i2s_buffers_setup *)

(** size_t / pointer / dma_addr_t arithmetic *)
Definition uword (z : Z) : Z := wrap word_bits z.

(** The assignments to the fields of [audio_dev->buffer] at the head of
    bcm2835_i2s_buffers_setup.  The struct is declared in
    rpi-audio-evl.h: lengths are size_t, rx_buf and tx_buf byte
    addresses. *)
Definition buffer_geometry (audio_buffer_size audio_channels : Z)
  (b : audio_evl_buffers) : audio_evl_buffers :=
  let dummy_phys_addr := rx_phys_addr b in
  let period := uword (uword (s32 (audio_buffer_size * audio_channels)) * 4) in
  let len := uword (2 * period) in
  {| cv_gate_out := uword (rx_buf b + uword (len * 2));
     cv_gate_in := uword (uword (rx_buf b + uword (len * 2)) + 4);
     tx_buf := uword (rx_buf b + len);
     rx_buf := rx_buf b;
     buffer_len := len;
     period_len := period;
     tx_phys_addr := uword (dummy_phys_addr + len);
     rx_phys_addr := rx_phys_addr b |}.

Definition set_buffer (f : audio_evl_buffers -> audio_evl_buffers)
  (d : audio_evl_dev) : audio_evl_dev :=
  {| audio_hat := audio_hat d; fifo_dma_addr := fifo_dma_addr d;
     addr_width := addr_width d; dma_burst_size := dma_burst_size d;
     tx_desc := tx_desc d; rx_desc := rx_desc d;
     dma_tx_cookie := dma_tx_cookie d; dma_rx_cookie := dma_rx_cookie d;
     kinterrupts := kinterrupts d; buffer_idx := buffer_idx d;
     cv_gate_enabled := cv_gate_enabled d; clk_rate := clk_rate d;
     buffer := f (buffer d) |}.

(** [for (i = 0; i < n; i++) rpi_reg_write(base, FIFO_A, 0);] *)
Fixpoint prime_tx_fifo (n : nat) : M unit :=
  match n with
  | O => ret tt
  | S n' => rpi_reg_write FIFO_A 0 ;;; prime_tx_fifo n'
  end.

Definition dma_prepare_failed_msg : string :=
  "bcm2835-i2s: dma_prepare failed".
Definition submit_dma_failed_msg : string :=
  "bcm2835-i2s: submit_dma failed".

(** The store [*audio_buffer->cv_gate_out = 0x0f] goes through a pointer
    computed from [rx_buf] and the arguments.  It is recorded as an
    event; whether its address is mapped is not decided here. *)
Definition bcm2835_i2s_buffers_setup (audio_buffer_size audio_channels : Z)
  : M Z :=
  update_dev (set_buffer (buffer_geometry audio_buffer_size audio_channels)) ;;;
  w <- get ;;
  log (Store32 (cv_gate_out (buffer (dev w))) 15) ;;;
  rc <- bcm2835_i2s_dma_prepare ;;
  if negb (rc =? 0) then
    log (Printk dma_prepare_failed_msg []) ;;;
    ret (- EINVAL)
  else
    bcm2835_i2s_clear_regs ;;;
    bcm2835_i2s_configure ;;;
    bcm2835_i2s_enable ;;;
    bcm2835_i2s_clear_fifos true true ;;;
    prime_tx_fifo (Z.to_nat (s32 (BCM2835_DMA_THR_TX + audio_channels))) ;;;
    rc <- bcm2835_i2s_submit_dma ;;
    if negb (rc =? 0) then
      log (Printk submit_dma_failed_msg []) ;;;
      ret rc
    else ret 0.

End Driver.


(** ** Observations on runs *)

Definition chan_eqb (a b : dma_chan) : bool :=
  match a, b with DMA_TX, DMA_TX | DMA_RX, DMA_RX => true | _, _ => false end.

(** DMA-engine calls on channel [c] *)
Definition on_channel (c : dma_chan) (e : event) : bool :=
  match e with
  | SlaveConfig c' _ _ | PrepDmaCyclic c' _ _ _ _ _ | Submit c' _
  | IssuePending c' | TerminateAsync c' _ | Synchronize c'
  | TxStatus c' _ => chan_eqb c c'
  | _ => false
  end.

Definition is_terminate (c : dma_chan) (e : event) : bool :=
  match e with TerminateAsync c' _ => chan_eqb c c' | _ => false end.

Definition with_buffer_idx (i : Z) (w : world) : world :=
  set_dev (fun d =>
    {| audio_hat := audio_hat d; fifo_dma_addr := fifo_dma_addr d;
       addr_width := addr_width d; dma_burst_size := dma_burst_size d;
       tx_desc := tx_desc d; rx_desc := rx_desc d;
       dma_tx_cookie := dma_tx_cookie d; dma_rx_cookie := dma_rx_cookie d;
       kinterrupts := kinterrupts d; buffer_idx := i;
       cv_gate_enabled := cv_gate_enabled d; clk_rate := clk_rate d;
       buffer := buffer d |}) w.

(** The discard loop was entered between [w] and [w']: asserting the
    enable mask reads the control register once, every further read of it
    is a poll of the loop. *)
Definition entered_discard_loop (w w' : world) : bool :=
  (S (nreads w CS_A) <? nreads w' CS_A)%nat.

(** A relation between the device structure before and after a call,
    carried through every outcome of the call. *)
Definition keeps (Rd : audio_evl_dev -> audio_evl_dev -> Prop) {A}
  (m : M A) : Prop :=
  forall w, Rd (dev w) (dev (final_world (m w))).

Definition same_buffer (d d' : audio_evl_dev) : Prop :=
  buffer d' = buffer d.

Section Observations.

Context {Hdr : i2s_header}.
Variable E : env.

(** What rpi_reg_update_bits leaves behind. *)
Definition after_update_bits (r : i2s_reg) (mask value : Z) (w : world)
  : world :=
  let orig := u32 (feed E r (nreads w r)) in
  let v := u32 (Z.lor (Z.land orig (not32 (u32 mask)))
                  (Z.land (u32 value) (u32 mask))) in
  {| dev := dev w;
     nreads := fun r' => if reg_eqb r' r then S (nreads w r') else nreads w r';
     latched := fun r' => if reg_eqb r' r then v else latched w r';
     trace := Writel r v :: Readl r orig :: trace w |}.

(** The k-th value the control register reads once it has been read
    [base] times. *)
Definition cs_read (base k : nat) : Z := u32 (feed E CS_A (base + k)).

Definition sync_differs (base : nat) (sync : Z) (k : nat) : bool :=
  negb (Z.land (cs_read base k) BCM2835_I2S_SYNC =? sync).

(** The trace of [n] polls of the control register. *)
Definition poll_events (base n : nat) : history :=
  rev (map (fun k => Readl CS_A (cs_read base k)) (seq 0 n)).

(** The hardware variant makes the peripheral bit-clock and frame-sync
    master, as bcm2835_i2s_configure decides it. *)
Definition is_bit_clock_provider (w : world) : bool :=
  match returned (configure_hat E
                    (s32 (BCM2835_PCM_SLOTS * BCM2835_PCM_WORD_LEN)) w) with
  | Some l => bit_clock_master l && frame_sync_master l
  | None => false
  end.

(** *** The sample stream of the frame synchroniser *)

(** [fb]: how often the FIFO had been read when the loop was entered. *)
Variable fb : nat.

(** The k-th sample the loop pops, counted from 0. *)
Definition rx_sample (k : nat) : Z := s32 (u32 (feed E FIFO_A (fb + k))).

(** Samples [q] and [q + 1] are both zero. *)
Definition zero_pair (q : nat) : bool :=
  (rx_sample q =? 0) && (rx_sample (S q) =? 0).

(** The j-th read of the control register shows RXD. *)
Definition rxd_ready (j : nat) : bool :=
  negb (Z.land (u32 (feed E CS_A j)) BCM2835_I2S_RXD =? 0).

(** How many of the [fuel] reads from the [base]-th on show RXD. *)
Fixpoint rxd_count (base fuel : nat) : nat :=
  match fuel with
  | O => O
  | S fuel' =>
      ((if rxd_ready base then 1 else 0) + rxd_count (S base) fuel')%nat
  end.

(** samples[back] once [k] samples have been popped *)
Definition recent (k back : nat) : Z :=
  if (back <? k)%nat then rx_sample (k - 1 - back) else 255.

(** tmp once [k] samples have been popped *)
Definition recorded (k : nat) : list (option Z) :=
  map (fun i => Some (rx_sample i)) (seq 0 k) ++ repeat None (tmp_size - k).

Record synch_inv (k : nat) (l : synch_locals) (w : world) : Prop := {
  inv_fifo : nreads w FIFO_A = (fb + k)%nat;
  inv_discarded : discarded l = Z.of_nat k;
  inv_tmp : tmp l = recorded k;
  inv_samples0 : samples0 l = recent k 0;
  inv_samples1 : samples1 l = recent k 1
}.

End Observations.

(** ** A header instance for evaluating the model

    Bit positions as in the BCM2835 peripherals manual (the PCM/I2S block);
    thresholds, pins and the start command are sample values. *)
Definition sample_header : i2s_header := {|
  BCM2835_I2S_STBY := 2 ^ 25;
  BCM2835_I2S_SYNC := 2 ^ 24;
  BCM2835_I2S_RXD := 2 ^ 20;
  BCM2835_I2S_DMAEN := 2 ^ 9;
  BCM2835_I2S_RXTHR := fun v => Z.shiftl v 7;
  BCM2835_I2S_TXTHR := fun v => Z.shiftl v 5;
  BCM2835_I2S_RXCLR := 2 ^ 4;
  BCM2835_I2S_TXCLR := 2 ^ 3;
  BCM2835_I2S_TXON := 2 ^ 2;
  BCM2835_I2S_RXON := 2 ^ 1;
  BCM2835_I2S_EN := 1;
  BCM2835_I2S_CLKDIS := 2 ^ 28;
  BCM2835_I2S_CLKM := 2 ^ 23;
  BCM2835_I2S_CLKI := 2 ^ 22;
  BCM2835_I2S_FSM := 2 ^ 21;
  BCM2835_I2S_FSI := 2 ^ 20;
  BCM2835_I2S_FLEN := fun v => Z.shiftl v 10;
  BCM2835_I2S_FSLEN := fun v => v;
  BCM2835_I2S_CHWEX := 2 ^ 15;
  BCM2835_I2S_CHEN := 2 ^ 14;
  BCM2835_I2S_CHWID := fun v => v;
  BCM2835_I2S_CH1 := fun v => Z.shiftl v 16;
  BCM2835_I2S_CH2 := fun v => v;
  BCM2835_I2S_CH1_POS := fun v => Z.shiftl v 20;
  BCM2835_I2S_CH2_POS := fun v => Z.shiftl v 4;
  BCM2835_I2S_TX_PANIC := fun v => Z.shiftl v 24;
  BCM2835_I2S_RX_PANIC := fun v => Z.shiftl v 16;
  BCM2835_I2S_TX := fun v => Z.shiftl v 8;
  BCM2835_I2S_RX := fun v => v;
  BCM2835_DMA_TX_PANIC_THR := 16;
  BCM2835_DMA_RX_PANIC_THR := 48;
  BCM2835_DMA_THR_TX := 48;
  BCM2835_DMA_THR_RX := 32;
  BCM2835_I2S_INT_TXERR := 2 ^ 2;
  BCM2835_I2S_INT_RXERR := 2 ^ 3;
  BCM2835_I2S_START_CMD := 1;
  HIFI_BERRY_SAMPLING_RATE := 48000;
  BCM2835_I2S_CVGATES_SUPPORT := true;
  CVGATE_OUTS_LIST := [17; 27; 22; 23];
  CVGATE_INS_LIST := [5; 6];
  word_bits := 64
|}.

(** An environment in which every DMA-engine call succeeds; [regs] gives
    the values the registers read. *)
Definition quiet_env (regs : i2s_reg -> nat -> Z) : env := {|
  feed := regs;
  dmaengine_slave_config := fun _ _ => 0;
  dmaengine_prep_dma_cyclic := fun _ _ => true;
  dmaengine_submit := fun h _ => 1 + Z.of_nat (List.length h);
  dmaengine_terminate_async := fun _ _ => 0;
  dmaengine_tx_status := fun _ _ => (DMA_IN_PROGRESS, (0, 0));
  clk_set_rate := fun _ _ => 0;
  gpio_get_value := fun _ _ => 0;
  mem_load := fun _ _ => 0
|}.

Definition blank_buffers : audio_evl_buffers := {|
  cv_gate_out := 0; cv_gate_in := 0; tx_buf := 0; rx_buf := 4096;
  buffer_len := 0; period_len := 0; tx_phys_addr := 0;
  rx_phys_addr := 1073741824
|}.

Definition blank_dev (hat : string) : audio_evl_dev := {|
  audio_hat := hat; fifo_dma_addr := 2116038660; addr_width := 4;
  dma_burst_size := 2; tx_desc := None; rx_desc := None;
  dma_tx_cookie := 0; dma_rx_cookie := 0; kinterrupts := 0;
  buffer_idx := 0; cv_gate_enabled := false; clk_rate := 0;
  buffer := blank_buffers
|}.

Definition boot (hat : string) : world := {|
  dev := blank_dev hat;
  nreads := fun _ => O;
  latched := fun _ => 0;
  trace := []
|}.

(** TX termination is refused, everything else succeeds. *)
Definition tx_terminate_fails : env := {|
  feed := fun _ _ => 0;
  dmaengine_slave_config := fun _ _ => 0;
  dmaengine_prep_dma_cyclic := fun _ _ => true;
  dmaengine_submit := fun _ _ => 1;
  dmaengine_terminate_async :=
    fun _ c => match c with DMA_TX => - EIO | DMA_RX => 0 end;
  dmaengine_tx_status := fun _ _ => (DMA_IN_PROGRESS, (0, 0));
  clk_set_rate := fun _ _ => 0;
  gpio_get_value := fun _ _ => 0;
  mem_load := fun _ _ => 0
|}.

(** The descriptor of channel [refused] cannot be had, the other can. *)
Definition descriptor_refused (refused : dma_chan) : env := {|
  feed := fun _ _ => 0;
  dmaengine_slave_config := fun _ _ => 0;
  dmaengine_prep_dma_cyclic := fun _ c => negb (chan_eqb c refused);
  dmaengine_submit := fun _ _ => 1;
  dmaengine_terminate_async := fun _ _ => 0;
  dmaengine_tx_status := fun _ _ => (DMA_IN_PROGRESS, (0, 0));
  clk_set_rate := fun _ _ => 0;
  gpio_get_value := fun _ _ => 0;
  mem_load := fun _ _ => 0
|}.

(** Registers of a running codec: RXD is always set, and the FIFO
    delivers [lead] samples of value 1 followed by zeros. *)
Definition codec_regs (lead : nat) (r : i2s_reg) (k : nat) : Z :=
  match r with
  | CS_A => 2 ^ 20
  | FIFO_A => if (k <? lead)%nat then 1 else 0
  | _ => 0
  end.

(** The SYNC flag reads back set from the [k0]-th read of the control
    register on. *)
Definition sync_after (k0 : nat) (r : i2s_reg) (k : nat) : Z :=
  match r with
  | CS_A => if (k <? k0)%nat then 0 else 2 ^ 24
  | _ => 0
  end.

(** A world in which both descriptors have been prepared. *)
Definition prepared (hat : string) : world :=
  final_world
    (bcm2835_i2s_dma_prepare (quiet_env (fun _ _ => 0)) (boot hat)).


(** ** Observations on what a call emits *)

Definition is_reg_access (e : event) : bool :=
  match e with Readl _ _ | Writel _ _ => true | _ => false end.

Definition on_reg (r : i2s_reg) (e : event) : bool :=
  match e with
  | Readl r' _ | Writel r' _ => reg_eqb r' r
  | _ => false
  end.

Definition is_write_to (r : i2s_reg) (e : event) : bool :=
  match e with Writel r' _ => reg_eqb r' r | _ => false end.

Definition is_read_of (r : i2s_reg) (e : event) : bool :=
  match e with Readl r' _ => reg_eqb r' r | _ => false end.

Definition is_issue_pending (e : event) : bool :=
  match e with IssuePending _ => true | _ => false end.

Definition is_submit (c : dma_chan) (e : event) : bool :=
  match e with Submit c' _ => chan_eqb c c' | _ => false end.

(** Calls into the DMA engine that change what a channel does. *)
Definition is_dma_control (e : event) : bool :=
  match e with
  | SlaveConfig _ _ _ | PrepDmaCyclic _ _ _ _ _ _ | Submit _ _
  | IssuePending _ | TerminateAsync _ _ | Synchronize _ => true
  | _ => false
  end.

(** The call returns from every world; every event it adds to the trace
    satisfies [p], and the device structure after it is related by [Rd]
    to the one before. *)
Definition runs (p : event -> bool)
  (Rd : audio_evl_dev -> audio_evl_dev -> Prop) {A} (m : M A) : Prop :=
  forall w, exists (a : A) (w' : world) (evs : history),
    m w = Ok a w'
    /\ trace w' = evs ++ trace w
    /\ forallb p evs = true
    /\ Rd (dev w) (dev w').

(** Descriptors and buffer set are the same. *)
Definition same_dma_setup (d d' : audio_evl_dev) : Prop :=
  tx_desc d' = tx_desc d /\ rx_desc d' = rx_desc d /\ buffer d' = buffer d.

(** Programming of the peripheral: anything but an access to the FIFO or
    a call that changes a DMA channel. *)
Definition is_setup_event (e : event) : bool :=
  negb (on_reg FIFO_A e) && negb (is_dma_control e).

Definition direction_eqb (a b : dma_transfer_direction) : bool :=
  match a, b with
  | DMA_MEM_TO_MEM, DMA_MEM_TO_MEM | DMA_MEM_TO_DEV, DMA_MEM_TO_DEV
  | DMA_DEV_TO_MEM, DMA_DEV_TO_MEM | DMA_DEV_TO_DEV, DMA_DEV_TO_DEV
  | DMA_TRANS_NONE, DMA_TRANS_NONE => true
  | _, _ => false
  end.

(** A request for a cyclic descriptor spans the buffer set [b]: the
    playback half for TX, the capture half for RX, the whole length, in
    periods of the period length. *)
Definition prep_matches (b : audio_evl_buffers) (e : event) : bool :=
  match e with
  | PrepDmaCyclic c addr len period dir _ =>
      (addr =? match c with DMA_TX => tx_phys_addr b
                           | DMA_RX => rx_phys_addr b end)
      && (len =? buffer_len b) && (period =? period_len b)
      && direction_eqb dir match c with DMA_TX => DMA_MEM_TO_DEV
                                      | DMA_RX => DMA_DEV_TO_MEM end
  | _ => true
  end.

(** What the descriptor preparation may emit. *)
Definition is_prepare_event (b : audio_evl_buffers) (e : event) : bool :=
  negb (is_reg_access e) && negb (is_issue_pending e)
  && negb (is_submit DMA_TX e) && negb (is_submit DMA_RX e)
  && prep_matches b e.

(** What the submission may emit. *)
Definition is_submit_event (e : event) : bool :=
  match e with
  | Submit _ _ | IssuePending _ | Printk _ _ => true
  | _ => false
  end.

Definition is_flag (e : event) : bool :=
  match e with EvlRaiseFlag => true | _ => false end.

(** The value a read-modify-write of [orig] under [mask] with [value]
    puts into the register. *)
Definition rmw (orig mask value : Z) : Z :=
  u32 (Z.lor (Z.land orig (not32 (u32 mask))) (Z.land (u32 value) (u32 mask))).

(** The values written to register [r], oldest first. *)
Definition writes_to (r : i2s_reg) (h : history) : list Z :=
  flat_map (fun e => match e with
                     | Writel r' v => if reg_eqb r' r then [v] else []
                     | _ => []
                     end) (rev h).

(** What the completion callback may emit: status queries, log lines,
    the flag, and the accesses of the CV-gate relay. *)
Definition is_status_event (e : event) : bool :=
  match e with TxStatus _ _ | Printk _ _ => true | _ => false end.

Definition is_cv_gate_event (e : event) : bool :=
  match e with
  | Load32 _ _ | Store32 _ _ | GpioSetValue _ _ | GpioGetValue _ _ => true
  | _ => false
  end.

(** The events of one status query, newest first: the query, and after
    it the log line when the status is DMA_ERROR. *)
Definition status_query (c : dma_chan) (st : dma_status)
    (residue in_flight : Z) : history :=
  (if dma_status_eqb st DMA_ERROR
   then [Printk dma_status_msg [dma_status_code st; residue; in_flight]]
   else [])
  ++ [TxStatus c st].

(** The events of the output loop of the CV-gate relay, oldest first, for
    the pins [pins] from bit [i] on: for each pin a load of the gate-out
    word at [addr] and a write to the pin of that word's bit. *)
Fixpoint relay_out_ok (addr : Z) (pins : list Z) (i : Z) (evs : history)
    : bool :=
  match pins, evs with
  | [], [] => true
  | pin :: rest, Load32 a word :: GpioSetValue p v :: evs' =>
      (a =? addr) && (p =? pin)
      && (v =? u32 (Z.land word (Z.shiftl 1 i)))
      && relay_out_ok addr rest (i + 1) evs'
  | _, _ => false
  end.

(** The events of its input loop, oldest first: one read of each pin; the
    result is the word built from the values read, starting from
    [val]. *)
Fixpoint relay_in_word (pins : list Z) (i val : Z) (evs : history)
    : option Z :=
  match pins, evs with
  | [], [] => Some val
  | pin :: rest, GpioGetValue p g :: evs' =>
      if p =? pin
      then relay_in_word rest (i + 1)
             (u32 (Z.lor val (s32 (Z.shiftl g i)))) evs'
      else None
  | _, _ => None
  end.

Section Harness.

Context {Hdr : i2s_header}.
Variable E : env.

(** [n] completion interrupts in a row. *)
Fixpoint dma_callbacks (n : nat) : M unit :=
  match n with
  | O => ret tt
  | S n' => bcm2835_i2s_dma_callback E ;;; dma_callbacks n'
  end.

End Harness.

Section ConfigureWords.

Context {Hdr : i2s_header}.

(** The format of one channel as bcm2835_i2s_configure builds it:
    enabled, extended width, width field 8 (32 bits). *)
Definition channel_format : Z :=
  lor32 (lor32 BCM2835_I2S_CHEN BCM2835_I2S_CHWEX) (BCM2835_I2S_CHWID 8).

(** The word bcm2835_i2s_configure writes to both channel-format
    registers, given what the variant branch decided. *)
Definition chan_word (l : hat_locals) : Z :=
  u32 (Z.lor (Z.lor (lor32 (BCM2835_I2S_CH1 channel_format)
                       (BCM2835_I2S_CH2 channel_format))
                (BCM2835_I2S_CH1_POS (ch1_pos l)))
         (BCM2835_I2S_CH2_POS (ch2_pos l))).

(** The word it writes to the mode register: frame length 64, frame-sync
    length 32. *)
Definition mode_word (l : hat_locals) : Z :=
  let mode := lor32 (mode0 l) (BCM2835_I2S_FLEN 63) in
  let mode := lor32 mode (BCM2835_I2S_FSLEN 32) in
  let mode :=
    if negb (bit_clock_master l)
    then lor32 mode (Z.lor (Z.lor BCM2835_I2S_CLKDIS BCM2835_I2S_CLKM)
                       BCM2835_I2S_CLKI)
    else mode in
  let mode :=
    if negb (frame_sync_master l) then lor32 mode BCM2835_I2S_FSM
    else mode in
  lor32 mode BCM2835_I2S_FSI.

End ConfigureWords.

(** * Set-up and tear-down: probe, init, remove *)

(** bcm2835_i2s_dma_setup, bcm2835_init_cv_gates, bcm2835_free_cv_gates,
    bcm2835_i2s_init, bcm2835_get_i2s_dev, bcm2835_i2s_probe and
    bcm2835_i2s_remove talk to the kernel's allocators, the GPIO layer and
    the DMA channel allocator, not to the peripheral.  They are modelled
    over a state of their own: the pointer fields of the driver structure
    and the calls made so far. *)
Module Lifecycle.

(** Pointers are integers, read as the kernel's [long]: 0 is NULL, and the
    values from -MAX_ERRNO to -1 are the errnos wrapped by ERR_PTR.
    [IS_ERR] and [PTR_ERR] are the kernel's, of linux/err.h. *)
Definition MAX_ERRNO : Z := 4095.

Definition IS_ERR (p : Z) : bool := (- MAX_ERRNO <=? p) && (p <? 0).

Definition PTR_ERR (p : Z) : Z := p.

(** The calls into the kernel, each with its arguments and its answer.
    The [struct device *] argument of the devm_ and dma_request_chan calls
    is the platform device throughout and is left out; the device of
    dma_alloc_coherent and dma_free_coherent is that of a DMA channel and
    is given by the channel.  [Log] stands for printk and dev_err, with
    the format string without its trailing newline. *)
Inductive kcall : Type :=
| DevmKzalloc (got : Z)
| DevmClkGet (got : Z)
| DevmIoremapResource (index : Z) (got : Z)
| EvlInitFlag
| DmaRequestChan (name : string) (got : Z)
| DmaReleaseChannel (chan : Z)
| Kcalloc (n : Z) (got : Z)
| Kfree (p : Z)
| DmaAllocCoherent (chan size cpu_addr dma_handle : Z)
| DmaFreeCoherent (chan size cpu_addr dma_handle : Z)
| GpioRequest (pin : Z) (label : string) (ret : Z)
| GpioDirectionOutput (pin value ret : Z)
| GpioDirectionInput (pin ret : Z)
| GpioFree (pin : Z)
| DevmIounmap (addr : Z)
| DevmKfree (p : Z)
| Log (msg : string)
| LogNum (msg : string) (arg : Z)
| LogStr (msg : string) (arg : string).

(** What the kernel answers, given the calls made so far (newest
    first). *)
Record kernel : Type := {
  devm_kzalloc : list kcall -> Z;
  devm_clk_get : list kcall -> Z;
  (** the mapped base and [res->start] *)
  devm_platform_get_and_ioremap_resource : list kcall -> Z * Z;
  dma_request_chan : list kcall -> string -> Z;
  kcalloc : list kcall -> Z;
  (** the CPU address (0 is NULL) and the DMA handle *)
  dma_alloc_coherent : list kcall -> Z -> Z -> Z * Z;
  gpio_request : list kcall -> Z -> Z;
  gpio_direction_output : list kcall -> Z -> Z -> Z;
  gpio_direction_input : list kcall -> Z -> Z
}.

(** Constants of the headers that the set-up code uses and the streaming
    code does not. *)
Class lifecycle_header : Type := {
  RESERVED_BUFFER_SIZE_IN_PAGES : Z;
  PAGE_SIZE : Z;
  BCM2835_I2S_FIFO_A_REG : Z
}.

(** enum dma_slave_buswidth of the kernel *)
Definition DMA_SLAVE_BUSWIDTH_4_BYTES : Z := 4.

(** The static pointer [audio_dev_static], the structure it points to and
    the buffer structure that one points to.  A pointer is an integer, 0
    is NULL.  [audio_dev] holds the fields the streaming functions use;
    its [buffer] is the target of [buffer_ptr].  The fields [dev] and
    [event_flag], which nothing here reads back, are not kept. *)
Record state : Type := {
  audio_dev_static : Z;
  audio_dev : audio_evl_dev;
  clk : Z;
  i2s_base_addr : Z;
  dma_tx : Z;
  dma_rx : Z;
  buffer_ptr : Z;
  calls : list kcall
}.

Inductive crash : Type :=
| NullPointer (what : string)    (* a field read or written through NULL *)
| Uninitialised (var : string).  (* a local returned before it was set *)

Inductive result (A : Type) : Type :=
| Done (a : A) (s : state)
| Crashed (c : crash) (s : state).
Arguments Done {A} a s.
Arguments Crashed {A} c s.

Definition L (A : Type) : Type := state -> result A.

Definition pure {A} (a : A) : L A := fun s => Done a s.

Definition andthen {A B} (m : L A) (k : A -> L B) : L B :=
  fun s => match m s with
           | Done a s' => k a s'
           | Crashed c s' => Crashed c s'
           end.

Notation "x <~ m ;; k" := (andthen m (fun x => k))
  (at level 61, m at next level, right associativity).
Notation "m ;;~ k" := (andthen m (fun _ => k))
  (at level 61, right associativity).

Definition current : L state := fun s => Done s s.
Definition stop {A} (c : crash) : L A := fun s => Crashed c s.
Definition alter (f : state -> state) : L unit := fun s => Done tt (f s).

Definition record (c : kcall) (s : state) : state :=
  {| audio_dev_static := audio_dev_static s; audio_dev := audio_dev s;
     clk := clk s; i2s_base_addr := i2s_base_addr s;
     dma_tx := dma_tx s; dma_rx := dma_rx s; buffer_ptr := buffer_ptr s;
     calls := c :: calls s |}.

Definition note (c : kcall) : L unit := alter (record c).

(** A call whose answer the kernel decides. *)
Definition call {A} (answer : list kcall -> A) (c : A -> kcall) : L A :=
  fun s => let a := answer (calls s) in Done a (record (c a) s).

Definition end_state {A} (r : result A) : state :=
  match r with Done _ s | Crashed _ s => s end.

Definition value {A} (r : result A) : option A :=
  match r with Done a _ => Some a | Crashed _ _ => None end.

(** Field assignments *)

Definition set_dma_tx (p : Z) : L unit :=
  alter (fun s =>
    {| audio_dev_static := audio_dev_static s; audio_dev := audio_dev s;
       clk := clk s; i2s_base_addr := i2s_base_addr s;
       dma_tx := p; dma_rx := dma_rx s; buffer_ptr := buffer_ptr s;
       calls := calls s |}).

Definition set_dma_rx (p : Z) : L unit :=
  alter (fun s =>
    {| audio_dev_static := audio_dev_static s; audio_dev := audio_dev s;
       clk := clk s; i2s_base_addr := i2s_base_addr s;
       dma_tx := dma_tx s; dma_rx := p; buffer_ptr := buffer_ptr s;
       calls := calls s |}).

Definition set_clk (c : Z) : L unit :=
  alter (fun s =>
    {| audio_dev_static := audio_dev_static s; audio_dev := audio_dev s;
       clk := c; i2s_base_addr := i2s_base_addr s;
       dma_tx := dma_tx s; dma_rx := dma_rx s; buffer_ptr := buffer_ptr s;
       calls := calls s |}).

Definition set_i2s_base_addr (p : Z) : L unit :=
  alter (fun s =>
    {| audio_dev_static := audio_dev_static s; audio_dev := audio_dev s;
       clk := clk s; i2s_base_addr := p;
       dma_tx := dma_tx s; dma_rx := dma_rx s; buffer_ptr := buffer_ptr s;
       calls := calls s |}).

Definition set_audio_dev (f : audio_evl_dev -> audio_evl_dev) : L unit :=
  alter (fun s =>
    {| audio_dev_static := audio_dev_static s; audio_dev := f (audio_dev s);
       clk := clk s; i2s_base_addr := i2s_base_addr s;
       dma_tx := dma_tx s; dma_rx := dma_rx s; buffer_ptr := buffer_ptr s;
       calls := calls s |}).

Definition with_buffer (f : audio_evl_buffers -> audio_evl_buffers)
    (d : audio_evl_dev) : audio_evl_dev :=
  {| audio_hat := audio_hat d; fifo_dma_addr := fifo_dma_addr d;
     addr_width := addr_width d; dma_burst_size := dma_burst_size d;
     tx_desc := tx_desc d; rx_desc := rx_desc d;
     dma_tx_cookie := dma_tx_cookie d; dma_rx_cookie := dma_rx_cookie d;
     kinterrupts := kinterrupts d; buffer_idx := buffer_idx d;
     cv_gate_enabled := cv_gate_enabled d; clk_rate := clk_rate d;
     buffer := f (buffer d) |}.

Definition with_audio_hat (hat : string) (d : audio_evl_dev)
    : audio_evl_dev :=
  {| audio_hat := hat; fifo_dma_addr := fifo_dma_addr d;
     addr_width := addr_width d; dma_burst_size := dma_burst_size d;
     tx_desc := tx_desc d; rx_desc := rx_desc d;
     dma_tx_cookie := dma_tx_cookie d; dma_rx_cookie := dma_rx_cookie d;
     kinterrupts := kinterrupts d; buffer_idx := buffer_idx d;
     cv_gate_enabled := cv_gate_enabled d; clk_rate := clk_rate d;
     buffer := buffer d |}.

Definition with_cv_gate_enabled (b : bool) (d : audio_evl_dev)
    : audio_evl_dev :=
  {| audio_hat := audio_hat d; fifo_dma_addr := fifo_dma_addr d;
     addr_width := addr_width d; dma_burst_size := dma_burst_size d;
     tx_desc := tx_desc d; rx_desc := rx_desc d;
     dma_tx_cookie := dma_tx_cookie d; dma_rx_cookie := dma_rx_cookie d;
     kinterrupts := kinterrupts d; buffer_idx := buffer_idx d;
     cv_gate_enabled := b; clk_rate := clk_rate d;
     buffer := buffer d |}.

Definition with_dma_params (fifo width burst : Z) (d : audio_evl_dev)
    : audio_evl_dev :=
  {| audio_hat := audio_hat d; fifo_dma_addr := fifo;
     addr_width := width; dma_burst_size := burst;
     tx_desc := tx_desc d; rx_desc := rx_desc d;
     dma_tx_cookie := dma_tx_cookie d; dma_rx_cookie := dma_rx_cookie d;
     kinterrupts := kinterrupts d; buffer_idx := buffer_idx d;
     cv_gate_enabled := cv_gate_enabled d; clk_rate := clk_rate d;
     buffer := buffer d |}.

Definition with_rx_buf (p : Z) (b : audio_evl_buffers)
    : audio_evl_buffers :=
  {| cv_gate_out := cv_gate_out b; cv_gate_in := cv_gate_in b;
     tx_buf := tx_buf b; rx_buf := p; buffer_len := buffer_len b;
     period_len := period_len b; tx_phys_addr := tx_phys_addr b;
     rx_phys_addr := rx_phys_addr b |}.

Definition with_rx_phys_addr (p : Z) (b : audio_evl_buffers)
    : audio_evl_buffers :=
  {| cv_gate_out := cv_gate_out b; cv_gate_in := cv_gate_in b;
     tx_buf := tx_buf b; rx_buf := rx_buf b; buffer_len := buffer_len b;
     period_len := period_len b; tx_phys_addr := tx_phys_addr b;
     rx_phys_addr := p |}.

(** What devm_kzalloc and kcalloc hand out: all bytes zero.  The NULL
    [audio_hat] is the empty string. *)
Definition zeroed_buffers : audio_evl_buffers :=
  {| cv_gate_out := 0; cv_gate_in := 0; tx_buf := 0; rx_buf := 0;
     buffer_len := 0; period_len := 0; tx_phys_addr := 0;
     rx_phys_addr := 0 |}.

Definition zeroed_dev : audio_evl_dev :=
  {| audio_hat := ""; fifo_dma_addr := 0; addr_width := 0;
     dma_burst_size := 0; tx_desc := None; rx_desc := None;
     dma_tx_cookie := 0; dma_rx_cookie := 0; kinterrupts := 0;
     buffer_idx := 0; cv_gate_enabled := false; clk_rate := 0;
     buffer := zeroed_buffers |}.

Section Functions.

Context {Hdr : i2s_header} {Lhdr : lifecycle_header}.
Variable K : kernel.

(** ** bcm2835_i2s_dma_setup *)

Definition dma_setup_msg : string := "bcm2835-i2s: dma setup successful.".

Definition bcm2835_i2s_dma_setup : L Z :=
  tx <~ call (fun h => dma_request_chan K h "tx") (DmaRequestChan "tx") ;;
  set_dma_tx tx ;;~
  if IS_ERR tx then
    set_dma_tx 0 ;;~
    pure (s32 (- ENODEV))
  else
    rx <~ call (fun h => dma_request_chan K h "rx") (DmaRequestChan "rx") ;;
    set_dma_rx rx ;;~
    if IS_ERR rx then
      set_dma_rx 0 ;;~
      s <~ current ;;
      note (DmaReleaseChannel (dma_tx s)) ;;~
      set_dma_tx 0 ;;~
      pure (s32 (- ENODEV))
    else
      note (Log dma_setup_msg) ;;~
      pure 0.

(** ** bcm2835_init_cv_gates *)

Definition cv_request_failed_msg : string :=
  "bcm2835-i2s: failed to get cv out".
Definition cv_direction_failed_msg : string :=
  "bcm2835-i2s: failed to set gpio dir".

(** The two loops.  [ret] is the local of that name, [None] while it has
    not been assigned.  [inl r] is a [return r] from inside the loop,
    [inr ret] the end of the loop. *)
Fixpoint init_cv_gate_outs (pins : list Z) (ret : option Z)
    : L (Z + option Z) :=
  match pins with
  | [] => pure (inr ret)
  | pin :: rest =>
      r <~ call (fun h => s32 (gpio_request K h pin))
             (GpioRequest pin "cv_out_gate") ;;
      if r <? 0 then
        note (Log cv_request_failed_msg) ;;~
        pure (inl r)
      else
        r <~ call (fun h => s32 (gpio_direction_output K h pin 0))
               (GpioDirectionOutput pin 0) ;;
        if r <? 0 then
          note (Log cv_direction_failed_msg) ;;~
          pure (inl r)
        else init_cv_gate_outs rest (Some r)
  end.

Fixpoint init_cv_gate_ins (pins : list Z) (ret : option Z)
    : L (Z + option Z) :=
  match pins with
  | [] => pure (inr ret)
  | pin :: rest =>
      r <~ call (fun h => s32 (gpio_request K h pin))
             (GpioRequest pin "cv_in_gate") ;;
      if r <? 0 then
        note (Log cv_request_failed_msg) ;;~
        pure (inl r)
      else
        r <~ call (fun h => s32 (gpio_direction_input K h pin))
               (GpioDirectionInput pin) ;;
        if r <? 0 then
          note (Log cv_direction_failed_msg) ;;~
          pure (inl r)
        else init_cv_gate_ins rest (Some r)
  end.

Definition bcm2835_init_cv_gates : L Z :=
  o <~ init_cv_gate_outs CVGATE_OUTS_LIST None ;;
  match o with
  | inl r => pure r
  | inr ret =>
      i <~ init_cv_gate_ins CVGATE_INS_LIST ret ;;
      match i with
      | inl r => pure r
      | inr (Some r) => pure r
      | inr None => stop (Uninitialised "ret")
      end
  end.

(** ** bcm2835_free_cv_gates *)

Fixpoint gpio_free_each (pins : list Z) : L unit :=
  match pins with
  | [] => pure tt
  | pin :: rest => note (GpioFree pin) ;;~ gpio_free_each rest
  end.

Definition bcm2835_free_cv_gates : L unit :=
  gpio_free_each CVGATE_OUTS_LIST ;;~
  gpio_free_each CVGATE_INS_LIST.

(** ** bcm2835_i2s_init *)

Definition elk_hat_msg : string := "Elk hat: %s".
Definition no_dma_mem_msg : string :=
  "bcm2835-i2s: couldn't allocate dma mem".

Definition reserved_buffer_size : Z :=
  uword (RESERVED_BUFFER_SIZE_IN_PAGES * PAGE_SIZE).

(** The call of bcm2835_init_cv_gates is not under
    BCM2835_I2S_CVGATES_SUPPORT in the source, and its result is
    dropped. *)
Definition bcm2835_i2s_init (hat : string) : L Z :=
  s <~ current ;;
  (* audio_buffer = audio_dev->buffer *)
  if audio_dev_static s =? 0 then stop (NullPointer "audio_dev_static")
  else
    set_audio_dev (with_audio_hat hat) ;;~
    note (LogStr elk_hat_msg hat) ;;~
    (* audio_dev->dma_rx->device->dev *)
    if dma_rx s =? 0 then stop (NullPointer "dma_rx")
    else
      got <~ call (fun h => dma_alloc_coherent K h (dma_rx s)
                              reserved_buffer_size)
               (fun got => DmaAllocCoherent (dma_rx s) reserved_buffer_size
                             (fst got) (snd got)) ;;
      (* audio_buffer->rx_buf = ... *)
      if buffer_ptr s =? 0 then stop (NullPointer "buffer")
      else
        set_audio_dev (with_buffer (with_rx_buf (fst got))) ;;~
        if fst got =? 0 then
          note (Log no_dma_mem_msg) ;;~
          pure (s32 (- ENOMEM))
        else
          set_audio_dev (with_buffer (with_rx_phys_addr (snd got))) ;;~
          if String.eqb hat "elk-pi" then
            set_audio_dev (with_cv_gate_enabled true) ;;~
            bcm2835_init_cv_gates ;;~
            pure 0
          else pure 0.

(** ** bcm2835_get_i2s_dev *)

Definition bcm2835_get_i2s_dev : L Z :=
  s <~ current ;;
  pure (audio_dev_static s).

(** ** bcm2835_i2s_probe *)

Definition no_clk_msg : string := "could not get clk: %ld".
Definition ioremap_failed_msg : string :=
  "devm_platform_get_and_ioremap_resource failed.".
Definition no_audio_buffer_msg : string := "couldn't allocate audio_buffer".

(** [audio_dev_static = audio_dev] for a structure fresh from
    devm_kzalloc. *)
Definition adopt (p : Z) : L unit :=
  alter (fun s =>
    {| audio_dev_static := p; audio_dev := zeroed_dev;
       clk := 0; i2s_base_addr := 0;
       dma_tx := 0; dma_rx := 0; buffer_ptr := 0;
       calls := calls s |}).

(** [audio_dev->buffer = audio_buffer] for a structure fresh from
    kcalloc. *)
Definition set_buffer_ptr (p : Z) : L unit :=
  alter (fun s =>
    {| audio_dev_static := audio_dev_static s;
       audio_dev := with_buffer (fun _ => zeroed_buffers) (audio_dev s);
       clk := clk s; i2s_base_addr := i2s_base_addr s;
       dma_tx := dma_tx s; dma_rx := dma_rx s; buffer_ptr := p;
       calls := calls s |}).

Definition bcm2835_i2s_probe : L Z :=
  p <~ call (devm_kzalloc K) DevmKzalloc ;;
  if p =? 0 then pure (s32 (- ENOMEM))
  else
    adopt p ;;~
    c <~ call (devm_clk_get K) DevmClkGet ;;
    set_clk c ;;~
    if IS_ERR c then
      note (LogNum no_clk_msg (PTR_ERR c)) ;;~
      pure (s32 (PTR_ERR c))
    else
      m <~ call (devm_platform_get_and_ioremap_resource K)
             (fun m => DevmIoremapResource 0 (fst m)) ;;
      if IS_ERR (fst m) then
        note (Log ioremap_failed_msg) ;;~
        pure (s32 (PTR_ERR (fst m)))
      else
        set_i2s_base_addr (fst m) ;;~
        set_audio_dev
          (with_dma_params (uword (snd m + BCM2835_I2S_FIFO_A_REG))
             DMA_SLAVE_BUSWIDTH_4_BYTES 2) ;;~
        note EvlInitFlag ;;~
        r <~ bcm2835_i2s_dma_setup ;;
        if negb (r =? 0) then pure (s32 (- ENODEV))
        else
          b <~ call (kcalloc K) (Kcalloc 1) ;;
          if b =? 0 then
            note (Log no_audio_buffer_msg) ;;~
            pure (s32 (- ENOMEM))
          else
            set_buffer_ptr b ;;~
            pure 0.

(** ** bcm2835_i2s_remove *)

Definition bcm2835_i2s_remove : L Z :=
  s <~ current ;;
  (* audio_dev_static->buffer *)
  if audio_dev_static s =? 0 then stop (NullPointer "audio_dev_static")
  else if dma_rx s =? 0 then stop (NullPointer "dma_rx")
  else if buffer_ptr s =? 0 then stop (NullPointer "buffer")
  else
    note (DmaFreeCoherent (dma_rx s) reserved_buffer_size
            (rx_buf (buffer (audio_dev s)))
            (rx_phys_addr (buffer (audio_dev s)))) ;;~
    note (DmaReleaseChannel (dma_tx s)) ;;~
    note (DmaReleaseChannel (dma_rx s)) ;;~
    note (Kfree (buffer_ptr s)) ;;~
    (if BCM2835_I2S_CVGATES_SUPPORT then
       if cv_gate_enabled (audio_dev s) then bcm2835_free_cv_gates
       else pure tt
     else pure tt) ;;~
    note (DevmIounmap (i2s_base_addr s)) ;;~
    note (DevmKfree (audio_dev_static s)) ;;~
    pure 0.

End Functions.

(** ** What a list of calls holds *)

(** The channels dma_request_chan handed out, oldest first. *)
Definition granted_chans (h : list kcall) : list Z :=
  flat_map (fun c => match c with
                     | DmaRequestChan _ p => if IS_ERR p then [] else [p]
                     | _ => []
                     end) (rev h).

(** The channels given to dma_release_channel, oldest first. *)
Definition released_chans (h : list kcall) : list Z :=
  flat_map (fun c => match c with
                     | DmaReleaseChannel p => [p]
                     | _ => []
                     end) (rev h).

(** The pins gpio_request has granted (answer not negative), oldest
    first. *)
Definition claimed_pins (h : list kcall) : list Z :=
  flat_map (fun c => match c with
                     | GpioRequest pin _ ret =>
                         if ret <? 0 then [] else [pin]
                     | _ => []
                     end) (rev h).

(** The pins given to gpio_free, oldest first. *)
Definition freed_pins (h : list kcall) : list Z :=
  flat_map (fun c => match c with
                     | GpioFree pin => [pin]
                     | _ => []
                     end) (rev h).

(** The answers of the GPIO calls that have one, oldest first. *)
Definition gpio_answers (h : list kcall) : list Z :=
  flat_map (fun c => match c with
                     | GpioRequest _ _ ret
                     | GpioDirectionOutput _ _ ret
                     | GpioDirectionInput _ ret => [ret]
                     | _ => []
                     end) (rev h).

Definition is_gpio_call (c : kcall) : bool :=
  match c with
  | GpioRequest _ _ _ | GpioDirectionOutput _ _ _ | GpioDirectionInput _ _
  | GpioFree _ => true
  | _ => false
  end.

(** The coherent buffers allocated, and those freed, as
    (channel, size, CPU address, DMA handle), oldest first. *)
Definition coherent_allocated (h : list kcall) : list (Z * Z * Z * Z) :=
  flat_map (fun c => match c with
                     | DmaAllocCoherent ch sz cpu hd =>
                         if cpu =? 0 then [] else [(ch, sz, cpu, hd)]
                     | _ => []
                     end) (rev h).

Definition coherent_freed (h : list kcall) : list (Z * Z * Z * Z) :=
  flat_map (fun c => match c with
                     | DmaFreeCoherent ch sz cpu hd => [(ch, sz, cpu, hd)]
                     | _ => []
                     end) (rev h).

(** Nothing but the list of calls differs. *)
Definition same_fields (s s' : state) : Prop :=
  audio_dev_static s' = audio_dev_static s
  /\ audio_dev s' = audio_dev s
  /\ clk s' = clk s
  /\ i2s_base_addr s' = i2s_base_addr s
  /\ dma_tx s' = dma_tx s
  /\ dma_rx s' = dma_rx s
  /\ buffer_ptr s' = buffer_ptr s.

(** The calls bcm2835_init_cv_gates can make. *)
Definition is_pin_setup (c : kcall) : bool :=
  match c with
  | GpioRequest _ _ _ | GpioDirectionOutput _ _ _ | GpioDirectionInput _ _
  | Log _ => true
  | _ => false
  end.

Definition is_gpio_free (c : kcall) : bool :=
  match c with GpioFree _ => true | _ => false end.

Definition is_kcalloc (c : kcall) : bool :=
  match c with Kcalloc _ _ => true | _ => false end.

(** ** Concrete inputs *)

Definition sample_lifecycle_header : lifecycle_header :=
  {| RESERVED_BUFFER_SIZE_IN_PAGES := 10; PAGE_SIZE := 4096;
     BCM2835_I2S_FIFO_A_REG := 4 |}.

(** Before probe: nothing allocated. *)
Definition unbound : state :=
  {| audio_dev_static := 0; audio_dev := zeroed_dev; clk := 0;
     i2s_base_addr := 0; dma_tx := 0; dma_rx := 0; buffer_ptr := 0;
     calls := [] |}.

(** A kernel in which every call succeeds. *)
Definition willing : kernel :=
  {| devm_kzalloc := fun _ => 4096;
     devm_clk_get := fun _ => 8192;
     devm_platform_get_and_ioremap_resource :=
       fun _ => (12288, 1059078144);
     dma_request_chan :=
       fun _ name => if String.eqb name "tx" then 16384 else 20480;
     kcalloc := fun _ => 24576;
     dma_alloc_coherent := fun _ _ _ => (28672, 32768);
     gpio_request := fun _ _ => 0;
     gpio_direction_output := fun _ _ _ => 0;
     gpio_direction_input := fun _ _ => 0 |}.

(** The same kernel, but GPIO pin [bad] is taken. *)
Definition pin_taken (bad : Z) : kernel :=
  {| devm_kzalloc := devm_kzalloc willing;
     devm_clk_get := devm_clk_get willing;
     devm_platform_get_and_ioremap_resource :=
       devm_platform_get_and_ioremap_resource willing;
     dma_request_chan := dma_request_chan willing;
     kcalloc := kcalloc willing;
     dma_alloc_coherent := dma_alloc_coherent willing;
     gpio_request := fun _ pin => if pin =? bad then - EBUSY else 0;
     gpio_direction_output := gpio_direction_output willing;
     gpio_direction_input := gpio_direction_input willing |}.

(** The state a successful probe leaves in that kernel. *)
Definition probed : state :=
  end_state (bcm2835_i2s_probe (Hdr := sample_header)
               (Lhdr := sample_lifecycle_header) willing unbound).

End Lifecycle.
(** * The frame synchroniser and the store to tmp *)

(** [tmp] is written at one place of bcm2835_i2s_synch_frame and read
    nowhere, so what the loop pops, counts and reports cannot depend on
    what the store [tmp[discarded] = samples[0]] does to the array.  The
    three definitions below are synch_frame_pop, synch_frame_loop and
    bcm2835_i2s_synch_frame with that one store left to [store]; with
    [array_store] they are those definitions. *)
Section SynchFrameStore.

Context {Hdr : i2s_header}.
Variable E : env.
Variable store : list (option Z) -> Z -> Z -> M (list (option Z)).

Definition synch_frame_pop_with (l : synch_locals) : M synch_locals :=
  rpi_reg_write FIFO_A 0 ;;;
  let s1 := samples0 l in
  v <- rpi_reg_read E FIFO_A ;;
  let s0 := s32 v in
  tmp' <- store (tmp l) (discarded l) s0 ;;
  ret {| samples0 := s0; samples1 := s1;
         discarded := u32 (discarded l + 1); tmp := tmp' |}.

Fixpoint synch_frame_loop_with (fuel : nat) (l : synch_locals)
  : M synch_locals :=
  if negb (samples0 l =? 0) || negb (samples1 l =? 0) then
    match fuel with
    | O => out_of_fuel
    | S fuel' =>
        val <- rpi_reg_read E CS_A ;;
        if negb (Z.land val BCM2835_I2S_RXD =? 0) then
          l' <- synch_frame_pop_with l ;;
          synch_frame_loop_with fuel' l'
        else synch_frame_loop_with fuel' l
    end
  else ret l.

Definition bcm2835_i2s_synch_frame_with (fuel : nat) (mask : Z) : M unit :=
  rpi_reg_update_bits E CS_A mask mask ;;;
  l <- synch_frame_loop_with fuel synch_frame_start ;;
  log (Printk samples_discarded_msg [discarded l]).

End SynchFrameStore.

(** The store completes whatever the index and touches nothing but the
    array: any behaviour of the out-of-bounds store that lets the program
    go on. *)
Definition store_completes
    (store : list (option Z) -> Z -> Z -> M (list (option Z))) : Prop :=
  forall a i v w, exists a', store a i v w = Ok a' w.

(** Such a store: within the array it is [array_store]; past its end the
    word lands outside [tmp], which stays as it is. *)
Definition array_store_unchecked (a : list (option Z)) (i v : Z)
    : M (list (option Z)) :=
  if (0 <=? i) && (i <? Z.of_nat (List.length a))
  then ret (list_set a (Z.to_nat i) (Some v))
  else ret a.

Section SynchFrameCount.

Context {Hdr : i2s_header}.
Variable E : env.
Variable fb : nat.


End SynchFrameCount.

(** * Properties *)

(** ** Bits of 32-bit values *)

Lemma testbit_u32 (x i : Z) :
  Z.testbit (u32 x) i = (i <? 32) && Z.testbit x i.
Proof.
  unfold u32. destruct (Z.ltb_spec i 32) as [Hlo|Hhi].
  - destruct (Z.ltb_spec i 0) as [Hneg|Hpos].
    + now rewrite !Z.testbit_neg_r by lia.
    + now rewrite Z.mod_pow2_bits_low by lia.
  - now rewrite Z.mod_pow2_bits_high by lia.
Qed.

(** A read-modify-write under mask [m] of the bits [c & m] leaves, at
    every bit [b] inside the mask, the bit of [c]. *)
Lemma restore_bits (orig c m b : Z) :
  (forall i, 0 <= i -> Z.testbit b i = true -> Z.testbit m i = true) ->
  Z.land (u32 (Z.lor (Z.land orig (not32 (u32 m)))
                 (Z.land (u32 (Z.land (u32 c) m)) (u32 m)))) b
  = Z.land (u32 c) b.
Proof.
  intros Hb. apply Z.bits_inj'. intros i Hi.
  rewrite !Z.land_spec, testbit_u32, Z.lor_spec, !Z.land_spec.
  unfold not32. rewrite !testbit_u32, Z.land_spec, Z.lnot_spec by assumption.
  rewrite !testbit_u32.
  destruct (Z.testbit b i) eqn:Hbi; [|now rewrite !andb_false_r].
  rewrite (Hb i Hi Hbi).
  destruct (i <? 32); cbn; [|reflexivity].
  now rewrite !andb_false_r, !andb_true_r.
Qed.

(** [~i & 0x1] *)
Lemma flip_bit (i : Z) : Z.land (Z.lnot i) 1 = if Z.odd i then 0 else 1.
Proof.
  apply Z.bits_inj'. intros n Hn. rewrite Z.land_spec.
  destruct (Z.eq_dec n 0) as [->|Hnz].
  - rewrite Z.lnot_spec, Z.bit0_odd by lia. cbn.
    destruct (Z.odd i); reflexivity.
  - assert (H1 : Z.testbit 1 n = false) by (destruct n; try lia; reflexivity).
    rewrite H1, andb_false_r.
    destruct (Z.odd i); [now rewrite Z.testbit_0_l | exact (eq_sym H1)].
Qed.

Ltac run :=
  cbv [bind get ask ret raise out_of_fuel log modify update_dev emit set_dev
       submit terminate_async final_world returned] in *;
  cbn [dev nreads latched trace] in *.

(** ** bcm2835_i2s_clear_fifos *)

Section ClearFifos.

Context {Hdr : i2s_header}.
Variable E : env.

Lemma rpi_reg_update_bits_ok r mask value w :
  rpi_reg_update_bits E r mask value w
  = Ok tt (after_update_bits E r mask value w).
Proof. reflexivity. Qed.

Lemma cs_read_0 base : cs_read E base 0 = u32 (feed E CS_A base).
Proof. unfold cs_read. now rewrite Nat.add_0_r. Qed.

Lemma cs_read_S base k : cs_read E (S base) k = cs_read E base (S k).
Proof. unfold cs_read. do 2 f_equal. lia. Qed.

Lemma sync_differs_S base sync k :
  sync_differs E (S base) sync k = sync_differs E base sync (S k).
Proof. unfold sync_differs. now rewrite cs_read_S. Qed.

Lemma poll_events_S base n :
  poll_events E base (S n)
  = poll_events E (S base) n ++ [Readl CS_A (cs_read E base 0)].
Proof.
  unfold poll_events.
  rewrite <- cons_seq, <- seq_shift, map_cons, map_map. simpl rev.
  do 2 f_equal. apply map_ext. intros k. now rewrite cs_read_S.
Qed.

(** The poll started with [timeout] in the counter and at least as much
    fuel returns after [n <= timeout - 1] reads, none of which but the
    last showed a changed SYNC flag; if it stops short of the budget, the
    last one did. *)
Lemma clear_fifos_poll_spec (fuel : nat) :
  forall (timeout sync : Z) (w : world),
    1 <= timeout <= Z.of_nat fuel -> timeout < 2 ^ 31 ->
    exists (n : nat) (w' : world),
      clear_fifos_poll E fuel timeout sync w = Ok tt w'
      /\ Z.of_nat n <= timeout - 1
      /\ trace w' = poll_events E (nreads w CS_A) n ++ trace w
      /\ nreads w' CS_A = (nreads w CS_A + n)%nat
      /\ latched w' = latched w
      /\ dev w' = dev w
      /\ (forall k, (S k < n)%nat ->
                    sync_differs E (nreads w CS_A) sync k = false)
      /\ (Z.of_nat n < timeout - 1 ->
          exists k, n = S k /\ sync_differs E (nreads w CS_A) sync k = true).
Proof.
  induction fuel as [|fuel IH]; intros timeout sync w Hf Hlt; [lia|].
  cbn [clear_fifos_poll].
  assert (Hs : s32 (timeout - 1) = timeout - 1).
  { unfold s32. rewrite Z.mod_small; lia. }
  rewrite Hs.
  destruct (Z.eqb_spec (timeout - 1) 0) as [H0|H0].
  - exists O, w. cbn. repeat split; try lia.
  - unfold bind at 1. cbn [rpi_reg_read].
    rewrite <- cs_read_0.
    set (w1 := {| dev := dev w; nreads := _; latched := _; trace := _ |}).
    assert (Hw1 : nreads w1 CS_A = S (nreads w CS_A)) by reflexivity.
    destruct (Z.land (cs_read E (nreads w CS_A) 0) BCM2835_I2S_SYNC =? sync)
      eqn:Hd; cbn [negb].
    + destruct (IH (timeout - 1) sync w1 ltac:(lia) ltac:(lia))
        as (n & w' & Hr & Hn & Ht & Hc & Hl & Hdv & Hpre & Hex).
      rewrite Hw1 in *.
      exists (S n), w'. rewrite Hr. repeat split; try lia; auto.
      * rewrite Ht, poll_events_S, <- app_assoc. reflexivity.
      * intros [|k] Hk.
        -- unfold sync_differs. now rewrite Hd.
        -- rewrite <- sync_differs_S. apply Hpre. lia.
      * intros Hlt'. destruct Hex as (k & -> & Hk); [lia|]. exists (S k).
        split; [reflexivity|]. now rewrite <- sync_differs_S.
    + exists 1%nat, w1. repeat split; try lia.
      intros _. exists O. split; [reflexivity|]. unfold sync_differs.
      now rewrite Hd.
Qed.

(** The poll loop on its own, started as bcm2835_i2s_clear_fifos starts
    it (timeout = 1000): it always returns.  It reads the control register [n] times with [n <= 999], so
    at most 1000 iterations; no read but the last shows a SYNC bit that
    differs from the recorded one; and either the last read shows a
    changed SYNC bit (the loop left at the first change), or the budget
    ran out ([n = 999]) with the flag unchanged throughout. *)
Theorem clear_fifos_poll_bounded (sync : Z) (w : world) :
  exists (n : nat) (w' : world),
    clear_fifos_poll E 1000 1000 sync w = Ok tt w'
    /\ (n <= 999)%nat /\ (n <= 1000)%nat
    /\ trace w' = poll_events E (nreads w CS_A) n ++ trace w
    /\ (forall k, (S k < n)%nat ->
                  sync_differs E (nreads w CS_A) sync k = false)
    /\ ((exists k, n = S k /\ sync_differs E (nreads w CS_A) sync k = true)
        \/ (n = 999%nat
            /\ forall k, (k < 999)%nat ->
                         sync_differs E (nreads w CS_A) sync k = false)).
Proof.
  destruct (clear_fifos_poll_spec 1000 1000 sync w ltac:(lia) ltac:(lia))
    as (n & w' & Hr & Hn & Ht & _ & _ & _ & Hpre & Hex).
  exists n, w'. repeat split; try lia; auto.
  destruct (Z.ltb_spec (Z.of_nat n) 999) as [Hlt|Hge].
  - left. apply Hex. lia.
  - assert (Hn999 : n = 999%nat) by lia.
    destruct (sync_differs E (nreads w CS_A) sync 998) eqn:Hlast.
    + left. exists 998%nat. split; [lia | exact Hlast].
    + right. split; [exact Hn999|]. intros k Hk.
      destruct (Nat.eq_dec k 998) as [->|Hne]; [exact Hlast|].
      apply Hpre. lia.
Qed.

(** C5.  bcm2835_i2s_clear_fifos returns for every choice of (tx, rx) and
    every behaviour of the peripheral, whether the SYNC poll leaves early
    or runs out; the value it leaves in the control register has the
    TX-enable and the RX-enable bit that the register showed when the
    state was backed up on entry. *)
Theorem clear_fifos_restores_enable_bits (tx rx : bool) (w : world) :
  exists w' : world,
    bcm2835_i2s_clear_fifos E tx rx w = Ok tt w'
    /\ Z.land (latched w' CS_A) BCM2835_I2S_TXON
       = Z.land (u32 (feed E CS_A (nreads w CS_A))) BCM2835_I2S_TXON
    /\ Z.land (latched w' CS_A) BCM2835_I2S_RXON
       = Z.land (u32 (feed E CS_A (nreads w CS_A))) BCM2835_I2S_RXON.
Proof.
  unfold bcm2835_i2s_clear_fifos.
  unfold bind at 1. cbn [rpi_reg_read].
  set (w1 := {| dev := dev w; nreads := _; latched := _; trace := _ |}).
  unfold bind at 1. rewrite rpi_reg_update_bits_ok.
  unfold bind at 1. rewrite rpi_reg_update_bits_ok.
  unfold bind at 1. cbn [rpi_reg_read].
  match goal with |- context [Z.land ?v BCM2835_I2S_SYNC] =>
    set (sync := Z.land v BCM2835_I2S_SYNC) end.
  match goal with |- context [bind _ _ ?x] => set (w4 := x) end.
  unfold bind at 1. rewrite rpi_reg_update_bits_ok.
  unfold bind at 1.
  destruct (clear_fifos_poll_spec 1000 1000 sync
              (after_update_bits E CS_A BCM2835_I2S_SYNC (not32 sync) w4)
              ltac:(lia) ltac:(lia)) as (n & w' & Hr & _).
  rewrite Hr, rpi_reg_update_bits_ok.
  eexists. split; [reflexivity|].
  cbn [after_update_bits latched reg_eqb].
  split; apply restore_bits; intros i Hi Hb;
    rewrite Z.lor_spec, Hb; auto using orb_true_r.
Qed.

End ClearFifos.

(** Both ways out of the poll occur: with a SYNC flag that never changes
    the loop gives up after 999 reads, with one that changes at once it
    leaves after the first. *)
Example clear_fifos_poll_both_exits :
  List.length (trace (final_world
    (clear_fifos_poll (Hdr := sample_header) (quiet_env (sync_after 0))
       1000 1000 (2 ^ 24) (boot "elk-pi")))) = 999%nat
  /\ List.length (trace (final_world
    (clear_fifos_poll (Hdr := sample_header) (quiet_env (sync_after 0))
       1000 1000 0 (boot "elk-pi")))) = 1%nat.
Proof. split; vm_compute; reflexivity. Qed.

(** ** The cyclic DMA engine *)

Section Dma.

Variable E : env.

(** C1.  When bcm2835_i2s_submit_dma returns 0, what it did is, in this
    order: submit the RX descriptor, submit the TX descriptor, issue
    pending on RX, issue pending on TX.  So RX is submitted before TX is
    submitted, and RX is issued before TX is issued.  (The trace lists the
    newest event first, hence [rev].) *)
Theorem submit_dma_rx_before_tx (w : world) :
  returned (bcm2835_i2s_submit_dma E w) = Some 0 ->
  exists crx ctx : Z,
    0 <= crx /\ 0 <= ctx
    /\ trace (final_world (bcm2835_i2s_submit_dma E w))
       = rev [Submit DMA_RX crx; Submit DMA_TX ctx;
              IssuePending DMA_RX; IssuePending DMA_TX] ++ trace w.
Proof.
  unfold bcm2835_i2s_submit_dma. run.
  destruct (rx_desc (dev w)) as [r|]; [|discriminate].
  set (crx := s32 (dmaengine_submit E (trace w) DMA_RX)).
  unfold dma_submit_error.
  destruct (Z.ltb_spec crx 0) as [Hrx|Hrx].
  - destruct (Z.eqb_spec crx 0); [lia|]. cbn. intros [= H].
  - cbn. destruct (tx_desc (dev w)) as [t|]; [|discriminate].
    cbn.
    match goal with |- context [dmaengine_submit E ?h DMA_TX] =>
      set (ctx := s32 (dmaengine_submit E h DMA_TX)) end.
    destruct (Z.ltb_spec ctx 0) as [Htx|Htx].
    + destruct (Z.eqb_spec ctx 0); [lia|]. cbn. intros [= H].
    + cbn. intros _. exists crx, ctx. repeat split; auto.
Qed.

(** In no execution of bcm2835_i2s_submit_dma, successful or not, is a
    TX step the first DMA-engine call: whatever was done starts with the
    submission of RX. *)
Lemma submit_dma_starts_with_rx (w : world) :
  trace (final_world (bcm2835_i2s_submit_dma E w)) = trace w
  \/ exists (crx : Z) (later : history),
       trace (final_world (bcm2835_i2s_submit_dma E w))
       = later ++ Submit DMA_RX crx :: trace w
       /\ existsb (on_channel DMA_RX) later
          = existsb (fun e => match e with IssuePending _ => true
                                         | _ => false end) later.
Proof.
  unfold bcm2835_i2s_submit_dma. run.
  destruct (rx_desc (dev w)) as [r|]; [|left; reflexivity]. right.
  set (crx := s32 (dmaengine_submit E (trace w) DMA_RX)).
  exists crx.
  destruct (dma_submit_error crx =? 0); cbn.
  2:{ eexists [_]. split; reflexivity. }
  destruct (tx_desc (dev w)) as [t|]; cbn.
  2:{ exists []. split; reflexivity. }
  match goal with |- context [dmaengine_submit E ?h DMA_TX] =>
    set (ctx := s32 (dmaengine_submit E h DMA_TX)) end.
  destruct (dma_submit_error ctx =? 0); cbn.
  - eexists [_; _; _]. split; reflexivity.
  - eexists [_; _]. split; reflexivity.
Qed.

(** C3, as the code has it.  bcm2835_i2s_dma_prepare asks for the TX
    descriptor first.  If that fails it returns -EBUSY at once: RX has not
    been asked for and the RX descriptor is untouched.  If TX was obtained
    and the RX descriptor fails, the last thing done before -EBUSY is
    returned is the termination request on the TX channel.  If both were
    obtained, 0 is returned, the callback is installed on the RX
    descriptor and nothing is terminated. *)
Theorem dma_prepare_unwinds (w : world) :
  exists (r : Z) (w' : world) (evs : history),
    bcm2835_i2s_dma_prepare E w = Ok r w'
    /\ trace w' = evs ++ trace w
    /\ match tx_desc (dev w') with
       | None =>
           r = - EBUSY
           /\ existsb (on_channel DMA_RX) evs = false
           /\ rx_desc (dev w') = rx_desc (dev w)
       | Some _ =>
           match rx_desc (dev w') with
           | None =>
               r = - EBUSY
               /\ exists rc evs',
                   evs = TerminateAsync DMA_TX rc
                           :: Printk no_rx_descriptor_msg [] :: evs'
           | Some d =>
               r = 0 /\ callback d = true
               /\ existsb (is_terminate DMA_TX) evs = false
           end
       end.
Proof.
  unfold bcm2835_i2s_dma_prepare, bcm2835_i2s_dma_prepare_cyclic, prepare_on.
  run.
  destruct (s32 (dmaengine_slave_config E (trace w) DMA_TX) =? 0) eqn:Htc;
    cbn.
  2:{ do 2 eexists. eexists [_; _; _]. cbn. repeat split; reflexivity. }
  match goal with |- context [dmaengine_prep_dma_cyclic E ?h DMA_TX] =>
    destruct (dmaengine_prep_dma_cyclic E h DMA_TX) eqn:Htp end; cbn.
  2:{ do 2 eexists. eexists [_; _; _]. cbn. repeat split; reflexivity. }
  match goal with |- context [dmaengine_slave_config E ?h DMA_RX] =>
    destruct (s32 (dmaengine_slave_config E h DMA_RX) =? 0) eqn:Hrc end; cbn.
  2:{ do 2 eexists. eexists [_; _; _; _; _; _]. cbn.
      do 3 (split; [reflexivity|]). do 2 eexists. reflexivity. }
  match goal with |- context [dmaengine_prep_dma_cyclic E ?h DMA_RX] =>
    destruct (dmaengine_prep_dma_cyclic E h DMA_RX) eqn:Hrp end; cbn.
  2:{ do 2 eexists. eexists [_; _; _; _; _; _]. cbn.
      do 3 (split; [reflexivity|]). do 2 eexists. reflexivity. }
  do 2 eexists. eexists [_; _; _; _]. cbn.
  repeat split; reflexivity.
Qed.

End Dma.

(** The witness of C1: both descriptors prepared, both submissions
    accepted. *)
Lemma submit_dma_rx_before_tx_witness :
  returned (bcm2835_i2s_submit_dma (quiet_env (fun _ _ => 0))
              (prepared "elk-pi")) = Some 0
  /\ exists crx ctx : Z,
      0 <= crx /\ 0 <= ctx
      /\ trace (final_world
           (bcm2835_i2s_submit_dma (quiet_env (fun _ _ => 0))
              (prepared "elk-pi")))
         = rev [Submit DMA_RX crx; Submit DMA_TX ctx;
                IssuePending DMA_RX; IssuePending DMA_TX]
           ++ trace (prepared "elk-pi").
Proof.
  split; [vm_compute; reflexivity|].
  apply (submit_dma_rx_before_tx (quiet_env (fun _ _ => 0))
           (prepared "elk-pi")).
  vm_compute; reflexivity.
Defined.

(** C2, the code at the failing input.  With a TX termination request
    that returns -EIO, bcm2835_i2s_exit logs the failure and returns -EIO:
    neither is TX synchronised nor is there any termination request on
    RX. *)
Theorem exit_tx_failure_skips_rx :
  bcm2835_i2s_exit tx_terminate_fails (boot "elk-pi")
  = Ok (- EIO)
       {| dev := blank_dev "elk-pi"; nreads := fun _ => O;
          latched := fun _ => 0;
          trace := [Printk terminate_failed_msg [];
                    TerminateAsync DMA_TX (- EIO)] |}
  /\ existsb (on_channel DMA_RX)
       (trace (final_world
          (bcm2835_i2s_exit tx_terminate_fails (boot "elk-pi")))) = false.
Proof. split; reflexivity. Qed.

(** Whenever the TX termination request fails, bcm2835_i2s_exit stops
    there. *)
Lemma exit_returns_early (E : env) (w : world) :
  s32 (dmaengine_terminate_async E (trace w) DMA_TX) < 0 ->
  trace (final_world (bcm2835_i2s_exit E w))
  = [Printk terminate_failed_msg [];
     TerminateAsync DMA_TX
       (s32 (dmaengine_terminate_async E (trace w) DMA_TX))] ++ trace w.
Proof.
  intros H. unfold bcm2835_i2s_exit. run.
  destruct (Z.ltb_spec (s32 (dmaengine_terminate_async E (trace w) DMA_TX)) 0);
    [reflexivity | lia].
Qed.

(** C3 as stated fails.  From a fresh device, with an RX descriptor that
    can be had and a TX descriptor that is refused,
    bcm2835_i2s_dma_prepare returns -EBUSY after three steps, none of them
    a call on the RX channel.  From a device that already holds an RX
    descriptor it does the same: the RX descriptor is still held when the
    error is returned and RX has not been terminated. *)
Lemma dma_prepare_tx_failure_no_rx_teardown :
  let E := descriptor_refused DMA_TX in
  (dmaengine_prep_dma_cyclic E [] DMA_RX = true
   /\ exists w' evs,
        bcm2835_i2s_dma_prepare E (boot "elk-pi") = Ok (- EBUSY) w'
        /\ trace w' = evs ++ trace (boot "elk-pi")
        /\ List.length evs = 3%nat
        /\ tx_desc (dev w') = None
        /\ existsb (on_channel DMA_RX) evs = false)
  /\ (exists d w' evs,
        rx_desc (dev (prepared "elk-pi")) = Some d
        /\ bcm2835_i2s_dma_prepare E (prepared "elk-pi") = Ok (- EBUSY) w'
        /\ trace w' = evs ++ trace (prepared "elk-pi")
        /\ List.length evs = 3%nat
        /\ tx_desc (dev w') = None
        /\ rx_desc (dev w') = Some d
        /\ existsb (on_channel DMA_RX) evs = false).
Proof.
  cbv zeta. split.
  - split; [reflexivity|]. eexists. eexists [_; _; _].
    repeat split; reflexivity.
  - do 2 eexists. eexists [_; _; _]. repeat split; reflexivity.
Qed.

(** The unwinding the code does have: TX obtained, RX refused, TX
    terminated last. *)
Example dma_prepare_rx_failure_terminates_tx :
  exists w' evs',
    bcm2835_i2s_dma_prepare (descriptor_refused DMA_RX) (boot "elk-pi")
    = Ok (- EBUSY) w'
    /\ trace w' = TerminateAsync DMA_TX 0
                    :: Printk no_rx_descriptor_msg [] :: evs'.
Proof. do 2 eexists. split; reflexivity. Qed.

(** ** bcm2835_i2s_dma_callback *)

Section Callback.

Context {Hdr : i2s_header}.
Variable E : env.

Lemma check_tx_status_ok (c : dma_chan) (w : world) :
  exists w', check_tx_status E c w = Ok tt w' /\ dev w' = dev w.
Proof.
  unfold check_tx_status. run.
  destruct (dmaengine_tx_status E (trace w) c) as [st [res inflight]].
  destruct (dma_status_eqb st DMA_ERROR); eexists; split; reflexivity.
Qed.

Lemma cv_gates_write_ok (pins : list Z) :
  forall (i : Z) (w : world),
    exists w', cv_gates_write E pins i w = Ok tt w' /\ dev w' = dev w.
Proof.
  induction pins as [|pin rest IH]; intros i w; cbn [cv_gates_write].
  - exists w. split; reflexivity.
  - run. match goal with |- context [cv_gates_write E rest ?j ?x] =>
      destruct (IH j x) as (w' & Hr & Hd) end.
    exists w'. split; [exact Hr | exact Hd].
Qed.

Lemma cv_gates_read_ok (pins : list Z) :
  forall (i val : Z) (w : world),
    exists v w', cv_gates_read E pins i val w = Ok v w' /\ dev w' = dev w.
Proof.
  induction pins as [|pin rest IH]; intros i val w; cbn [cv_gates_read].
  - exists val, w. split; reflexivity.
  - run. match goal with |- context [cv_gates_read E rest ?j ?v ?x] =>
      destruct (IH j v x) as (v' & w' & Hr & Hd) end.
    exists v', w'. split; [exact Hr | exact Hd].
Qed.

Lemma dma_callback_ok (w : world) :
  exists w',
    bcm2835_i2s_dma_callback E w = Ok tt w'
    /\ buffer_idx (dev w') = Z.land (Z.lnot (buffer_idx (dev w))) 1
    /\ kinterrupts (dev w') = wrap 64 (kinterrupts (dev w) + 1).
Proof.
  unfold bcm2835_i2s_dma_callback.
  unfold bind at 1. destruct (check_tx_status_ok DMA_TX w) as (w1 & -> & H1).
  unfold bind at 1. destruct (check_tx_status_ok DMA_RX w1) as (w2 & -> & H2).
  rewrite <- H1, <- H2. clear H1 H2. run.
  destruct BCM2835_I2S_CVGATES_SUPPORT; [|eexists; repeat split; reflexivity].
  destruct (cv_gate_enabled (dev w2));
    [|eexists; repeat split; reflexivity].
  cbn [dev cv_gate_enabled].
  match goal with |- context [cv_gates_write E ?p ?i ?x] =>
    destruct (cv_gates_write_ok p i x) as (w3 & -> & H3) end.
  match goal with |- context [cv_gates_read E ?p ?i ?v ?x] =>
    destruct (cv_gates_read_ok p i v x) as (v4 & w4 & -> & H4) end.
  eexists; split; [reflexivity|]. cbn. rewrite H4, H3. split; reflexivity.
Qed.

(** C10.  The callback always returns.  Whatever value [i] the buffer
    index holds when it is entered, the index is 0 or 1 afterwards; from 0
    it goes to 1 and from 1 to 0. *)
Theorem dma_callback_flips_buffer_idx (w : world) :
  let after i :=
    buffer_idx (dev (final_world
      (bcm2835_i2s_dma_callback E (with_buffer_idx i w)))) in
  (forall i, returned (bcm2835_i2s_dma_callback E (with_buffer_idx i w))
             = Some tt)
  /\ (forall i, after i = 0 \/ after i = 1)
  /\ after 0 = 1
  /\ after 1 = 0.
Proof.
  cbv zeta.
  assert (H : forall i,
    returned (bcm2835_i2s_dma_callback E (with_buffer_idx i w)) = Some tt
    /\ buffer_idx (dev (final_world
         (bcm2835_i2s_dma_callback E (with_buffer_idx i w))))
       = if Z.odd i then 0 else 1).
  { intros i.
    destruct (dma_callback_ok (with_buffer_idx i w)) as (w' & -> & H & _).
    split; [reflexivity|]. cbn [final_world]. rewrite H. cbn.
    apply flip_bit. }
  split; [intros i; apply H|].
  split; [intros i; destruct (H i) as [_ ->]; destruct (Z.odd i); auto|].
  split; [apply (H 0) | apply (H 1)].
Qed.

End Callback.

(** ** What a call leaves alone in the device structure *)

Section DevInvariant.

Variable Rd : audio_evl_dev -> audio_evl_dev -> Prop.
Hypothesis Rd_refl : forall d, Rd d d.
Hypothesis Rd_trans : forall a b c, Rd a b -> Rd b c -> Rd a c.

Lemma keeps_ret {A} (a : A) : keeps Rd (ret a).
Proof. intros w. apply Rd_refl. Qed.

Lemma keeps_bind {A B} (m : M A) (k : A -> M B) :
  keeps Rd m -> (forall a, keeps Rd (k a)) -> keeps Rd (bind m k).
Proof.
  intros Hm Hk w. unfold bind. specialize (Hm w).
  destruct (m w) as [a w1|f w1|w1]; cbn in *; auto.
  eapply Rd_trans; [exact Hm | apply Hk].
Qed.

Lemma keeps_get : keeps Rd get.
Proof. intros w. apply Rd_refl. Qed.

Lemma keeps_ask {A} (f : history -> A) : keeps Rd (ask f).
Proof. intros w. apply Rd_refl. Qed.

Lemma keeps_raise {A} (f : fault) : keeps Rd (@raise A f).
Proof. intros w. apply Rd_refl. Qed.

Lemma keeps_out_of_fuel {A} : keeps Rd (@out_of_fuel A).
Proof. intros w. apply Rd_refl. Qed.

Lemma keeps_log (e : event) : keeps Rd (log e).
Proof. intros w. apply Rd_refl. Qed.

Lemma keeps_update_dev (f : audio_evl_dev -> audio_evl_dev) :
  (forall d, Rd d (f d)) -> keeps Rd (update_dev f).
Proof. intros H w. apply H. Qed.

Context {Hdr : i2s_header}.
Variable E : env.

Lemma keeps_rpi_reg_read r : keeps Rd (rpi_reg_read E r).
Proof. intros w. apply Rd_refl. Qed.

Lemma keeps_rpi_reg_write r v : keeps Rd (rpi_reg_write r v).
Proof. intros w. apply Rd_refl. Qed.

Lemma keeps_rpi_reg_update_bits r m v :
  keeps Rd (rpi_reg_update_bits E r m v).
Proof. intros w. apply Rd_refl. Qed.

Lemma keeps_audio_hat_is s : keeps Rd (audio_hat_is s).
Proof. intros w. apply Rd_refl. Qed.

Ltac keeps_step :=
  lazymatch goal with
  | |- keeps _ (bind _ _) => apply keeps_bind; [|intros ?]
  | |- keeps _ (ret _) => apply keeps_ret
  | |- keeps _ get => apply keeps_get
  | |- keeps _ (ask _) => apply keeps_ask
  | |- keeps _ (raise _) => apply keeps_raise
  | |- keeps _ out_of_fuel => apply keeps_out_of_fuel
  | |- keeps _ (log _) => apply keeps_log
  | |- keeps _ (rpi_reg_read _ _) => apply keeps_rpi_reg_read
  | |- keeps _ (rpi_reg_write _ _) => apply keeps_rpi_reg_write
  | |- keeps _ (rpi_reg_update_bits _ _ _ _) =>
      apply keeps_rpi_reg_update_bits
  | |- keeps _ (audio_hat_is _) => apply keeps_audio_hat_is
  | |- keeps _ (if ?c then _ else _) => destruct c
  | |- keeps _ (match ?x with _ => _ end) => destruct x
  end.

Lemma keeps_clear_fifos_poll fuel :
  forall timeout sync, keeps Rd (clear_fifos_poll E fuel timeout sync).
Proof.
  induction fuel as [|fuel IH]; intros timeout sync; cbn [clear_fifos_poll].
  - apply keeps_out_of_fuel.
  - cbv zeta. repeat keeps_step. apply IH.
Qed.

Lemma keeps_clear_fifos tx rx : keeps Rd (bcm2835_i2s_clear_fifos E tx rx).
Proof.
  unfold bcm2835_i2s_clear_fifos. cbv zeta.
  repeat first
    [ keeps_step
    | lazymatch goal with
      | |- keeps _ (clear_fifos_poll _ _ _ _) => apply keeps_clear_fifos_poll
      end ].
Qed.

Lemma keeps_prime_tx_fifo n : keeps Rd (prime_tx_fifo n).
Proof. induction n; cbn [prime_tx_fifo]; repeat keeps_step; assumption. Qed.

Lemma keeps_clear_regs : keeps Rd bcm2835_i2s_clear_regs.
Proof. unfold bcm2835_i2s_clear_regs. repeat keeps_step. Qed.

Lemma keeps_enable : keeps Rd (bcm2835_i2s_enable E).
Proof. unfold bcm2835_i2s_enable. repeat keeps_step. Qed.

Hypothesis Rd_tx_desc : forall x d, Rd d (set_tx_desc x d).
Hypothesis Rd_rx_desc : forall x d, Rd d (set_rx_desc x d).
Hypothesis Rd_cookie : forall c x d, Rd d (set_cookie c x d).
Hypothesis Rd_clk_rate : forall x d, Rd d (set_clk_rate x d).

Ltac keeps_dev :=
  repeat first
    [ keeps_step
    | lazymatch goal with
      | |- keeps _ (update_dev (set_tx_desc _)) =>
          apply keeps_update_dev; intros ?; apply Rd_tx_desc
      | |- keeps _ (update_dev (set_rx_desc _)) =>
          apply keeps_update_dev; intros ?; apply Rd_rx_desc
      | |- keeps _ (update_dev (set_cookie _ _)) =>
          apply keeps_update_dev; intros ?; apply Rd_cookie
      | |- keeps _ (update_dev (set_clk_rate _)) =>
          apply keeps_update_dev; intros ?; apply Rd_clk_rate
      end ].

Lemma keeps_configure : keeps Rd (bcm2835_i2s_configure E).
Proof. unfold bcm2835_i2s_configure, configure_hat. cbv zeta. keeps_dev. Qed.

Lemma keeps_dma_prepare : keeps Rd (bcm2835_i2s_dma_prepare E).
Proof.
  unfold bcm2835_i2s_dma_prepare, bcm2835_i2s_dma_prepare_cyclic, prepare_on,
    terminate_async.
  cbv zeta. keeps_dev.
Qed.

Lemma keeps_submit_dma : keeps Rd (bcm2835_i2s_submit_dma E).
Proof. unfold bcm2835_i2s_submit_dma, submit. cbv zeta. keeps_dev. Qed.

(** Everything bcm2835_i2s_buffers_setup does once the geometry is
    fixed. *)
Lemma keeps_buffers_setup_tail (audio_channels : Z) :
  keeps Rd
    (w <- get ;;
     log (Store32 (cv_gate_out (buffer (dev w))) 15) ;;;
     rc <- bcm2835_i2s_dma_prepare E ;;
     if negb (rc =? 0) then
       log (Printk dma_prepare_failed_msg []) ;;;
       ret (- EINVAL)
     else
       bcm2835_i2s_clear_regs ;;;
       bcm2835_i2s_configure E ;;;
       bcm2835_i2s_enable E ;;;
       bcm2835_i2s_clear_fifos E true true ;;;
       prime_tx_fifo
         (Z.to_nat (s32 (BCM2835_DMA_THR_TX + audio_channels))) ;;;
       rc <- bcm2835_i2s_submit_dma E ;;
       if negb (rc =? 0) then
         log (Printk submit_dma_failed_msg []) ;;;
         ret rc
       else ret 0).
Proof.
  repeat first
    [ keeps_step
    | lazymatch goal with
      | |- keeps _ (bcm2835_i2s_dma_prepare _) => apply keeps_dma_prepare
      | |- keeps _ bcm2835_i2s_clear_regs => apply keeps_clear_regs
      | |- keeps _ (bcm2835_i2s_configure _) => apply keeps_configure
      | |- keeps _ (bcm2835_i2s_enable _) => apply keeps_enable
      | |- keeps _ (bcm2835_i2s_clear_fifos _ _ _) => apply keeps_clear_fifos
      | |- keeps _ (prime_tx_fifo _) => apply keeps_prime_tx_fifo
      | |- keeps _ (bcm2835_i2s_submit_dma _) => apply keeps_submit_dma
      end ].
Qed.

End DevInvariant.

(** ** bcm2835_i2s_buffers_setup *)

Section BuffersSetup.

Context {Hdr : i2s_header}.
Variable E : env.

(** Whatever happens after the geometry is computed, the buffer set keeps
    the computed geometry: on success, on a failed prepare and on a failed
    submission alike. *)
Lemma buffers_setup_buffer (audio_buffer_size audio_channels : Z)
  (w : world) :
  buffer (dev (final_world
    (bcm2835_i2s_buffers_setup E audio_buffer_size audio_channels w)))
  = buffer_geometry audio_buffer_size audio_channels (buffer (dev w)).
Proof.
  unfold bcm2835_i2s_buffers_setup. unfold bind at 1.
  cbn [update_dev modify].
  match goal with |- context [final_world (?m ?x)] =>
    pose proof (@keeps_buffers_setup_tail same_buffer
                  ltac:(intros d; reflexivity)
                  ltac:(intros a b c Hab Hbc; unfold same_buffer in *;
                        congruence)
                  Hdr E
                  ltac:(intros; reflexivity) ltac:(intros; reflexivity)
                  ltac:(intros; reflexivity) ltac:(intros; reflexivity)
                  audio_channels x) as Hk
  end.
  unfold same_buffer in Hk. rewrite Hk. reflexivity.
Qed.

(** C6.  For a pair (period_frames, channel_count) whose byte counts do
    not overflow, and a capture buffer that lies in the address space,
    bcm2835_i2s_buffers_setup leaves: period length = period_frames x
    channel_count x 4, buffer length = 2 x period length, playback base =
    capture base + buffer length, for the virtual and for the physical
    address; the capture base is the one it found. *)
Theorem buffers_setup_geometry (period_frames channel_count : Z)
  (w : world) :
  32 <= word_bits ->
  0 <= period_frames * channel_count ->
  8 * (period_frames * channel_count) < 2 ^ 32 ->
  0 <= rx_buf (buffer (dev w)) ->
  rx_buf (buffer (dev w)) + 8 * (period_frames * channel_count)
    < 2 ^ word_bits ->
  0 <= rx_phys_addr (buffer (dev w)) ->
  rx_phys_addr (buffer (dev w)) + 8 * (period_frames * channel_count)
    < 2 ^ word_bits ->
  let b := buffer (dev (final_world
             (bcm2835_i2s_buffers_setup E period_frames channel_count w))) in
  period_len b = period_frames * channel_count * 4
  /\ buffer_len b = 2 * period_len b
  /\ buffer_len b = 2 * period_frames * channel_count * 4
  /\ tx_buf b = rx_buf b + buffer_len b
  /\ tx_phys_addr b = rx_phys_addr b + buffer_len b
  /\ rx_buf b = rx_buf (buffer (dev w))
  /\ rx_phys_addr b = rx_phys_addr (buffer (dev w)).
Proof.
  intros Hwb Hp0 Hp8 Hv0 Hv Hph0 Hph. cbv zeta.
  rewrite buffers_setup_buffer.
  set (p := period_frames * channel_count) in *.
  assert (Hpow : 2 ^ 32 <= 2 ^ word_bits)
    by (apply Z.pow_le_mono_r; lia).
  assert (Hs : s32 p = p) by (unfold s32; rewrite Z.mod_small; lia).
  assert (Hu : forall z, 0 <= z < 2 ^ word_bits -> uword z = z)
    by (intros z Hz; unfold uword, wrap; now rewrite Z.mod_small).
  unfold buffer_geometry. cbn [period_len buffer_len tx_buf rx_buf
                                 tx_phys_addr rx_phys_addr].
  fold p. rewrite Hs.
  rewrite (Hu p) by lia. rewrite (Hu (p * 4)) by lia.
  rewrite (Hu (2 * (p * 4))) by lia.
  rewrite !Hu by lia.
  repeat split; lia.
Qed.

End BuffersSetup.

(** The witness of C6: 64 frames of 2 channels, scenario A of the
    specification; the period is 512 bytes long. *)
Lemma buffers_setup_geometry_witness :
  let b := buffer (dev (final_world
             (bcm2835_i2s_buffers_setup (Hdr := sample_header)
                (quiet_env (fun _ _ => 0)) 64 2 (boot "hifi-berry-pro")))) in
  period_len b = 64 * 2 * 4
  /\ buffer_len b = 2 * period_len b
  /\ buffer_len b = 2 * 64 * 2 * 4
  /\ tx_buf b = rx_buf b + buffer_len b
  /\ tx_phys_addr b = rx_phys_addr b + buffer_len b
  /\ rx_buf b = rx_buf (buffer (dev (boot "hifi-berry-pro")))
  /\ rx_phys_addr b = rx_phys_addr (buffer (dev (boot "hifi-berry-pro"))).
Proof.
  apply (buffers_setup_geometry (Hdr := sample_header)
           (quiet_env (fun _ _ => 0)) 64 2 (boot "hifi-berry-pro"));
    vm_compute; congruence.
Defined.

(** ** bcm2835_i2s_synch_frame *)

Lemma list_set_app_r {A} (l1 l2 : list A) (n : nat) (x : A) :
  n = List.length l1 -> list_set (l1 ++ l2) n x = l1 ++ list_set l2 O x.
Proof.
  intros ->. induction l1 as [|a l1 IH]; cbn; [reflexivity|]. now rewrite IH.
Qed.

Section SynchFrame.

Context {Hdr : i2s_header}.
Variable E : env.
Variable fb : nat.

Lemma recorded_length k :
  (k <= tmp_size)%nat -> List.length (recorded E fb k) = tmp_size.
Proof.
  intros H. unfold recorded.
  rewrite length_app, length_map, length_seq, repeat_length. lia.
Qed.

Lemma recorded_S k :
  (k < tmp_size)%nat ->
  list_set (recorded E fb k) k (Some (rx_sample E fb k))
  = recorded E fb (S k).
Proof.
  intros Hk. unfold recorded.
  rewrite list_set_app_r by now rewrite length_map, length_seq.
  replace (tmp_size - k)%nat with (S (tmp_size - S k)) by lia.
  cbn [repeat list_set]. rewrite seq_S, map_app, <- app_assoc. reflexivity.
Qed.

(** Before the first zero pair has been popped the loop goes on. *)
Lemma continue_before (p k : nat) (l : synch_locals) (w : world) :
  synch_inv E fb k l w ->
  (forall q, (q < p)%nat -> zero_pair E fb q = false) ->
  (k < p + 2)%nat ->
  negb (samples0 l =? 0) || negb (samples1 l =? 0) = true.
Proof.
  intros [_ _ _ H0 H1] Hfirst Hk. rewrite H0, H1. unfold recent.
  destruct (Nat.ltb_spec 1 k) as [H2|H2].
  - destruct (Nat.ltb_spec 0 k) as [_|?]; [|lia].
    specialize (Hfirst (k - 2)%nat ltac:(lia)). unfold zero_pair in Hfirst.
    replace (S (k - 2)) with (k - 1 - 0)%nat in Hfirst by lia.
    replace (k - 2)%nat with (k - 1 - 1)%nat in Hfirst by lia.
    destruct (rx_sample E fb (k - 1 - 0) =? 0),
             (rx_sample E fb (k - 1 - 1) =? 0); cbn in *; congruence.
  - cbn. apply orb_true_r.
Qed.



(** A pop while the array has room: the sample is stored at the index
    that equals the number of samples discarded so far. *)
Lemma synch_frame_pop_records (k : nat) (l : synch_locals) (w : world) :
  synch_inv E fb k l w -> (k < tmp_size)%nat ->
  exists l' w',
    synch_frame_pop E l w = Ok l' w'
    /\ synch_inv E fb (S k) l' w'
    /\ nth_error (tmp l') k = Some (Some (rx_sample E fb k))
    /\ nreads w' CS_A = nreads w CS_A.
Proof.
  intros [Hf Hd Ht H0 H1] Hk. unfold synch_frame_pop.
  unfold bind at 1. cbn [rpi_reg_write].
  unfold bind at 1. cbn [rpi_reg_read nreads reg_eqb].
  rewrite Hf. fold (rx_sample E fb k).
  unfold bind at 1. unfold array_store.
  rewrite Ht, Hd, recorded_length by lia.
  unfold tmp_size in Hk.
  destruct (Z.leb_spec 0 (Z.of_nat k)); [|lia].
  destruct (Z.ltb_spec (Z.of_nat k) (Z.of_nat tmp_size));
    [|unfold tmp_size in *; lia].
  cbn [andb ret]. rewrite Nat2Z.id, recorded_S by (unfold tmp_size; lia).
  do 2 eexists. split; [reflexivity|]. split; [|split].
  - split; cbn [nreads reg_eqb discarded tmp samples0 samples1].
    + lia.
    + unfold u32. rewrite Z.mod_small; lia.
    + reflexivity.
    + unfold recent. replace (S k - 1 - 0)%nat with k by lia. reflexivity.
    + rewrite H0. unfold recent.
      replace (S k - 1 - 1)%nat with (k - 1 - 0)%nat by lia.
      destruct k; reflexivity.
  - cbn [tmp]. unfold recorded.
    rewrite nth_error_app1 by (rewrite length_map, length_seq; lia).
    rewrite nth_error_map, nth_error_seq.
    destruct (Nat.ltb_spec k (S k)); [reflexivity | lia].
  - reflexivity.
Qed.

(** A pop when the array is full: the store is out of bounds. *)
Lemma synch_frame_pop_overflows (l : synch_locals) (w : world) :
  synch_inv E fb tmp_size l w ->
  exists w',
    synch_frame_pop E l w
    = Fault (OutOfBounds (Z.of_nat tmp_size) (Z.of_nat tmp_size)) w'.
Proof.
  intros [Hf Hd Ht H0 H1]. unfold synch_frame_pop.
  unfold bind at 1. cbn [rpi_reg_write].
  unfold bind at 1. cbn [rpi_reg_read nreads reg_eqb].
  unfold bind at 1. unfold array_store.
  rewrite Ht, Hd, recorded_length by lia.
  rewrite Z.ltb_irrefl, andb_false_r. eexists. reflexivity.
Qed.


(** The loop on a stream with no zero pair among its first tmp_size
    samples: the pop after the last one that fits is out of bounds. *)
Lemma synch_frame_loop_overflows :
  (forall q, (q + 2 <= tmp_size)%nat -> zero_pair E fb q = false) ->
  forall (fuel k : nat) (l : synch_locals) (w : world),
    synch_inv E fb k l w ->
    (k <= tmp_size)%nat ->
    (S tmp_size - k <= rxd_count E (nreads w CS_A) fuel)%nat ->
    exists w',
      synch_frame_loop E fuel l w
      = Fault (OutOfBounds (Z.of_nat tmp_size) (Z.of_nat tmp_size)) w'.
Proof.
  intros Hnone.
  induction fuel as [|fuel IH]; intros k l w Hinv Hk Hcount.
  - cbn [rxd_count] in Hcount. lia.
  - cbn [synch_frame_loop].
    rewrite (continue_before (tmp_size - 1) k l w Hinv)
      by (try (intros q Hq; apply Hnone); unfold tmp_size in *; lia).
    unfold bind at 1. cbn [rpi_reg_read].
    cbn [rxd_count] in Hcount. unfold rxd_ready in Hcount at 1.
    set (w1 := {| dev := dev w; nreads := _; latched := _; trace := _ |})
      in *.
    assert (Hinv1 : synch_inv E fb k l w1) by (destruct Hinv; split; auto).
    assert (Hcs1 : nreads w1 CS_A = S (nreads w CS_A)) by reflexivity.
    destruct (negb (Z.land (u32 (feed E CS_A (nreads w CS_A)))
                      BCM2835_I2S_RXD =? 0)).
    + destruct (Nat.eq_dec k tmp_size) as [->|Hne].
      * destruct (synch_frame_pop_overflows l w1 Hinv1) as (w2 & Hpop).
        unfold bind at 1. rewrite Hpop. eexists. reflexivity.
      * destruct (synch_frame_pop_records k l w1 Hinv1 ltac:(lia))
          as (l' & w2 & Hpop & Hinv2 & _ & Hcs2).
        unfold bind at 1. rewrite Hpop.
        apply (IH (S k) l' w2 Hinv2); [lia|]. rewrite Hcs2, Hcs1. lia.
    + apply (IH k l w1 Hinv1); [lia|]. rewrite Hcs1. lia.
Qed.

(** Polling only ever adds reads of the control register. *)
Lemma synch_frame_pop_cs (l : synch_locals) (w : world) :
  nreads (final_world (synch_frame_pop E l w)) CS_A = nreads w CS_A.
Proof.
  unfold synch_frame_pop, array_store. run.
  destruct ((0 <=? discarded l)
            && (discarded l <? Z.of_nat (List.length (tmp l))));
    reflexivity.
Qed.

Lemma synch_frame_loop_cs_mono (fuel : nat) :
  forall (l : synch_locals) (w : world),
    (nreads w CS_A
     <= nreads (final_world (synch_frame_loop E fuel l w)) CS_A)%nat.
Proof.
  induction fuel as [|fuel IH]; intros l w; cbn [synch_frame_loop];
    destruct (negb (samples0 l =? 0) || negb (samples1 l =? 0));
    try (cbn; lia).
  unfold bind at 1. cbn [rpi_reg_read].
  set (w1 := {| dev := dev w; nreads := _; latched := _; trace := _ |}).
  assert (Hcs1 : nreads w1 CS_A = S (nreads w CS_A)) by reflexivity.
  destruct (negb (Z.land (u32 (feed E CS_A (nreads w CS_A)))
                    BCM2835_I2S_RXD =? 0)).
  - unfold bind. pose proof (synch_frame_pop_cs l w1) as Hp.
    destruct (synch_frame_pop E l w1) as [l' w2|f w2|w2];
      cbn [final_world] in *.
    + specialize (IH l' w2). lia.
    + lia.
    + lia.
  - specialize (IH l w1). lia.
Qed.

End SynchFrame.

Section StartStop.

Context {Hdr : i2s_header}.
Variable E : env.


(** Entered with a window that is not all zero and with fuel left, the
    loop polls the control register at least once. *)
Lemma synch_frame_loop_polls (fuel : nat) (l : synch_locals) (w : world) :
  negb (samples0 l =? 0) || negb (samples1 l =? 0) = true ->
  (S (nreads w CS_A)
   <= nreads (final_world (synch_frame_loop E (S fuel) l w)) CS_A)%nat.
Proof.
  intros Hc. cbn [synch_frame_loop]. rewrite Hc.
  unfold bind at 1. cbn [rpi_reg_read].
  set (w1 := {| dev := dev w; nreads := _; latched := _; trace := _ |}).
  assert (Hcs1 : nreads w1 CS_A = S (nreads w CS_A)) by reflexivity.
  destruct (negb (Z.land (u32 (feed E CS_A (nreads w CS_A)))
                    BCM2835_I2S_RXD =? 0)).
  - unfold bind. pose proof (synch_frame_pop_cs E l w1) as Hp.
    destruct (synch_frame_pop E l w1) as [l' w2|f w2|w2];
      cbn [final_world] in *; try lia.
    pose proof (synch_frame_loop_cs_mono E fuel l' w2). lia.
  - pose proof (synch_frame_loop_cs_mono E fuel l w1). lia.
Qed.

Lemma synch_frame_enters_loop (fuel : nat) (mask : Z) (w : world) :
  entered_discard_loop w
    (final_world (bcm2835_i2s_synch_frame E (S fuel) mask w)) = true.
Proof.
  unfold entered_discard_loop, bcm2835_i2s_synch_frame.
  unfold bind at 1. rewrite rpi_reg_update_bits_ok.
  set (w1 := after_update_bits E CS_A mask mask w).
  assert (Hcs1 : nreads w1 CS_A = S (nreads w CS_A)) by reflexivity.
  pose proof (synch_frame_loop_polls fuel synch_frame_start w1 eq_refl) as Hp.
  apply Nat.ltb_lt. unfold bind.
  destruct (synch_frame_loop E (S fuel) synch_frame_start w1)
    as [l' w2|f w2|w2]; cbn [final_world log modify emit nreads] in *; lia.
Qed.

Lemma bit_clock_provider_iff_hifi_berry (w : world) :
  is_bit_clock_provider E w = String.eqb (audio_hat (dev w)) "hifi-berry".
Proof.
  unfold is_bit_clock_provider, configure_hat, audio_hat_is. run.
  destruct (String.eqb (audio_hat (dev w)) "hifi-berry"); cbn.
  - destruct (negb _); reflexivity.
  - destruct (String.eqb (audio_hat (dev w)) "hifi-berry-pro"); reflexivity.
Qed.

Lemma start_stop_start (fuel : nat) (w : world) :
  bcm2835_i2s_start_stop E fuel BCM2835_I2S_START_CMD w
  = if String.eqb (audio_hat (dev w)) "elk-pi"
    then bcm2835_i2s_synch_frame E fuel
           (u32 (Z.lor BCM2835_I2S_RXON BCM2835_I2S_TXON)) (emit Wmb w)
    else rpi_reg_update_bits E CS_A
           (u32 (Z.lor BCM2835_I2S_RXON BCM2835_I2S_TXON))
           (u32 (Z.lor BCM2835_I2S_RXON BCM2835_I2S_TXON)) (emit Wmb w).
Proof.
  unfold bcm2835_i2s_start_stop, audio_hat_is.
  unfold bind at 1. cbn [log modify]. rewrite Z.eqb_refl.
  unfold bind at 1. unfold bind at 1. cbn [get ret emit dev].
  destruct (String.eqb (audio_hat (dev w)) "elk-pi"); reflexivity.
Qed.

(** C4, as the code has it.  The start command enters the discard loop if
    and only if the hardware variant is named "elk-pi": then it is
    bcm2835_i2s_synch_frame that runs; for every other name the command
    is one read-modify-write of the control register that sets the RX/TX
    enable mask, with no access to the FIFO.  The variant that makes the
    peripheral bit-clock and frame-sync master is "hifi-berry", which is
    among those others. *)
Theorem start_enters_discard_loop_iff_elk_pi (fuel : nat) (w : world) :
  let mask := u32 (Z.lor BCM2835_I2S_RXON BCM2835_I2S_TXON) in
  let o := bcm2835_i2s_start_stop E (S fuel) BCM2835_I2S_START_CMD w in
  entered_discard_loop w (final_world o)
  = String.eqb (audio_hat (dev w)) "elk-pi"
  /\ (if String.eqb (audio_hat (dev w)) "elk-pi"
      then o = bcm2835_i2s_synch_frame E (S fuel) mask (emit Wmb w)
      else o = Ok tt (after_update_bits E CS_A mask mask (emit Wmb w)))
  /\ is_bit_clock_provider E w
     = String.eqb (audio_hat (dev w)) "hifi-berry".
Proof.
  cbv zeta. rewrite start_stop_start.
  split; [|split; [|apply bit_clock_provider_iff_hifi_berry]];
    destruct (String.eqb (audio_hat (dev w)) "elk-pi"); try reflexivity.
  - apply (synch_frame_enters_loop fuel _ (emit Wmb w)).
  - rewrite rpi_reg_update_bits_ok. unfold entered_discard_loop.
    cbn. apply Nat.ltb_irrefl.
Qed.

End StartStop.

(** C4 as stated fails in both directions.  "hifi-berry" is the
    bit-clock provider and its start does not enter the discard loop: it
    is a read and a write of the control register after the barrier.
    "elk-pi" is not the bit-clock provider and its start does enter the
    loop; here it discards two samples. *)
Lemma start_discard_loop_not_for_bit_clock_provider :
  let E := quiet_env (codec_regs 0) in
  let start hat :=
    bcm2835_i2s_start_stop (Hdr := sample_header) E 8 1 (boot hat) in
  (is_bit_clock_provider (Hdr := sample_header) E (boot "hifi-berry") = true
   /\ entered_discard_loop (boot "hifi-berry")
        (final_world (start "hifi-berry"%string)) = false
   /\ rev (trace (final_world (start "hifi-berry"%string)))
      = [Wmb; Readl CS_A 1048576; Writel CS_A 1048582])
  /\ (is_bit_clock_provider (Hdr := sample_header) E (boot "elk-pi") = false
      /\ entered_discard_loop (boot "elk-pi")
           (final_world (start "elk-pi"%string)) = true
      /\ hd Wmb (trace (final_world (start "elk-pi"%string)))
         = Printk samples_discarded_msg [2]).
Proof. vm_compute. repeat split; reflexivity. Qed.

(** A stream on which the loop works: samples 1, 1, 1, 0, 0.  The first
    zero pair is the 4th and 5th sample, and 5 samples are reported. *)
Example synch_frame_reports_five :
  hd Wmb (trace (final_world
    (bcm2835_i2s_start_stop (Hdr := sample_header)
       (quiet_env (codec_regs 3)) 8 1 (boot "elk-pi"))))
  = Printk samples_discarded_msg [5].
Proof. vm_compute. reflexivity. Qed.

(** With the stores to tmp checked, a late zero pair is not reached.  The
    stream is ten samples of value 1 followed by zeros, with RXD always
    set: its first zero pair is the 11th and 12th sample (10 and 11
    counted from 0).  The tenth sample popped is stored past the end of
    tmp, and the checked run stops there, after ten pops. *)
Lemma synch_frame_late_zero_pair_faults :
  let E := quiet_env (codec_regs 10) in
  let o := bcm2835_i2s_start_stop (Hdr := sample_header) E 64 1
             (boot "elk-pi") in
  zero_pair E 0 10 = true
  /\ forallb (fun q => negb (zero_pair E 0 q)) (seq 0 10) = true
  /\ returned o = None
  /\ fault_of o = Some (OutOfBounds 9 9)
  /\ nreads (final_world o) FIFO_A = 10%nat
  /\ existsb (fun e => match e with Printk _ _ => true | _ => false end)
       (trace (final_world o)) = false.
Proof.
  cbv zeta. split; [vm_compute; reflexivity|].
  split; [vm_compute; reflexivity|].
  split; [vm_compute; reflexivity|].
  split; [vm_compute; reflexivity|].
  split; vm_compute; reflexivity.
Qed.

(** C8, the code at the failing input.  Each sample is stored at the
    index that equals the number of samples discarded before it: on the
    stream 1, 1, 1, 1, 1, 1, 1, 0, 0 the nine samples fill tmp[0] ..
    tmp[8].  The array has 9 elements and the index is not bounded: on the
    stream of ten samples of value 1 followed by zeros the tenth store is
    tmp[9], past the end of the array. *)
Theorem synch_frame_loop_tenth_store_out_of_bounds :
  returned (synch_frame_loop (Hdr := sample_header)
              (quiet_env (codec_regs 7)) 16 synch_frame_start
              (boot "elk-pi"))
  = Some {| samples0 := 0; samples1 := 0; discarded := 9;
            tmp := [Some 1; Some 1; Some 1; Some 1; Some 1; Some 1; Some 1;
                    Some 0; Some 0] |}
  /\ fault_of (synch_frame_loop (Hdr := sample_header)
                 (quiet_env (codec_regs 10)) 10 synch_frame_start
                 (boot "elk-pi"))
     = Some (OutOfBounds (Z.of_nat tmp_size) (Z.of_nat tmp_size))
  /\ nreads (final_world
               (synch_frame_loop (Hdr := sample_header)
                  (quiet_env (codec_regs 10)) 10 synch_frame_start
                  (boot "elk-pi"))) FIFO_A = 10%nat.
Proof. repeat split; vm_compute; reflexivity. Qed.

(** ** The count of the frame synchroniser *)

Section SynchFrameCountProperties.

Context {Hdr : i2s_header}.
Variable E : env.

(** With the checked store the three definitions are the model of the
    source. *)
Lemma synch_frame_loop_with_array_store (fuel : nat) (l : synch_locals)
  (w : world) :
  synch_frame_loop_with E array_store fuel l w
  = synch_frame_loop E fuel l w.
Proof. reflexivity. Qed.

Lemma synch_frame_with_array_store (fuel : nat) (mask : Z) (w : world) :
  bcm2835_i2s_synch_frame_with E array_store fuel mask w
  = bcm2835_i2s_synch_frame E fuel mask w.
Proof. reflexivity. Qed.

Lemma array_store_unchecked_completes :
  store_completes array_store_unchecked.
Proof.
  intros a i v w. unfold array_store_unchecked.
  destruct ((0 <=? i) && (i <? Z.of_nat (List.length a)));
    eexists; reflexivity.
Qed.

Variable store : list (option Z) -> Z -> Z -> M (list (option Z)).
Hypothesis Hstore : store_completes store.
Variable fb : nat.





End SynchFrameCountProperties.

Section SynchFrameClaim.

Context {Hdr : i2s_header}.
Variable E : env.


End SynchFrameClaim.


(** * Further properties of the driver *)

(** ** Bits under a read-modify-write *)

Lemma testbit_not32 (x i : Z) :
  0 <= i -> Z.testbit (not32 x) i = (i <? 32) && negb (Z.testbit x i).
Proof.
  intros Hi. unfold not32. now rewrite testbit_u32, Z.lnot_spec.
Qed.

(** The value rpi_reg_update_bits writes: inside the mask the bits of
    [value], outside it the bits read. *)
Lemma update_bits_value_bits (orig mask value i : Z) :
  0 <= i ->
  Z.testbit (u32 (Z.lor (Z.land (u32 orig) (not32 (u32 mask)))
                    (Z.land (u32 value) (u32 mask)))) i
  = (i <? 32) && (if Z.testbit mask i then Z.testbit value i
                  else Z.testbit orig i).
Proof.
  intros Hi.
  rewrite testbit_u32, Z.lor_spec, !Z.land_spec, testbit_not32,
    !testbit_u32 by assumption.
  destruct (i <? 32), (Z.testbit mask i), (Z.testbit value i),
    (Z.testbit orig i); reflexivity.
Qed.

Lemma u32_idem (x : Z) : u32 (u32 x) = u32 x.
Proof. unfold u32. apply Z.mod_mod. lia. Qed.

(** ** bcm2835_i2s_submit_dma and bcm2835_i2s_exit *)

Section DmaMore.

Variable E : env.

(** X1.  bcm2835_i2s_submit_dma issues pending work only on the path
    that returns 0: if it does not return 0 it has issued neither
    channel, and it has then returned -EIO or stopped on a NULL
    descriptor.  TX is submitted only after the RX submission returned a
    cookie that is not an error. *)
Theorem submit_dma_failure_issues_nothing (w : world) :
  exists evs : history,
    trace (final_world (bcm2835_i2s_submit_dma E w)) = evs ++ trace w
    /\ (returned (bcm2835_i2s_submit_dma E w) = Some 0
        \/ (existsb is_issue_pending evs = false
            /\ (returned (bcm2835_i2s_submit_dma E w) = Some (- EIO)
                \/ exists c, fault_of (bcm2835_i2s_submit_dma E w)
                             = Some (NullDescriptor c))))
    /\ (existsb (is_submit DMA_TX) evs = true ->
        exists crx, 0 <= crx /\ In (Submit DMA_RX crx) evs).
Proof.
  unfold bcm2835_i2s_submit_dma. run.
  destruct (rx_desc (dev w)) as [r|].
  2:{ exists []. cbn. repeat split; eauto; try discriminate. }
  set (crx := s32 (dmaengine_submit E (trace w) DMA_RX)).
  unfold dma_submit_error.
  destruct (Z.ltb_spec crx 0) as [Hrx|Hrx].
  { destruct (Z.eqb_spec crx 0); [lia|]. cbn. eexists [_; _]. cbn.
    repeat split; eauto; try discriminate. }
  cbn. destruct (tx_desc (dev w)) as [t|]; cbn.
  2:{ eexists [_]. cbn. repeat split; eauto; try discriminate. }
  match goal with |- context [dmaengine_submit E ?h DMA_TX] =>
    set (ctx := s32 (dmaengine_submit E h DMA_TX)) end.
  destruct (Z.ltb_spec ctx 0) as [Htx|Htx].
  - destruct (Z.eqb_spec ctx 0); [lia|]. cbn. eexists [_; _; _]. cbn.
    repeat split; eauto. intros _. exists crx. auto.
  - cbn. eexists [_; _; _; _]. cbn. repeat split; eauto.
    intros _. exists crx. auto 6.
Qed.

(** X2.  When the TX termination request is accepted,
    bcm2835_i2s_exit synchronises TX before it asks RX to terminate; it
    then synchronises RX and returns 0, or, if the RX request fails, logs
    that and returns the RX error code without synchronising RX. *)
Theorem exit_terminates_tx_then_rx (w : world) :
  0 <= s32 (dmaengine_terminate_async E (trace w) DMA_TX) ->
  exists rc_tx rc_rx : Z,
    trace (final_world (bcm2835_i2s_exit E w))
    = rev ([TerminateAsync DMA_TX rc_tx; Synchronize DMA_TX;
            TerminateAsync DMA_RX rc_rx]
           ++ (if rc_rx <? 0 then [Printk terminate_failed_msg []]
               else [Synchronize DMA_RX]))
      ++ trace w
    /\ returned (bcm2835_i2s_exit E w)
       = Some (if rc_rx <? 0 then rc_rx else 0).
Proof.
  intros Htx. unfold bcm2835_i2s_exit. run.
  set (rc_tx := s32 (dmaengine_terminate_async E (trace w) DMA_TX)) in *.
  destruct (Z.ltb_spec rc_tx 0) as [?|_]; [lia|]. cbn.
  match goal with |- context [dmaengine_terminate_async E ?h DMA_RX] =>
    set (rc_rx := s32 (dmaengine_terminate_async E h DMA_RX)) end.
  exists rc_tx, rc_rx. destruct (rc_rx <? 0); cbn; split; reflexivity.
Qed.

(** X3.  bcm2835_i2s_dma_prepare_cyclic always returns.  For a direction
    other than memory-to-device and device-to-memory it returns NULL
    after logging, without any call into the DMA engine.  When the slave
    configuration is rejected it returns NULL without asking for a
    descriptor.  A descriptor it returns belongs to the TX channel for
    memory-to-device and to the RX channel for device-to-memory, and has
    no callback yet. *)
Theorem dma_prepare_cyclic_results (dir : dma_transfer_direction)
  (w : world) :
  exists (d : option dma_async_tx_descriptor) (w' : world) (evs : history),
    bcm2835_i2s_dma_prepare_cyclic E dir w = Ok d w'
    /\ trace w' = evs ++ trace w
    /\ dev w' = dev w
    /\ match dir with
       | DMA_MEM_TO_DEV | DMA_DEV_TO_MEM =>
           let c := match dir with DMA_MEM_TO_DEV => DMA_TX
                                 | _ => DMA_RX end in
           forallb (fun e => on_channel c e
                             || match e with Printk _ _ => true
                                           | _ => false end) evs = true
           /\ (s32 (dmaengine_slave_config E (trace w) c) <> 0 ->
               d = None
               /\ existsb (fun e => match e with
                                    | PrepDmaCyclic _ _ _ _ _ _ => true
                                    | _ => false end) evs = false)
           /\ (forall x, d = Some x ->
                 desc_chan x = c /\ callback x = false)
       | _ =>
           d = None /\ evs = [Printk unsupported_direction_msg []]
       end.
Proof.
  unfold bcm2835_i2s_dma_prepare_cyclic, prepare_on. run.
  destruct dir; cbn;
    try (do 2 eexists; eexists [_]; repeat split; reflexivity).
  - destruct (Z.eqb_spec (s32 (dmaengine_slave_config E (trace w) DMA_TX)) 0)
      as [H0|H0]; cbn;
      [match goal with |- context [dmaengine_prep_dma_cyclic E ?h DMA_TX] =>
         destruct (dmaengine_prep_dma_cyclic E h DMA_TX) end|];
      do 2 eexists; eexists [_; _]; cbn;
      do 4 (split; [reflexivity|]);
      (split; [intros Hne; try congruence; split; reflexivity
              |intros x Hx; inversion Hx; subst; split; reflexivity]).
  - destruct (Z.eqb_spec (s32 (dmaengine_slave_config E (trace w) DMA_RX)) 0)
      as [H0|H0]; cbn;
      [match goal with |- context [dmaengine_prep_dma_cyclic E ?h DMA_RX] =>
         destruct (dmaengine_prep_dma_cyclic E h DMA_RX) end|];
      do 2 eexists; eexists [_; _]; cbn;
      do 4 (split; [reflexivity|]);
      (split; [intros Hne; try congruence; split; reflexivity
              |intros x Hx; inversion Hx; subst; split; reflexivity]).
Qed.

End DmaMore.

(** The witness of X2: both termination requests accepted. *)
Lemma exit_terminates_tx_then_rx_witness :
  let E := quiet_env (fun _ _ => 0) in
  0 <= s32 (dmaengine_terminate_async E (trace (prepared "elk-pi")) DMA_TX)
  /\ exists rc_tx rc_rx : Z,
      trace (final_world (bcm2835_i2s_exit E (prepared "elk-pi")))
      = rev ([TerminateAsync DMA_TX rc_tx; Synchronize DMA_TX;
              TerminateAsync DMA_RX rc_rx]
             ++ (if rc_rx <? 0 then [Printk terminate_failed_msg []]
                 else [Synchronize DMA_RX]))
        ++ trace (prepared "elk-pi")
      /\ returned (bcm2835_i2s_exit E (prepared "elk-pi"))
         = Some (if rc_rx <? 0 then rc_rx else 0).
Proof.
  cbv zeta. split; [vm_compute; congruence|].
  apply (exit_terminates_tx_then_rx (quiet_env (fun _ _ => 0))
           (prepared "elk-pi")).
  vm_compute; congruence.
Defined.

(** ** Start, stop and the FIFO clear on the control register *)

Section ControlRegister.

Context {Hdr : i2s_header}.
Variable E : env.

Lemma rmw_bits (orig mask value i : Z) :
  0 <= i ->
  Z.testbit (rmw (u32 orig) mask value) i
  = (i <? 32) && (if Z.testbit mask i then Z.testbit value i
                  else Z.testbit orig i).
Proof. apply update_bits_value_bits. Qed.

Lemma rmw_cs_read_bits (b k : nat) (mask value i : Z) :
  0 <= i ->
  Z.testbit (rmw (cs_read E b k) mask value) i
  = if Z.testbit mask i then (i <? 32) && Z.testbit value i
    else Z.testbit (cs_read E b k) i.
Proof.
  intros Hi. unfold cs_read. rewrite rmw_bits, testbit_u32 by assumption.
  destruct (Z.testbit mask i); reflexivity.
Qed.

Lemma after_update_bits_rmw r mask value w :
  after_update_bits E r mask value w
  = {| dev := dev w;
       nreads := fun r' => if reg_eqb r' r then S (nreads w r')
                           else nreads w r';
       latched := fun r' =>
         if reg_eqb r' r
         then rmw (u32 (feed E r (nreads w r))) mask value
         else latched w r';
       trace := Writel r (rmw (u32 (feed E r (nreads w r))) mask value)
                  :: Readl r (u32 (feed E r (nreads w r))) :: trace w |}.
Proof. reflexivity. Qed.

(** X4.  A command other than the start command is one barrier, one
    read and one write of the control register, whatever the hardware
    variant: the value written has the TX-enable and RX-enable bits
    clear and every other bit as it was read.  If both enable bits read
    clear already, the value written is the value read. *)
Theorem start_stop_stop_clears_enable (fuel : nat) (cmd : Z) (w : world) :
  (cmd =? BCM2835_I2S_START_CMD) = false ->
  exists (v : Z) (w' : world),
    let orig := cs_read E (nreads w CS_A) 0 in
    bcm2835_i2s_start_stop E fuel cmd w = Ok tt w'
    /\ trace w' = [Writel CS_A v; Readl CS_A orig; Wmb] ++ trace w
    /\ latched w' CS_A = v
    /\ dev w' = dev w
    /\ Z.land v BCM2835_I2S_TXON = 0
    /\ Z.land v BCM2835_I2S_RXON = 0
    /\ (forall i, 0 <= i ->
          Z.testbit (Z.lor BCM2835_I2S_RXON BCM2835_I2S_TXON) i = false ->
          Z.testbit v i = Z.testbit orig i)
    /\ (Z.land orig BCM2835_I2S_TXON = 0 ->
        Z.land orig BCM2835_I2S_RXON = 0 -> v = orig).
Proof.
  intros Hcmd. unfold bcm2835_i2s_start_stop.
  unfold bind at 1. cbn [log modify]. rewrite Hcmd.
  rewrite rpi_reg_update_bits_ok, after_update_bits_rmw.
  cbn [emit nreads trace]. rewrite <- cs_read_0.
  set (orig := cs_read E (nreads w CS_A) 0).
  set (mask := u32 (Z.lor BCM2835_I2S_RXON BCM2835_I2S_TXON)).
  assert (Hbit : forall i, 0 <= i ->
            Z.testbit (rmw orig mask 0) i
            = if (i <? 32) && Z.testbit
                   (Z.lor BCM2835_I2S_RXON BCM2835_I2S_TXON) i
              then false else Z.testbit orig i).
  { intros i Hi. unfold orig. rewrite rmw_cs_read_bits by assumption.
    unfold mask. rewrite testbit_u32, Z.testbit_0_l, andb_false_r.
    reflexivity. }
  assert (Hhigh : forall i, 32 <= i -> Z.testbit orig i = false).
  { intros i Hi. unfold orig, cs_read. rewrite testbit_u32.
    destruct (Z.ltb_spec i 32); [lia | reflexivity]. }
  do 2 eexists. cbv zeta. split; [reflexivity|]. split; [reflexivity|].
  split; [reflexivity|]. split; [reflexivity|].
  split; [|split; [|split]].
  - apply Z.bits_inj'. intros i Hi.
    rewrite Z.land_spec, Hbit, Z.lor_spec, Z.testbit_0_l by assumption.
    destruct (Z.ltb_spec i 32); cbn.
    + destruct (Z.testbit BCM2835_I2S_TXON i);
        [now rewrite orb_true_r | apply andb_false_r].
    + rewrite Hhigh by assumption. reflexivity.
  - apply Z.bits_inj'. intros i Hi.
    rewrite Z.land_spec, Hbit, Z.lor_spec, Z.testbit_0_l by assumption.
    destruct (Z.ltb_spec i 32); cbn.
    + destruct (Z.testbit BCM2835_I2S_RXON i);
        [reflexivity | apply andb_false_r].
    + rewrite Hhigh by assumption. reflexivity.
  - intros i Hi Hm. rewrite Hbit, Hm, andb_false_r by assumption.
    reflexivity.
  - intros Ht Hr. apply Z.bits_inj'. intros i Hi.
    rewrite Hbit, Z.lor_spec by assumption.
    destruct (Z.ltb_spec i 32); cbn; [|reflexivity].
    pose proof (f_equal (fun z => Z.testbit z i) Ht) as Ht'.
    pose proof (f_equal (fun z => Z.testbit z i) Hr) as Hr'.
    cbn beta in Ht', Hr'. rewrite Z.land_spec, Z.testbit_0_l in Ht', Hr'.
    destruct (Z.testbit BCM2835_I2S_RXON i), (Z.testbit BCM2835_I2S_TXON i),
      (Z.testbit orig i); cbn in *; congruence.
Qed.

(** X5.  On a hardware variant other than "elk-pi" the start command
    writes to the control register the value read with every bit of the
    TX-enable and RX-enable masks (within the 32 bits of the register)
    set and every other bit unchanged. *)
Theorem start_sets_enable_bits (fuel : nat) (w : world) :
  String.eqb (audio_hat (dev w)) "elk-pi" = false ->
  exists (v : Z) (w' : world),
    let orig := cs_read E (nreads w CS_A) 0 in
    bcm2835_i2s_start_stop E fuel BCM2835_I2S_START_CMD w = Ok tt w'
    /\ latched w' CS_A = v
    /\ (forall i, 0 <= i < 32 ->
          Z.testbit v i
          = Z.testbit (Z.lor BCM2835_I2S_RXON BCM2835_I2S_TXON) i
            || Z.testbit orig i)
    /\ 0 <= v < 2 ^ 32.
Proof.
  intros Hhat. rewrite start_stop_start, Hhat.
  rewrite rpi_reg_update_bits_ok, after_update_bits_rmw.
  cbn [emit nreads trace]. rewrite <- cs_read_0.
  do 2 eexists. cbv zeta. split; [reflexivity|]. split; [reflexivity|].
  cbn [latched reg_eqb]. split.
  - intros i Hi. rewrite rmw_cs_read_bits, !testbit_u32 by lia.
    destruct (Z.ltb_spec i 32); [|lia]. cbn.
    destruct (Z.testbit (Z.lor BCM2835_I2S_RXON BCM2835_I2S_TXON) i);
      reflexivity.
  - unfold rmw, u32. apply Z.mod_pos_bound. lia.
Qed.

End ControlRegister.

(** The witness of X4: the stop command (0) on a control register that
    reads with both directions enabled. *)
Lemma start_stop_stop_clears_enable_witness :
  let E := quiet_env (fun _ _ => 6) in
  (0 =? BCM2835_I2S_START_CMD (i2s_header := sample_header)) = false
  /\ exists (v : Z) (w' : world),
      let orig := cs_read E (nreads (boot "elk-pi") CS_A) 0 in
      bcm2835_i2s_start_stop (Hdr := sample_header) E 0 0 (boot "elk-pi")
      = Ok tt w'
      /\ trace w' = [Writel CS_A v; Readl CS_A orig; Wmb]
                    ++ trace (boot "elk-pi")
      /\ latched w' CS_A = v
      /\ dev w' = dev (boot "elk-pi")
      /\ Z.land v (BCM2835_I2S_TXON (i2s_header := sample_header)) = 0
      /\ Z.land v (BCM2835_I2S_RXON (i2s_header := sample_header)) = 0
      /\ (forall i, 0 <= i ->
            Z.testbit (Z.lor (BCM2835_I2S_RXON (i2s_header := sample_header))
                         (BCM2835_I2S_TXON (i2s_header := sample_header))) i
            = false ->
            Z.testbit v i = Z.testbit orig i)
      /\ (Z.land orig (BCM2835_I2S_TXON (i2s_header := sample_header)) = 0 ->
          Z.land orig (BCM2835_I2S_RXON (i2s_header := sample_header)) = 0 ->
          v = orig).
Proof.
  cbv zeta. split; [reflexivity|].
  apply (start_stop_stop_clears_enable (Hdr := sample_header)
           (quiet_env (fun _ _ => 6)) 0 0 (boot "elk-pi")).
  reflexivity.
Defined.

(** The witness of X5: a "hifi-berry" device. *)
Lemma start_sets_enable_bits_witness :
  let E := quiet_env (fun _ _ => 0) in
  String.eqb (audio_hat (dev (boot "hifi-berry"))) "elk-pi" = false
  /\ exists (v : Z) (w' : world),
      let orig := cs_read E (nreads (boot "hifi-berry") CS_A) 0 in
      bcm2835_i2s_start_stop (Hdr := sample_header) E 0 1 (boot "hifi-berry")
      = Ok tt w'
      /\ latched w' CS_A = v
      /\ (forall i, 0 <= i < 32 ->
            Z.testbit v i
            = Z.testbit (Z.lor (BCM2835_I2S_RXON (i2s_header := sample_header))
                           (BCM2835_I2S_TXON (i2s_header := sample_header))) i
              || Z.testbit orig i)
      /\ 0 <= v < 2 ^ 32.
Proof.
  cbv zeta. split; [reflexivity|].
  apply (start_sets_enable_bits (Hdr := sample_header)
           (quiet_env (fun _ _ => 0)) 0 (boot "hifi-berry")).
  reflexivity.
Defined.

(** ** The accesses of bcm2835_i2s_clear_fifos *)

Section ClearFifosMore.

Context {Hdr : i2s_header}.
Variable E : env.

Lemma poll_events_reads base n :
  forallb (is_read_of CS_A) (poll_events E base n) = true
  /\ List.length (poll_events E base n) = n.
Proof.
  unfold poll_events. split.
  - rewrite forallb_forall. intros e He. apply in_rev, in_map_iff in He.
    destruct He as (k & <- & _). reflexivity.
  - now rewrite length_rev, length_map, length_seq.
Qed.

Lemma writes_to_app r h1 h2 :
  writes_to r (h1 ++ h2) = writes_to r h2 ++ writes_to r h1.
Proof. unfold writes_to. now rewrite rev_app_distr, flat_map_app. Qed.

Lemma writes_to_reads r h :
  forallb (is_read_of CS_A) h = true -> writes_to r h = [].
Proof.
  unfold writes_to. intros H. rewrite forallb_forall in H.
  induction h as [|e h IH] using rev_ind; [reflexivity|].
  rewrite rev_app_distr. cbn.
  assert (He : is_read_of CS_A e = true) by (apply H, in_or_app; cbn; auto).
  destruct e; try discriminate He. cbn.
  apply IH. intros x Hx. apply H, in_or_app. auto.
Qed.

Lemma reads_no_writes (l : history) :
  forallb (is_read_of CS_A) l = true -> filter (is_write_to CS_A) l = [].
Proof.
  induction l as [|e l IH]; [reflexivity|]. cbn.
  intros H. apply andb_true_iff in H as [He Hl].
  destruct e; try discriminate He. cbn. auto.
Qed.

(** Everything bcm2835_i2s_clear_fifos does, in terms of the values the
    control register reads: [b] reads had been made before, the poll
    makes [n] of them. *)
Lemma clear_fifos_trace (tx rx : bool) (w : world) :
  let b := nreads w CS_A in
  let c := cs_read E b in
  let off := Z.lor (u32 (if tx then BCM2835_I2S_TXON else 0))
               (u32 (if rx then BCM2835_I2S_RXON else 0)) in
  let clr := Z.lor (u32 (if tx then BCM2835_I2S_TXCLR else 0))
               (u32 (if rx then BCM2835_I2S_RXCLR else 0)) in
  let sync := Z.land (c 3%nat) BCM2835_I2S_SYNC in
  exists (n : nat) (w' : world),
    bcm2835_i2s_clear_fifos E tx rx w = Ok tt w'
    /\ (n <= 999)%nat
    /\ dev w' = dev w
    /\ (forall r, r <> CS_A -> latched w' r = latched w r)
    /\ trace w'
       = [Writel CS_A
            (rmw (c (5 + n)%nat)
               (Z.lor BCM2835_I2S_RXON BCM2835_I2S_TXON)
               (Z.land (c 0%nat)
                  (Z.lor BCM2835_I2S_RXON BCM2835_I2S_TXON)));
          Readl CS_A (c (5 + n)%nat)]
         ++ poll_events E (5 + b) n
         ++ [Writel CS_A (rmw (c 4%nat) BCM2835_I2S_SYNC (not32 sync));
             Readl CS_A (c 4%nat);
             Readl CS_A (c 3%nat);
             Writel CS_A (rmw (c 2%nat) clr clr);
             Readl CS_A (c 2%nat);
             Writel CS_A (rmw (c 1%nat) off 0);
             Readl CS_A (c 1%nat);
             Readl CS_A (c 0%nat)]
         ++ trace w
    /\ (forall k, (S k < n)%nat -> sync_differs E (5 + b) sync k = false)
    /\ ((exists k, n = S k /\ sync_differs E (5 + b) sync k = true)
        \/ (n = 999%nat
            /\ forall k, (k < 999)%nat ->
                         sync_differs E (5 + b) sync k = false)).
Proof.
  cbv zeta. unfold bcm2835_i2s_clear_fifos.
  unfold bind at 1. cbn [rpi_reg_read].
  unfold bind at 1. rewrite rpi_reg_update_bits_ok.
  unfold bind at 1. rewrite rpi_reg_update_bits_ok.
  unfold bind at 1. cbn [rpi_reg_read].
  match goal with |- context [bind _ _ ?x] => set (w4 := x) end.
  match goal with |- context [Z.land ?v BCM2835_I2S_SYNC] =>
    set (sync := Z.land v BCM2835_I2S_SYNC) end.
  unfold bind at 1. rewrite rpi_reg_update_bits_ok.
  unfold bind at 1.
  set (w5 := after_update_bits E CS_A BCM2835_I2S_SYNC (not32 sync) w4).
  destruct (clear_fifos_poll_spec E 1000 1000 sync w5
              ltac:(lia) ltac:(lia))
    as (n & w' & Hr & Hn & Ht & Hc & Hl & Hd & Hpre & Hex).
  rewrite Hr, rpi_reg_update_bits_ok, after_update_bits_rmw.
  assert (Hb5 : nreads w5 CS_A = (5 + nreads w CS_A)%nat) by reflexivity.
  assert (Hsync : sync
                  = Z.land (cs_read E (nreads w CS_A) 3) BCM2835_I2S_SYNC).
  { subst sync. unfold cs_read.
    replace (nreads w CS_A + 3)%nat with (S (S (S (nreads w CS_A))))
      by lia.
    reflexivity. }
  rewrite Hb5 in Hpre, Hex. rewrite Hsync in Hpre, Hex.
  exists n. eexists. split; [reflexivity|]. split; [lia|].
  cbn [dev latched trace]. rewrite Hd, Hl, Ht, Hc, Hb5.
  split; [reflexivity|]. split; [|split; [|split; [exact Hpre|]]].
  - intros r Hr'. destruct r; try reflexivity. congruence.
  - clear Hpre Hex Hsync. unfold cs_read in *. subst sync.
    replace (nreads w CS_A + (5 + n))%nat with (5 + nreads w CS_A + n)%nat
      by lia.
    rewrite !Nat.add_0_r.
    replace (nreads w CS_A + 1)%nat with (S (nreads w CS_A)) by lia.
    replace (nreads w CS_A + 2)%nat with (S (S (nreads w CS_A))) by lia.
    replace (nreads w CS_A + 3)%nat with (S (S (S (nreads w CS_A)))) by lia.
    replace (nreads w CS_A + 4)%nat
      with (S (S (S (S (nreads w CS_A))))) by lia.
    cbn [app]. do 2 (apply f_equal2; [reflexivity|]). f_equal.
  - destruct (Z.ltb_spec (Z.of_nat n) 999) as [Hlt|Hge].
    + left. apply Hex. lia.
    + assert (Hn999 : n = 999%nat) by lia.
      destruct (sync_differs E (5 + nreads w CS_A)
                  (Z.land (cs_read E (nreads w CS_A) 3) BCM2835_I2S_SYNC)
                  998) eqn:Hlast.
      * left. exists 998%nat. split; [lia | exact Hlast].
      * right. split; [exact Hn999|]. intros k Hk.
        destruct (Nat.eq_dec k 998) as [->|Hne]; [exact Hlast|].
        apply Hpre. lia.
Qed.

(** C9.  The poll loop inside bcm2835_i2s_clear_fifos.  Whatever the
    peripheral answers, bcm2835_i2s_clear_fifos returns, and between the
    write that toggles the SYNC bits and the restoring read-modify-write
    it reads the control register [n] times, with 1 <= n <= 999: within
    the budget of 1000.  The recorded value [sync] is the SYNC bits of
    its fourth read.  No read of the poll but the last shows SYNC bits
    that differ from [sync]; and either the last read shows them changed
    (the loop left at the first change), or the budget ran out
    (n = 999) with the flag unchanged throughout. *)
Theorem clear_fifos_poll_within_budget (tx rx : bool) (w : world) :
  let b := nreads w CS_A in
  let sync := Z.land (cs_read E b 3) BCM2835_I2S_SYNC in
  exists (n : nat) (w' : world) (before after : history) (v_restore : Z),
    bcm2835_i2s_clear_fifos E tx rx w = Ok tt w'
    /\ trace w' = after ++ poll_events E (5 + b) n ++ before ++ trace w
    /\ List.length before = 8%nat
    /\ hd Wmb before
       = Writel CS_A (rmw (cs_read E b 4) BCM2835_I2S_SYNC (not32 sync))
    /\ after = [Writel CS_A v_restore; Readl CS_A (cs_read E b (5 + n))]
    /\ (1 <= n <= 999)%nat
    /\ (forall k, (S k < n)%nat -> sync_differs E (5 + b) sync k = false)
    /\ ((exists k, n = S k /\ sync_differs E (5 + b) sync k = true)
        \/ (n = 999%nat
            /\ forall k, (k < 999)%nat ->
                         sync_differs E (5 + b) sync k = false)).
Proof.
  cbv zeta.
  destruct (clear_fifos_trace tx rx w)
    as (n & w' & Hr & Hn & _ & _ & Ht & Hpre & Hex).
  cbv zeta in Ht, Hpre, Hex.
  exists n, w'. eexists [_; _; _; _; _; _; _; _]. eexists [_; _]. eexists.
  split; [exact Hr|]. split; [exact Ht|].
  do 3 (split; [reflexivity|]).
  split; [|split; [exact Hpre | exact Hex]].
  split; [|exact Hn].
  destruct Hex as [(k & -> & _)|(-> & _)]; lia.
Qed.

(** X6.  bcm2835_i2s_clear_fifos accesses no register but the control
    register: it writes it exactly four times and reads it at least 7
    and at most 1005 times; it leaves the device structure and the other
    registers as they are. *)
Theorem clear_fifos_bus_traffic (tx rx : bool) (w : world) :
  exists (evs : history) (w' : world),
    bcm2835_i2s_clear_fifos E tx rx w = Ok tt w'
    /\ trace w' = evs ++ trace w
    /\ forallb (on_reg CS_A) evs = true
    /\ List.length (filter (is_write_to CS_A) evs) = 4%nat
    /\ (7 <= List.length (filter (is_read_of CS_A) evs) <= 1005)%nat
    /\ dev w' = dev w
    /\ (forall r, r <> CS_A -> latched w' r = latched w r).
Proof.
  destruct (clear_fifos_trace tx rx w)
    as (n & w' & Hr & Hn & Hd & Hl & Ht & _ & Hex).
  assert (Hn1 : (1 <= n)%nat)
    by (destruct Hex as [(k & -> & _)|(-> & _)]; lia).
  clear Hex. cbv zeta in Ht. rewrite !app_assoc in Ht.
  eexists. exists w'. split; [exact Hr|]. split; [exact Ht|].
  destruct (poll_events_reads (5 + nreads w CS_A) n) as [Hp Hlen].
  assert (Hpw : filter (is_write_to CS_A)
                  (poll_events E (5 + nreads w CS_A) n) = [])
    by now apply reads_no_writes.
  assert (Hpr : filter (is_read_of CS_A)
                  (poll_events E (5 + nreads w CS_A) n)
                = poll_events E (5 + nreads w CS_A) n)
    by now apply forallb_filter_id.
  assert (Hpo : forallb (on_reg CS_A)
                  (poll_events E (5 + nreads w CS_A) n) = true).
  { rewrite forallb_forall in *. intros e He. specialize (Hp e He).
    destruct e; try discriminate Hp. exact Hp. }
  split; [|split; [|split; [|split; [exact Hd | exact Hl]]]].
  - rewrite !forallb_app, Hpo. reflexivity.
  - rewrite !filter_app, Hpw, !length_app. reflexivity.
  - rewrite !filter_app, Hpr, !length_app, Hlen. cbn. lia.
Qed.

(** X7.  The four values bcm2835_i2s_clear_fifos writes to the control
    register are, in this order: one with the enable bit of every
    requested direction clear; one with the FIFO-clear bit of every
    requested direction set; one whose SYNC bits are the complement of
    the SYNC bits just read; and the restoring one. *)
Theorem clear_fifos_writes (tx rx : bool) (w : world) :
  exists (v_stop v_clear v_sync v_restore : Z) (evs : history),
    trace (final_world (bcm2835_i2s_clear_fifos E tx rx w))
    = evs ++ trace w
    /\ writes_to CS_A evs = [v_stop; v_clear; v_sync; v_restore]
    /\ (if tx then Z.land v_stop BCM2835_I2S_TXON = 0 else True)
    /\ (if rx then Z.land v_stop BCM2835_I2S_RXON = 0 else True)
    /\ (if tx then Z.land v_clear (u32 BCM2835_I2S_TXCLR)
                   = u32 BCM2835_I2S_TXCLR
        else True)
    /\ (if rx then Z.land v_clear (u32 BCM2835_I2S_RXCLR)
                   = u32 BCM2835_I2S_RXCLR
        else True)
    /\ Z.land v_sync (u32 BCM2835_I2S_SYNC)
       = Z.lxor (Z.land (cs_read E (nreads w CS_A) 3) (u32 BCM2835_I2S_SYNC))
           (u32 BCM2835_I2S_SYNC).
Proof.
  destruct (clear_fifos_trace tx rx w)
    as (n & w' & Hr & Hn & Hd & Hl & Ht & _).
  cbv zeta in Ht. rewrite !app_assoc in Ht.
  rewrite Hr. cbn [final_world].
  do 4 eexists. eexists. split; [exact Ht|].
  destruct (poll_events_reads (5 + nreads w CS_A) n) as [Hp _].
  split.
  { rewrite !writes_to_app, (writes_to_reads CS_A _ Hp). reflexivity. }
  assert (Hhigh : forall k i, 32 <= i ->
            Z.testbit (cs_read E (nreads w CS_A) k) i = false).
  { intros k i Hi. unfold cs_read. rewrite testbit_u32.
    destruct (Z.ltb_spec i 32); [lia | reflexivity]. }
  split; [|split; [|split; [|split]]].
  - destruct tx; [|exact I]. apply Z.bits_inj'. intros i Hi.
    rewrite Z.land_spec, rmw_cs_read_bits, Z.lor_spec, !testbit_u32,
      !Z.testbit_0_l by assumption.
    destruct (Z.ltb_spec i 32) as [Hlt|Hge];
      [|rewrite ?Hhigh by assumption];
      repeat match goal with
             | |- context [Z.testbit ?a i] => destruct (Z.testbit a i)
             end; reflexivity.
  - destruct rx; [|exact I]. apply Z.bits_inj'. intros i Hi.
    rewrite Z.land_spec, rmw_cs_read_bits, Z.lor_spec, !testbit_u32,
      !Z.testbit_0_l by assumption.
    destruct (Z.ltb_spec i 32) as [Hlt|Hge];
      [|rewrite ?Hhigh by assumption];
      repeat match goal with
             | |- context [Z.testbit ?a i] => destruct (Z.testbit a i)
             end; reflexivity.
  - destruct tx; [|exact I]. apply Z.bits_inj'. intros i Hi.
    rewrite Z.land_spec, rmw_cs_read_bits, Z.lor_spec, !testbit_u32
      by assumption.
    destruct (Z.ltb_spec i 32) as [Hlt|Hge];
      [|rewrite ?Hhigh by assumption];
      repeat match goal with
             | |- context [Z.testbit ?a i] => destruct (Z.testbit a i)
             end; reflexivity.
  - destruct rx; [|exact I]. apply Z.bits_inj'. intros i Hi.
    rewrite Z.land_spec, rmw_cs_read_bits, Z.lor_spec, !testbit_u32
      by assumption.
    destruct (Z.ltb_spec i 32) as [Hlt|Hge];
      [|rewrite ?Hhigh by assumption];
      repeat match goal with
             | |- context [Z.testbit ?a i] => destruct (Z.testbit a i)
             end; reflexivity.
  - apply Z.bits_inj'. intros i Hi.
    rewrite Z.lxor_spec, !Z.land_spec, rmw_cs_read_bits, testbit_not32,
      Z.land_spec, !testbit_u32 by assumption.
    destruct (Z.ltb_spec i 32) as [Hlt|Hge];
      [|rewrite ?Hhigh by assumption];
      repeat match goal with
             | |- context [Z.testbit ?a i] => destruct (Z.testbit a i)
             end; reflexivity.
Qed.

End ClearFifosMore.

(** ** The completion callback over time *)

Section CallbackMore.

Context {Hdr : i2s_header}.
Variable E : env.

Lemma check_tx_status_events (c : dma_chan) (w : world) :
  exists w' evs,
    check_tx_status E c w = Ok tt w' /\ dev w' = dev w
    /\ trace w' = evs ++ trace w /\ forallb is_status_event evs = true.
Proof.
  unfold check_tx_status. run.
  destruct (dmaengine_tx_status E (trace w) c) as [st [res inflight]].
  destruct (dma_status_eqb st DMA_ERROR).
  - eexists. eexists [_; _]. repeat split; reflexivity.
  - eexists. eexists [_]. repeat split; reflexivity.
Qed.

Lemma cv_gates_write_events (pins : list Z) :
  forall (i : Z) (w : world),
    exists w' evs,
      cv_gates_write E pins i w = Ok tt w' /\ dev w' = dev w
      /\ trace w' = evs ++ trace w /\ forallb is_cv_gate_event evs = true.
Proof.
  induction pins as [|pin rest IH]; intros i w; cbn [cv_gates_write].
  - exists w, []. repeat split; reflexivity.
  - run. match goal with |- context [cv_gates_write E rest ?j ?x] =>
      destruct (IH j x) as (w' & evs & Hr & Hd & Ht & Hp) end.
    exists w'; eexists (evs ++ [_; _]); rewrite Hr, Hd, Ht, <- app_assoc.
    repeat split; try reflexivity.
    rewrite forallb_app, Hp. reflexivity.
Qed.

Lemma cv_gates_read_events (pins : list Z) :
  forall (i val : Z) (w : world),
    exists v w' evs,
      cv_gates_read E pins i val w = Ok v w' /\ dev w' = dev w
      /\ trace w' = evs ++ trace w /\ forallb is_cv_gate_event evs = true.
Proof.
  induction pins as [|pin rest IH]; intros i val w; cbn [cv_gates_read].
  - exists val, w, []. repeat split; reflexivity.
  - run. match goal with |- context [cv_gates_read E rest ?j ?v ?x] =>
      destruct (IH j v x) as (v' & w' & evs & Hr & Hd & Ht & Hp) end.
    exists v', w'; eexists (evs ++ [_]); rewrite Hr, Hd, Ht, <- app_assoc.
    repeat split; try reflexivity.
    rewrite forallb_app, Hp. reflexivity.
Qed.

(** One run of the callback: what it leaves in the device structure and
    what it emits. *)
Lemma dma_callback_run (w : world) :
  exists (w' : world) (status gates : history),
    bcm2835_i2s_dma_callback E w = Ok tt w'
    /\ trace w' = gates ++ [EvlRaiseFlag] ++ status ++ trace w
    /\ forallb is_status_event status = true
    /\ forallb is_cv_gate_event gates = true
    /\ existsb is_reg_access (gates ++ [EvlRaiseFlag] ++ status) = false
    /\ existsb is_dma_control (gates ++ [EvlRaiseFlag] ++ status) = false
    /\ (BCM2835_I2S_CVGATES_SUPPORT && cv_gate_enabled (dev w) = false ->
        gates = [])
    /\ buffer_idx (dev w') = Z.land (Z.lnot (buffer_idx (dev w))) 1
    /\ kinterrupts (dev w') = wrap 64 (kinterrupts (dev w) + 1).
Proof.
  assert (Hno : forall status gates,
    forallb is_status_event status = true ->
    forallb is_cv_gate_event gates = true ->
    existsb is_reg_access (gates ++ [EvlRaiseFlag] ++ status) = false
    /\ existsb is_dma_control (gates ++ [EvlRaiseFlag] ++ status) = false).
  { intros status gates Hs Hg. rewrite forallb_forall in Hs, Hg.
    split; apply not_true_is_false; intros H;
      apply existsb_exists in H as (e & Hin & He);
      apply in_app_or in Hin as [Hin|Hin];
      try (apply Hg in Hin; destruct e; discriminate);
      apply in_app_or in Hin as [Hin|Hin];
      try (apply Hs in Hin; destruct e; discriminate);
      destruct Hin as [<-|[]]; discriminate. }
  unfold bcm2835_i2s_dma_callback.
  unfold bind at 1.
  destruct (check_tx_status_events DMA_TX w) as (w1 & e1 & -> & H1 & T1 & P1).
  unfold bind at 1.
  destruct (check_tx_status_events DMA_RX w1)
    as (w2 & e2 & -> & H2 & T2 & P2).
  assert (Hst : forallb is_status_event (e2 ++ e1) = true)
    by (rewrite forallb_app, P1, P2; reflexivity).
  assert (Hen : cv_gate_enabled (dev w2) = cv_gate_enabled (dev w))
    by (rewrite H2, H1; reflexivity).
  run. rewrite T2, T1, app_assoc.
  destruct BCM2835_I2S_CVGATES_SUPPORT; cbn [andb];
    [rewrite Hen; destruct (cv_gate_enabled (dev w)); cbn [dev cv_gate_enabled]|].
  - match goal with |- context [cv_gates_write E ?p ?i ?x] =>
      destruct (cv_gates_write_events p i x)
        as (w3 & e3 & -> & H3 & T3 & P3) end.
    match goal with |- context [cv_gates_read E ?p ?i ?v ?x] =>
      destruct (cv_gates_read_events p i v x)
        as (v4 & w4 & e4 & -> & H4 & T4 & P4) end.
    cbn [trace] in T3.
    assert (Hg : forall a, forallb is_cv_gate_event
                             ((Store32 a v4 :: e4) ++ e3) = true)
      by (intros; rewrite forallb_app, P3; cbn; rewrite P4; reflexivity).
    eexists. exists (e2 ++ e1). eexists ((Store32 _ v4 :: e4) ++ e3).
    split; [reflexivity|]. cbn [trace]. rewrite T4, T3.
    split; [rewrite <- ?app_assoc; cbn [app]; rewrite <- ?app_assoc;
            reflexivity|].
    split; [exact Hst|]. split; [apply Hg|].
    destruct (Hno _ _ Hst (Hg (cv_gate_in (buffer (dev w2))))) as [Ha Hb].
    split; [exact Ha|]. split; [exact Hb|]. split; [discriminate|].
    cbn [dev]. rewrite H4, H3. cbn. rewrite H2, H1. split; reflexivity.
  - eexists. exists (e2 ++ e1), []. cbn [app trace dev].
    destruct (Hno (e2 ++ e1) [] Hst eq_refl) as [Ha Hb].
    rewrite H2, H1. repeat split; try reflexivity; assumption.
  - eexists. exists (e2 ++ e1), []. cbn [app trace dev].
    destruct (Hno (e2 ++ e1) [] Hst eq_refl) as [Ha Hb].
    rewrite H2, H1. repeat split; try reflexivity; assumption.
Qed.

Lemma check_tx_status_trace (c : dma_chan) (w : world) :
  exists (w' : world) (st : dma_status) (residue in_flight : Z),
    check_tx_status E c w = Ok tt w' /\ dev w' = dev w
    /\ trace w' = status_query c st residue in_flight ++ trace w.
Proof.
  unfold check_tx_status, status_query. run.
  destruct (dmaengine_tx_status E (trace w) c) as [st [res inflight]].
  destruct (dma_status_eqb st DMA_ERROR) eqn:Hst.
  - eexists. exists st, res, inflight. rewrite Hst.
    repeat split; reflexivity.
  - eexists. exists st, res, inflight. rewrite Hst.
    repeat split; reflexivity.
Qed.

Lemma status_query_events c st residue in_flight :
  forallb is_status_event (status_query c st residue in_flight) = true.
Proof. unfold status_query. destruct (dma_status_eqb st DMA_ERROR); reflexivity. Qed.

Lemma cv_gates_write_trace (pins : list Z) :
  forall (i : Z) (w : world),
    exists (w' : world) (evs : history),
      cv_gates_write E pins i w = Ok tt w' /\ dev w' = dev w
      /\ trace w' = rev evs ++ trace w
      /\ relay_out_ok (cv_gate_out (buffer (dev w))) pins i evs = true
      /\ forallb is_cv_gate_event evs = true.
Proof.
  induction pins as [|pin rest IH]; intros i w; cbn [cv_gates_write].
  - exists w, []. repeat split; reflexivity.
  - run. match goal with |- context [cv_gates_write E rest ?j ?x] =>
      destruct (IH j x) as (w' & evs & Hr & Hd & Ht & Hp & Hg) end.
    cbn [dev trace] in Hd, Ht, Hp.
    exists w'. eexists (Load32 _ _ :: GpioSetValue _ _ :: evs).
    split; [exact Hr|]. split; [exact Hd|].
    split; [rewrite Ht; cbn [rev]; rewrite <- !app_assoc; reflexivity|].
    split; [|cbn; exact Hg].
    cbn [relay_out_ok]. rewrite !Z.eqb_refl, Hp. reflexivity.
Qed.

Lemma cv_gates_read_trace (pins : list Z) :
  forall (i val : Z) (w : world),
    exists (v : Z) (w' : world) (evs : history),
      cv_gates_read E pins i val w = Ok v w' /\ dev w' = dev w
      /\ trace w' = rev evs ++ trace w
      /\ relay_in_word pins i val evs = Some v
      /\ forallb is_cv_gate_event evs = true.
Proof.
  induction pins as [|pin rest IH]; intros i val w; cbn [cv_gates_read].
  - exists val, w, []. repeat split; reflexivity.
  - run. match goal with |- context [cv_gates_read E rest ?j ?v ?x] =>
      destruct (IH j v x) as (v' & w' & evs & Hr & Hd & Ht & Hp & Hg) end.
    cbn [dev trace] in Hd, Ht.
    exists v', w'. eexists (GpioGetValue _ _ :: evs).
    split; [exact Hr|]. split; [exact Hd|].
    split; [rewrite Ht; cbn [rev]; rewrite <- !app_assoc; reflexivity|].
    split; [|cbn; exact Hg].
    cbn [relay_in_word]. rewrite Z.eqb_refl. exact Hp.
Qed.

Lemma forallb_rev_true {A} (f : A -> bool) (l : list A) :
  forallb f l = true -> forallb f (rev l) = true.
Proof.
  rewrite !forallb_forall. intros H x Hx. apply H. now apply in_rev.
Qed.

Lemma callback_events_quiet (status gates : history) :
  forallb is_status_event status = true ->
  forallb is_cv_gate_event gates = true ->
  existsb is_reg_access (gates ++ [EvlRaiseFlag] ++ status) = false
  /\ existsb is_dma_control (gates ++ [EvlRaiseFlag] ++ status) = false.
Proof.
  intros Hs Hg. rewrite forallb_forall in Hs, Hg.
  split; apply not_true_is_false; intros H;
    apply existsb_exists in H as (e & Hin & He);
    apply in_app_or in Hin as [Hin|Hin];
    try (apply Hg in Hin; destruct e; discriminate);
    apply in_app_or in Hin as [Hin|Hin];
    try (apply Hs in Hin; destruct e; discriminate);
    destruct Hin as [<-|[]]; discriminate.
Qed.

(** X8.  One run of the completion callback always returns and is
    exactly this, in order: the status query of the TX channel and the
    one of the RX channel, each followed by a log line when its status is
    DMA_ERROR and by nothing otherwise; one raise of the flag; and then,
    when the CV-gate relay is compiled in and enabled, for each output
    pin a load of the gate-out word and a write to the pin of that word's
    bit, one read of each input pin, and one store to the gate-in word of
    the word built from the values read.  With the relay compiled out or
    disabled nothing follows the flag.  The callback accesses no register
    of the peripheral and makes no call that changes a DMA channel. *)
Theorem dma_callback_shape (w : world) :
  exists (w' : world) (st_tx st_rx : dma_status) (r_tx f_tx r_rx f_rx : Z)
         (gates : history),
    bcm2835_i2s_dma_callback E w = Ok tt w'
    /\ trace w'
       = gates ++ [EvlRaiseFlag]
         ++ (status_query DMA_RX st_rx r_rx f_rx
             ++ status_query DMA_TX st_tx r_tx f_tx)
         ++ trace w
    /\ (if BCM2835_I2S_CVGATES_SUPPORT && cv_gate_enabled (dev w)
        then exists (outs ins : history) (val : Z),
               gates = Store32 (cv_gate_in (buffer (dev w))) val
                       :: rev ins ++ rev outs
               /\ relay_out_ok (cv_gate_out (buffer (dev w)))
                    CVGATE_OUTS_LIST 0 outs = true
               /\ relay_in_word CVGATE_INS_LIST 0 0 ins = Some val
        else gates = [])
    /\ existsb is_reg_access
         (gates ++ [EvlRaiseFlag]
          ++ status_query DMA_RX st_rx r_rx f_rx
          ++ status_query DMA_TX st_tx r_tx f_tx) = false
    /\ existsb is_dma_control
         (gates ++ [EvlRaiseFlag]
          ++ status_query DMA_RX st_rx r_rx f_rx
          ++ status_query DMA_TX st_tx r_tx f_tx) = false.
Proof.
  unfold bcm2835_i2s_dma_callback.
  unfold bind at 1.
  destruct (check_tx_status_trace DMA_TX w)
    as (w1 & st1 & r1 & f1 & -> & H1 & T1).
  unfold bind at 1.
  destruct (check_tx_status_trace DMA_RX w1)
    as (w2 & st2 & r2 & f2 & -> & H2 & T2).
  assert (Hst : forallb is_status_event
                  (status_query DMA_RX st2 r2 f2
                   ++ status_query DMA_TX st1 r1 f1) = true)
    by (rewrite forallb_app, !status_query_events; reflexivity).
  assert (Hdev : dev w2 = dev w) by (rewrite H2, H1; reflexivity).
  run. rewrite T2, T1, app_assoc.
  destruct BCM2835_I2S_CVGATES_SUPPORT; cbn [andb];
    [rewrite Hdev; destruct (cv_gate_enabled (dev w));
     cbn [dev cv_gate_enabled]|].
  - match goal with |- context [cv_gates_write E ?p ?i ?x] =>
      destruct (cv_gates_write_trace p i x)
        as (w3 & e3 & -> & H3 & T3 & P3 & G3) end.
    match goal with |- context [cv_gates_read E ?p ?i ?v ?x] =>
      destruct (cv_gates_read_trace p i v x)
        as (v4 & w4 & e4 & -> & H4 & T4 & P4 & G4) end.
    cbn [trace dev buffer cv_gate_out] in T3, P3.
    assert (Hg : forallb is_cv_gate_event
                   (Store32 (cv_gate_in (buffer (dev w))) v4
                    :: rev e4 ++ rev e3) = true).
    { cbn. rewrite forallb_app, (forallb_rev_true _ _ G3),
        (forallb_rev_true _ _ G4). reflexivity. }
    eexists. exists st1, st2, r1, f1, r2, f2.
    exists (Store32 (cv_gate_in (buffer (dev w))) v4 :: rev e4 ++ rev e3).
    split; [reflexivity|]. cbn [trace]. rewrite T4, T3.
    split; [cbn [app]; rewrite <- !app_assoc; reflexivity|].
    split; [exists e3, e4, v4; repeat split; assumption|].
    apply (callback_events_quiet _ _ Hst Hg).
  - eexists. exists st1, st2, r1, f1, r2, f2, []. cbn [app trace].
    split; [reflexivity|]. split; [rewrite <- app_assoc; reflexivity|].
    split; [reflexivity|].
    apply (callback_events_quiet _ [] Hst eq_refl).
  - eexists. exists st1, st2, r1, f1, r2, f2, []. cbn [app trace].
    split; [reflexivity|]. split; [rewrite <- app_assoc; reflexivity|].
    split; [reflexivity|].
    apply (callback_events_quiet _ [] Hst eq_refl).
Qed.

Lemma flip_mod2 (i : Z) : Z.land (Z.lnot i) 1 = (i + 1) mod 2.
Proof.
  rewrite flip_bit, Zmod_odd, Z.add_1_r, Z.odd_succ, <- Z.negb_odd.
  destruct (Z.odd i); reflexivity.
Qed.

Lemma no_flag_in (l : history) (p : event -> bool) :
  (forall e, p e = true -> is_flag e = false) ->
  forallb p l = true -> filter is_flag l = [].
Proof.
  intros Hp. induction l as [|e l IH]; [reflexivity|]. cbn.
  intros H. apply andb_true_iff in H as [He Hl].
  rewrite (Hp e He). auto.
Qed.

(** X9.  After n + 1 completion interrupts the interrupt counter has
    advanced by n + 1 (modulo 2^64), the flag has been raised n + 1
    times, and the buffer index is the parity of its value before plus
    n + 1: the callbacks alternate between the two halves, and after an
    even number of them an index of 0 or 1 is back where it was. *)
Theorem dma_callbacks_count (n : nat) (w : world) :
  exists (w' : world) (evs : history),
    dma_callbacks E (S n) w = Ok tt w'
    /\ trace w' = evs ++ trace w
    /\ List.length (filter is_flag evs) = S n
    /\ kinterrupts (dev w')
       = wrap 64 (kinterrupts (dev w) + Z.of_nat (S n))
    /\ buffer_idx (dev w')
       = (buffer_idx (dev w) + Z.of_nat (S n)) mod 2.
Proof.
  revert w. induction n as [|n IH]; intros w;
    cbn [dma_callbacks]; unfold bind at 1;
    destruct (dma_callback_run w)
      as (w1 & st & g & -> & Ht & Hs & Hg & _ & _ & _ & Hi & Hk).
  - cbn [dma_callbacks ret]. exists w1, (g ++ [EvlRaiseFlag] ++ st).
    split; [reflexivity|]. rewrite Ht, <- !app_assoc.
    split; [reflexivity|].
    rewrite !filter_app, (no_flag_in g is_cv_gate_event),
      (no_flag_in st is_status_event) by (auto; intros []; easy).
    split; [reflexivity|]. rewrite Hi, Hk, flip_mod2.
    split; reflexivity.
  - destruct (IH w1) as (w' & evs & Hr & Ht' & Hc & Hk' & Hi').
    exists w', (evs ++ g ++ [EvlRaiseFlag] ++ st).
    split; [exact Hr|]. rewrite Ht', Ht, <- !app_assoc.
    split; [reflexivity|].
    rewrite !filter_app, !length_app, Hc, (no_flag_in g is_cv_gate_event),
      (no_flag_in st is_status_event) by (auto; intros []; easy).
    split; [cbn; lia|].
    rewrite Hk', Hi', Hk, Hi, flip_mod2. unfold wrap. split.
    + rewrite Z.add_mod_idemp_l by lia. f_equal. lia.
    + rewrite Z.add_mod_idemp_l by lia. f_equal. lia.
Qed.

End CallbackMore.

(** ** Calls that always return *)

Section Runs.

Variable p : event -> bool.
Variable Rd : audio_evl_dev -> audio_evl_dev -> Prop.
Hypothesis Rd_refl : forall d, Rd d d.
Hypothesis Rd_trans : forall a b c, Rd a b -> Rd b c -> Rd a c.

Lemma runs_ret {A} (a : A) : runs p Rd (ret a).
Proof. intros w. exists a, w, []. repeat split; auto. Qed.

Lemma runs_bind {A B} (m : M A) (k : A -> M B) :
  runs p Rd m -> (forall a, runs p Rd (k a)) -> runs p Rd (bind m k).
Proof.
  intros Hm Hk w. unfold bind.
  destruct (Hm w) as (a & w1 & e1 & -> & T1 & P1 & R1).
  destruct (Hk a w1) as (b & w2 & e2 & -> & T2 & P2 & R2).
  exists b, w2, (e2 ++ e1). rewrite T2, T1, app_assoc, forallb_app, P1, P2.
  repeat split; eauto.
Qed.

Lemma runs_get : runs p Rd get.
Proof. intros w. exists w, w, []. repeat split; auto. Qed.

Lemma runs_ask {A} (f : history -> A) : runs p Rd (ask f).
Proof. intros w. exists (f (trace w)), w, []. repeat split; auto. Qed.

Lemma runs_log (e : event) : p e = true -> runs p Rd (log e).
Proof.
  intros He w. exists tt, (emit e w), [e]. cbn. rewrite He.
  repeat split; auto.
Qed.

Lemma runs_update_dev (f : audio_evl_dev -> audio_evl_dev) :
  (forall d, Rd d (f d)) -> runs p Rd (update_dev f).
Proof.
  intros H w. exists tt, (set_dev f w), []. repeat split; auto.
Qed.

Context {Hdr : i2s_header}.
Variable E : env.

Lemma runs_rpi_reg_read r :
  (forall v, p (Readl r v) = true) -> runs p Rd (rpi_reg_read E r).
Proof.
  intros H w. do 2 eexists. eexists [_]. cbn [rpi_reg_read].
  split; [reflexivity|]. cbn. rewrite H. repeat split; auto.
Qed.

Lemma runs_rpi_reg_write r v :
  (forall x, p (Writel r x) = true) -> runs p Rd (rpi_reg_write r v).
Proof.
  intros H w. do 2 eexists. eexists [_]. cbn [rpi_reg_write].
  split; [reflexivity|]. cbn. rewrite H. repeat split; auto.
Qed.

Lemma runs_rpi_reg_update_bits r m v :
  (forall x, p (Readl r x) = true) -> (forall x, p (Writel r x) = true) ->
  runs p Rd (rpi_reg_update_bits E r m v).
Proof.
  intros Hr Hw. unfold rpi_reg_update_bits.
  apply runs_bind; [now apply runs_rpi_reg_read|].
  intros a. now apply runs_rpi_reg_write.
Qed.

Lemma runs_audio_hat_is s : runs p Rd (audio_hat_is s).
Proof.
  unfold audio_hat_is. apply runs_bind; [apply runs_get|].
  intros a. apply runs_ret.
Qed.

Lemma runs_prime_tx_fifo n :
  (forall x, p (Writel FIFO_A x) = true) -> runs p Rd (prime_tx_fifo n).
Proof.
  intros H. induction n; cbn [prime_tx_fifo]; [apply runs_ret|].
  apply runs_bind; [now apply runs_rpi_reg_write | intros _; assumption].
Qed.

End Runs.

Ltac runs_side := try assumption; try (intros ?; reflexivity).

Ltac runs_step :=
  lazymatch goal with
  | |- runs _ _ (bind _ _) => apply runs_bind; runs_side; [|intros ?]
  | |- runs _ _ (ret _) => apply runs_ret; runs_side
  | |- runs _ _ get => apply runs_get; runs_side
  | |- runs _ _ (ask _) => apply runs_ask; runs_side
  | |- runs _ _ (log _) => apply runs_log; runs_side; reflexivity
  | |- runs _ _ (rpi_reg_read _ _) => apply runs_rpi_reg_read; runs_side
  | |- runs _ _ (rpi_reg_write _ _) => apply runs_rpi_reg_write; runs_side
  | |- runs _ _ (rpi_reg_update_bits _ _ _ _) =>
      apply runs_rpi_reg_update_bits; runs_side
  | |- runs _ _ (audio_hat_is _) => apply runs_audio_hat_is; runs_side
  | |- runs _ _ (if ?c then _ else _) => destruct c
  | |- runs _ _ (match ?x with _ => _ end) => destruct x
  end.

(** ** bcm2835_i2s_buffers_setup as a whole *)

Section Setup.

Context {Hdr : i2s_header}.
Variable E : env.

Lemma same_dma_setup_refl d : same_dma_setup d d.
Proof. repeat split. Qed.

Lemma same_dma_setup_trans a b c :
  same_dma_setup a b -> same_dma_setup b c -> same_dma_setup a c.
Proof. unfold same_dma_setup. intros (?&?&?) (?&?&?). repeat split; congruence. Qed.

Lemma runs_clear_regs :
  runs is_setup_event same_dma_setup bcm2835_i2s_clear_regs.
Proof.
  pose proof same_dma_setup_refl. pose proof same_dma_setup_trans.
  unfold bcm2835_i2s_clear_regs. repeat runs_step.
Qed.

Lemma runs_enable :
  runs is_setup_event same_dma_setup (bcm2835_i2s_enable E).
Proof.
  pose proof same_dma_setup_refl. pose proof same_dma_setup_trans.
  unfold bcm2835_i2s_enable. repeat runs_step.
Qed.

Lemma runs_configure :
  runs is_setup_event same_dma_setup (bcm2835_i2s_configure E).
Proof.
  pose proof same_dma_setup_refl. pose proof same_dma_setup_trans.
  unfold bcm2835_i2s_configure, configure_hat. cbv zeta.
  repeat first
    [ runs_step
    | lazymatch goal with
      | |- runs _ _ (update_dev (set_clk_rate _)) =>
          apply runs_update_dev; runs_side; intros ?; repeat split
      end ].
Qed.

Lemma runs_clear_fifos tx rx :
  runs is_setup_event same_dma_setup (bcm2835_i2s_clear_fifos E tx rx).
Proof.
  intros w.
  destruct (clear_fifos_trace E tx rx w)
    as (n & w' & Hr & _ & Hd & _ & Ht & _).
  cbv zeta in Ht. rewrite !app_assoc in Ht.
  exists tt, w'. eexists. split; [exact Hr|]. split; [exact Ht|].
  split; [|rewrite Hd; apply same_dma_setup_refl].
  destruct (poll_events_reads E (5 + nreads w CS_A) n) as [Hp _].
  assert (Hps : forallb is_setup_event
                  (poll_events E (5 + nreads w CS_A) n) = true).
  { rewrite forallb_forall in *. intros e He.
    specialize (Hp e He). destruct e; try discriminate Hp.
    destruct r; try discriminate Hp. reflexivity. }
  rewrite !forallb_app, Hps. reflexivity.
Qed.

Lemma runs_prime n :
  runs (fun e => is_write_to FIFO_A e) same_dma_setup (prime_tx_fifo n).
Proof.
  apply runs_prime_tx_fifo;
    [apply same_dma_setup_refl | apply same_dma_setup_trans | reflexivity].
Qed.

(** What bcm2835_i2s_dma_prepare does in a world whose buffer set is
    [b]. *)
Lemma dma_prepare_cases (w : world) :
  exists (r : Z) (w' : world) (evs : history),
    bcm2835_i2s_dma_prepare E w = Ok r w'
    /\ trace w' = evs ++ trace w
    /\ forallb (is_prepare_event (buffer (dev w))) evs = true
    /\ buffer (dev w') = buffer (dev w)
    /\ ((r = - EBUSY
         /\ (tx_desc (dev w') = None \/ rx_desc (dev w') = None))
        \/ (r = 0
            /\ tx_desc (dev w')
               = Some {| desc_chan := DMA_TX; callback := false;
                         callback_param := false |}
            /\ rx_desc (dev w')
               = Some {| desc_chan := DMA_RX; callback := true;
                         callback_param := true |})).
Proof.
  unfold bcm2835_i2s_dma_prepare, bcm2835_i2s_dma_prepare_cyclic, prepare_on.
  run. unfold is_prepare_event, prep_matches.
  destruct (s32 (dmaengine_slave_config E (trace w) DMA_TX) =? 0); cbn.
  2:{ do 2 eexists. eexists [_; _; _]. do 2 (split; [reflexivity|]).
      cbn. rewrite ?Z.eqb_refl. do 2 (split; [reflexivity|]). left. split; [reflexivity|].
      first [left; reflexivity | right; reflexivity]. }
  match goal with |- context [dmaengine_prep_dma_cyclic E ?h DMA_TX] =>
    destruct (dmaengine_prep_dma_cyclic E h DMA_TX) end; cbn.
  2:{ do 2 eexists. eexists [_; _; _]. do 2 (split; [reflexivity|]).
      cbn. rewrite ?Z.eqb_refl. do 2 (split; [reflexivity|]). left. split; [reflexivity|].
      first [left; reflexivity | right; reflexivity]. }
  match goal with |- context [dmaengine_slave_config E ?h DMA_RX] =>
    destruct (s32 (dmaengine_slave_config E h DMA_RX) =? 0) end; cbn.
  2:{ do 2 eexists. eexists [_; _; _; _; _; _]. do 2 (split; [reflexivity|]).
      cbn. rewrite ?Z.eqb_refl. do 2 (split; [reflexivity|]). left. split; [reflexivity|].
      first [left; reflexivity | right; reflexivity]. }
  match goal with |- context [dmaengine_prep_dma_cyclic E ?h DMA_RX] =>
    destruct (dmaengine_prep_dma_cyclic E h DMA_RX) end; cbn.
  2:{ do 2 eexists. eexists [_; _; _; _; _; _]. do 2 (split; [reflexivity|]).
      cbn. rewrite ?Z.eqb_refl. do 2 (split; [reflexivity|]). left. split; [reflexivity|].
      first [left; reflexivity | right; reflexivity]. }
  do 2 eexists. eexists [_; _; _; _]. do 2 (split; [reflexivity|]).
  cbn. rewrite ?Z.eqb_refl. do 2 (split; [reflexivity|]). right. repeat split; reflexivity.
Qed.

(** What bcm2835_i2s_submit_dma does when both descriptors are there. *)
Lemma submit_dma_cases (w : world) (t r : dma_async_tx_descriptor) :
  tx_desc (dev w) = Some t -> rx_desc (dev w) = Some r ->
  exists (rc : Z) (w' : world) (evs : history),
    bcm2835_i2s_submit_dma E w = Ok rc w'
    /\ trace w' = evs ++ trace w
    /\ forallb is_submit_event evs = true
    /\ same_dma_setup (dev w) (dev w')
    /\ ((rc = - EIO /\ existsb is_issue_pending evs = false)
        \/ (rc = 0
            /\ exists crx ctx,
                0 <= crx /\ 0 <= ctx
                /\ evs = [IssuePending DMA_TX; IssuePending DMA_RX;
                          Submit DMA_TX ctx; Submit DMA_RX crx])).
Proof.
  intros Ht Hr. unfold bcm2835_i2s_submit_dma. run. rewrite Hr.
  set (crx := s32 (dmaengine_submit E (trace w) DMA_RX)).
  unfold dma_submit_error.
  destruct (Z.ltb_spec crx 0) as [Hrx|Hrx].
  { destruct (Z.eqb_spec crx 0); [lia|]. cbn. do 2 eexists. eexists [_; _].
    cbn. do 3 (split; [reflexivity|]). split; [repeat split|].
    left. split; reflexivity. }
  cbn. rewrite Ht. cbn.
  match goal with |- context [dmaengine_submit E ?h DMA_TX] =>
    set (ctx := s32 (dmaengine_submit E h DMA_TX)) end.
  destruct (Z.ltb_spec ctx 0) as [Htx|Htx].
  - destruct (Z.eqb_spec ctx 0); [lia|]. cbn. do 2 eexists.
    eexists [_; _; _]. cbn. do 3 (split; [reflexivity|]).
    split; [repeat split|]. left. split; reflexivity.
  - cbn. do 2 eexists. eexists [_; _; _; _]. cbn.
    do 3 (split; [reflexivity|]). split; [repeat split|].
    right. split; [reflexivity|]. exists crx, ctx. auto.
Qed.

Lemma repeat_snoc {A} (x : A) (n : nat) (l : list A) :
  repeat x n ++ x :: l = x :: repeat x n ++ l.
Proof. induction n as [|n IH]; cbn; [reflexivity|]. now rewrite IH. Qed.

Lemma prime_tx_fifo_trace (n : nat) :
  forall w, exists w',
    prime_tx_fifo n w = Ok tt w'
    /\ trace w' = repeat (Writel FIFO_A 0) n ++ trace w
    /\ dev w' = dev w.
Proof.
  induction n as [|n IH]; intros w; cbn [prime_tx_fifo].
  - exists w. repeat split.
  - unfold bind. cbn [rpi_reg_write].
    match goal with |- context [prime_tx_fifo n ?x] =>
      destruct (IH x) as (w' & -> & Ht & Hd) end.
    exists w'. split; [reflexivity|]. rewrite Ht, Hd. cbn [trace dev].
    split; [|reflexivity]. change (u32 0) with 0.
    rewrite repeat_snoc. reflexivity.
Qed.

(** Everything bcm2835_i2s_buffers_setup does: the geometry [b] and the
    store to the gate-out word, the descriptor preparation, and then
    either the failure line or the programming of the peripheral, the
    priming of the FIFO with [n] zero words and the submission. *)
Lemma buffers_setup_run (audio_buffer_size audio_channels : Z) (w : world) :
  let b := buffer_geometry audio_buffer_size audio_channels
             (buffer (dev w)) in
  let n := Z.to_nat (s32 (BCM2835_DMA_THR_TX + audio_channels)) in
  exists (r : Z) (w' : world) (prepare tail : history),
    bcm2835_i2s_buffers_setup E audio_buffer_size audio_channels w = Ok r w'
    /\ trace w' = tail ++ prepare ++ [Store32 (cv_gate_out b) 15] ++ trace w
    /\ buffer (dev w') = b
    /\ forallb (is_prepare_event b) prepare = true
    /\ ((r = - EINVAL
         /\ tail = [Printk dma_prepare_failed_msg []]
         /\ (tx_desc (dev w') = None \/ rx_desc (dev w') = None))
        \/ (exists setup submit : history,
              tail = submit ++ repeat (Writel FIFO_A 0) n ++ setup
              /\ forallb is_setup_event setup = true
              /\ forallb is_submit_event submit = true
              /\ tx_desc (dev w')
                 = Some {| desc_chan := DMA_TX; callback := false;
                           callback_param := false |}
              /\ rx_desc (dev w')
                 = Some {| desc_chan := DMA_RX; callback := true;
                           callback_param := true |}
              /\ ((r = - EIO /\ existsb is_issue_pending submit = false)
                  \/ (r = 0
                      /\ exists crx ctx,
                          0 <= crx /\ 0 <= ctx
                          /\ submit = [IssuePending DMA_TX;
                                       IssuePending DMA_RX;
                                       Submit DMA_TX ctx;
                                       Submit DMA_RX crx])))).
Proof.
  cbv zeta. unfold bcm2835_i2s_buffers_setup.
  unfold bind at 1. cbn [update_dev modify].
  unfold bind at 1. cbn [get]. unfold bind at 1. cbn [log modify].
  unfold bind at 1.
  match goal with |- context [bcm2835_i2s_dma_prepare E ?x] =>
    set (w1 := x) end.
  assert (Hb1 : buffer (dev w1)
                = buffer_geometry audio_buffer_size audio_channels
                    (buffer (dev w))) by reflexivity.
  destruct (dma_prepare_cases w1)
    as (r & w2 & e2 & -> & T2 & P2 & B2 & [[-> Hnone]|(-> & Htx & Hrx)]).
  - cbn [negb Z.eqb EBUSY Z.opp]. run.
    do 2 eexists. exists e2. eexists [_].
    split; [reflexivity|]. cbn [trace dev]. rewrite T2, B2, Hb1.
    split; [reflexivity|]. split; [reflexivity|].
    split; [rewrite <- Hb1; exact P2|]. left. auto.
  - cbn [negb Z.eqb].
    unfold bind at 1.
    destruct (runs_clear_regs w2) as (a3 & w3 & e3 & -> & T3 & P3 & R3).
    unfold bind at 1.
    destruct (runs_configure w3) as (a4 & w4 & e4 & -> & T4 & P4 & R4).
    unfold bind at 1.
    destruct (runs_enable w4) as (a5 & w5 & e5 & -> & T5 & P5 & R5).
    unfold bind at 1.
    destruct (runs_clear_fifos true true w5)
      as (a6 & w6 & e6 & -> & T6 & P6 & R6).
    unfold bind at 1.
    destruct (prime_tx_fifo_trace
                (Z.to_nat (s32 (BCM2835_DMA_THR_TX + audio_channels))) w6)
      as (w7 & -> & T7 & D7).
    assert (R : same_dma_setup (dev w2) (dev w7)).
    { rewrite D7.
      repeat (eapply same_dma_setup_trans; [eassumption|]).
      apply same_dma_setup_refl. }
    destruct R as (Rt & Rr & Rb).
    rewrite Htx in Rt. rewrite Hrx in Rr.
    destruct (submit_dma_cases w7 _ _ Rt Rr)
      as (rc & w8 & e8 & Hs & T8 & P8 & (St & Sr & Sb) & Hcase).
    unfold bind at 1. rewrite Hs.
    assert (Hsetup : forallb is_setup_event (e6 ++ e5 ++ e4 ++ e3) = true)
      by (rewrite !forallb_app, P3, P4, P5, P6; reflexivity).
    destruct Hcase as [[-> Hni]|(-> & crx & ctx & Hcrx & Hctx & ->)].
    + cbn [negb Z.eqb EIO Z.opp]. run.
      do 2 eexists. exists e2.
      eexists ((Printk submit_dma_failed_msg [] :: e8)
                 ++ repeat (Writel FIFO_A 0) _ ++ (e6 ++ e5 ++ e4 ++ e3)).
      split; [reflexivity|]. cbn [trace dev].
      rewrite T8, T7, T6, T5, T4, T3, T2, Sb, Rb, B2, Hb1, St, Sr, Rt, Rr.
      split; [rewrite <- ?app_assoc; cbn [app]; rewrite <- ?app_assoc;
              reflexivity|].
      split; [reflexivity|]. split; [rewrite <- Hb1; exact P2|].
      right. exists (e6 ++ e5 ++ e4 ++ e3), (Printk submit_dma_failed_msg [] :: e8).
      split; [reflexivity|]. split; [exact Hsetup|].
      split; [cbn; exact P8|]. split; [reflexivity|]. split; [reflexivity|].
      left. split; [reflexivity|]. cbn. exact Hni.
    + cbn [negb Z.eqb]. run.
      do 2 eexists. exists e2.
      eexists ([_; _; _; _]
                 ++ repeat (Writel FIFO_A 0) _ ++ (e6 ++ e5 ++ e4 ++ e3)).
      split; [reflexivity|]. cbn [trace dev].
      rewrite T8, T7, T6, T5, T4, T3, T2, Sb, Rb, B2, Hb1, St, Sr, Rt, Rr.
      split; [rewrite <- ?app_assoc; cbn [app]; rewrite <- ?app_assoc;
              reflexivity|].
      split; [reflexivity|]. split; [rewrite <- Hb1; exact P2|].
      right. exists (e6 ++ e5 ++ e4 ++ e3). eexists.
      split; [reflexivity|]. split; [exact Hsetup|].
      split; [reflexivity|]. split; [reflexivity|]. split; [reflexivity|].
      right. split; [reflexivity|]. exists crx, ctx. auto.
Qed.

End Setup.

Section SetupProperties.

Context {Hdr : i2s_header}.
Variable E : env.

Lemma forallb_existsb_false {A} (p q : A -> bool) (l : list A) :
  (forall x, p x = true -> q x = false) ->
  forallb p l = true -> existsb q l = false.
Proof.
  intros H. induction l as [|x l IH]; [reflexivity|]. cbn.
  intros Hp. apply andb_true_iff in Hp as [Hx Hl].
  now rewrite (H x Hx), IH.
Qed.

Lemma forallb_impl {A} (p q : A -> bool) (l : list A) :
  (forall x, p x = true -> q x = true) ->
  forallb p l = true -> forallb q l = true.
Proof.
  intros H. rewrite !forallb_forall. auto.
Qed.

(** X10.  The results of bcm2835_i2s_buffers_setup.  A call that
    returns (the model records the store to the gate-out word and does
    not decide whether its address is mapped) returns -EINVAL with a
    descriptor missing, or it returns 0 or -EIO with both descriptors
    held, the completion callback installed on the RX descriptor and none
    on the TX descriptor.  Nothing in its own control flow stops a call:
    it never dereferences a NULL descriptor and its FIFO-clear poll never
    outlasts its budget. *)
Theorem buffers_setup_result (audio_buffer_size audio_channels : Z)
  (w : world) :
  let o := bcm2835_i2s_buffers_setup E audio_buffer_size audio_channels w in
  (forall c, fault_of o <> Some (NullDescriptor c))
  /\ (forall w', o <> OutOfFuel w')
  /\ (forall r, returned o = Some r ->
        (r = - EINVAL
         /\ (tx_desc (dev (final_world o)) = None
             \/ rx_desc (dev (final_world o)) = None))
        \/ ((r = 0 \/ r = - EIO)
            /\ tx_desc (dev (final_world o))
               = Some {| desc_chan := DMA_TX; callback := false;
                         callback_param := false |}
            /\ rx_desc (dev (final_world o))
               = Some {| desc_chan := DMA_RX; callback := true;
                         callback_param := true |})).
Proof.
  cbv zeta.
  destruct (buffers_setup_run E audio_buffer_size audio_channels w)
    as (r & w' & pre & tail & Hr & _ & _ & _ & Hc).
  rewrite Hr. cbn [fault_of returned final_world].
  split; [discriminate|]. split; [discriminate|].
  intros r' Hr'. injection Hr' as <-.
  destruct Hc as [(-> & _ & Hn)|(su & sb & _ & _ & _ & Ht & Hx & Hc)].
  - left. auto.
  - right. repeat split; auto. destruct Hc as [[-> _]|[-> _]]; auto.
Qed.

(** X11.  When bcm2835_i2s_buffers_setup returns -EINVAL, it has not
    accessed a single register of the peripheral, has submitted no
    descriptor and has issued no channel: what it did is the store to the
    gate-out word, the attempt to prepare the descriptors and the log
    line. *)
Theorem buffers_setup_failure_touches_nothing
  (audio_buffer_size audio_channels : Z) (w : world) :
  returned (bcm2835_i2s_buffers_setup E audio_buffer_size audio_channels w)
  = Some (- EINVAL) ->
  exists evs : history,
    trace (final_world
      (bcm2835_i2s_buffers_setup E audio_buffer_size audio_channels w))
    = evs ++ trace w
    /\ existsb is_reg_access evs = false
    /\ existsb (is_submit DMA_TX) evs = false
    /\ existsb (is_submit DMA_RX) evs = false
    /\ existsb is_issue_pending evs = false
    /\ hd Wmb evs = Printk dma_prepare_failed_msg []
    /\ last evs Wmb
       = Store32 (cv_gate_out (buffer_geometry audio_buffer_size
                                 audio_channels (buffer (dev w)))) 15.
Proof.
  destruct (buffers_setup_run E audio_buffer_size audio_channels w)
    as (r & w' & pre & tail & Hr & Ht & _ & Hp & Hc).
  rewrite Hr. cbn [returned final_world]. intros [= ->].
  destruct Hc as [(_ & -> & _)|(su & sb & _ & _ & _ & _ & _ & Hc)].
  2:{ destruct Hc as [[H _]|[H _]]; discriminate H. }
  eexists. split; [rewrite Ht, !app_assoc; reflexivity|].
  assert (Hq : forall q : event -> bool,
            (forall e, is_prepare_event
                         (buffer_geometry audio_buffer_size audio_channels
                            (buffer (dev w))) e = true -> q e = false) ->
            q (Printk dma_prepare_failed_msg []) = false ->
            (forall a v, q (Store32 a v) = false) ->
            existsb q (([Printk dma_prepare_failed_msg []] ++ pre)
                       ++ [Store32 (cv_gate_out
                             (buffer_geometry audio_buffer_size
                                audio_channels (buffer (dev w)))) 15])
            = false).
  { intros q H1 H2 H3. rewrite !existsb_app.
    rewrite (forallb_existsb_false _ _ _ H1 Hp). cbn.
    now rewrite H2, H3. }
  assert (Hpe : forall (q : event -> bool) e,
            (forall x, q x = true ->
               is_reg_access x || is_issue_pending x
               || is_submit DMA_TX x || is_submit DMA_RX x = true) ->
            is_prepare_event
              (buffer_geometry audio_buffer_size audio_channels
                 (buffer (dev w))) e = true -> q e = false).
  { intros q e Hq' He. unfold is_prepare_event in He.
    destruct (q e) eqn:Hqe; [|reflexivity]. apply Hq' in Hqe.
    destruct (is_reg_access e), (is_issue_pending e),
      (is_submit DMA_TX e), (is_submit DMA_RX e); cbn in *; congruence. }
  split; [|split; [|split; [|split; [|split]]]].
  - apply Hq; try reflexivity. intros e. apply Hpe.
    intros x ->. reflexivity.
  - apply Hq; try reflexivity. intros e. apply Hpe.
    intros x ->. now rewrite !orb_true_r.
  - apply Hq; try reflexivity. intros e. apply Hpe.
    intros x ->. now rewrite !orb_true_r.
  - apply Hq; try reflexivity. intros e. apply Hpe.
    intros x ->. now rewrite !orb_true_r.
  - reflexivity.
  - apply last_last.
Qed.

(** X12.  Unless it returns -EINVAL, bcm2835_i2s_buffers_setup primes
    the FIFO with exactly BCM2835_DMA_THR_TX + audio_channels zero words
    (none, if that sum is not positive).  These are its only accesses to
    the FIFO; they come after everything else it writes to the
    peripheral, and nothing is submitted or issued before them.  (The
    trace lists the newest event first.) *)
Theorem buffers_setup_primes_fifo (audio_buffer_size audio_channels : Z)
  (w : world) :
  returned (bcm2835_i2s_buffers_setup E audio_buffer_size audio_channels w)
  <> Some (- EINVAL) ->
  exists later earlier : history,
    trace (final_world
      (bcm2835_i2s_buffers_setup E audio_buffer_size audio_channels w))
    = later
      ++ repeat (Writel FIFO_A 0)
           (Z.to_nat (s32 (BCM2835_DMA_THR_TX + audio_channels)))
      ++ earlier ++ trace w
    /\ existsb is_reg_access later = false
    /\ existsb (on_reg FIFO_A) earlier = false
    /\ existsb (is_submit DMA_TX) earlier = false
    /\ existsb (is_submit DMA_RX) earlier = false
    /\ existsb is_issue_pending earlier = false.
Proof.
  destruct (buffers_setup_run E audio_buffer_size audio_channels w)
    as (r & w' & pre & tail & Hr & Ht & _ & Hp & Hc).
  rewrite Hr. cbn [returned final_world]. intros Hne.
  destruct Hc as [(-> & _ & _)|(su & sb & -> & Hsu & Hsb & _ & _ & _)];
    [congruence|].
  set (st := Store32 (cv_gate_out
                 (buffer_geometry audio_buffer_size audio_channels
                    (buffer (dev w)))) 15) in *.
  exists sb, (su ++ pre ++ [st]).
  split; [rewrite Ht, <- !app_assoc; reflexivity|].
  split.
  { apply (forallb_existsb_false is_submit_event is_reg_access);
      [intros e He; destruct e; try reflexivity; discriminate He
      |exact Hsb]. }
  assert (Hs : forall q : event -> bool,
            (forall e, is_setup_event e = true -> q e = false) ->
            (forall e, is_prepare_event
                         (buffer_geometry audio_buffer_size audio_channels
                            (buffer (dev w))) e = true -> q e = false) ->
            q st = false ->
            existsb q (su ++ pre ++ [st]) = false).
  { intros q H1 H2 H3. rewrite !existsb_app.
    rewrite (forallb_existsb_false _ _ _ H1 Hsu).
    rewrite (forallb_existsb_false _ _ _ H2 Hp).
    cbn. now rewrite H3. }
  assert (Hse : forall e, is_setup_event e = true ->
            on_reg FIFO_A e = false /\ is_submit DMA_TX e = false
            /\ is_submit DMA_RX e = false /\ is_issue_pending e = false).
  { intros e He. unfold is_setup_event in He.
    apply andb_true_iff in He as [H1 H2].
    apply negb_true_iff in H1. apply negb_true_iff in H2.
    destruct e; cbn in *; try discriminate; auto. }
  assert (Hpe : forall e, is_prepare_event
                  (buffer_geometry audio_buffer_size audio_channels
                     (buffer (dev w))) e = true ->
            on_reg FIFO_A e = false /\ is_submit DMA_TX e = false
            /\ is_submit DMA_RX e = false /\ is_issue_pending e = false).
  { intros e He. unfold is_prepare_event in He.
    repeat (apply andb_true_iff in He as [He ?]).
    repeat match goal with
           | H : negb _ = true |- _ => apply negb_true_iff in H
           end.
    repeat split; try assumption.
    destruct e; try reflexivity; discriminate. }
  split; [|split; [|split]]; apply Hs; try reflexivity; intros e He.
  - apply (Hse e He).
  - apply (Hpe e He).
  - apply (Hse e He).
  - apply (Hpe e He).
  - apply (Hse e He).
  - apply (Hpe e He).
  - apply (Hse e He).
  - apply (Hpe e He).
Qed.

(** X13.  Every request for a cyclic descriptor that
    bcm2835_i2s_buffers_setup makes spans the buffer set it has just laid
    out: the TX request starts at the playback address, memory to
    device, the RX request at the capture address, device to memory,
    both over the whole buffer length in chunks of the period length. *)
Theorem buffers_setup_descriptor_regions
  (audio_buffer_size audio_channels : Z) (w : world) :
  exists evs : history,
    trace (final_world
      (bcm2835_i2s_buffers_setup E audio_buffer_size audio_channels w))
    = evs ++ trace w
    /\ forallb
         (prep_matches
            (buffer (dev (final_world
               (bcm2835_i2s_buffers_setup E audio_buffer_size
                  audio_channels w))))) evs = true.
Proof.
  destruct (buffers_setup_run E audio_buffer_size audio_channels w)
    as (r & w' & pre & tail & Hr & Ht & Hb & Hp & Hc).
  rewrite Hr. cbn [final_world]. rewrite Hb.
  exists (tail ++ pre ++ [Store32 (cv_gate_out
            (buffer_geometry audio_buffer_size audio_channels
               (buffer (dev w)))) 15]).
  split; [rewrite Ht, <- !app_assoc; reflexivity|].
  rewrite !forallb_app.
  set (b := buffer_geometry audio_buffer_size audio_channels
              (buffer (dev w))) in *.
  assert (Hpre : forallb (prep_matches b) pre = true).
  { revert Hp. apply forallb_impl. intros e He.
    unfold is_prepare_event in He.
    apply andb_true_iff in He as [_ He]. exact He. }
  rewrite Hpre. cbn [forallb prep_matches andb].
  destruct Hc as [(_ & -> & _)|(su & sb & -> & Hsu & Hsb & _ & _ & Hc)];
    [reflexivity|].
  rewrite !forallb_app.
  assert (Hrep : forall n, forallb (prep_matches b)
                             (repeat (Writel FIFO_A 0) n) = true)
    by (induction n; cbn; auto).
  assert (Hsu' : forallb (prep_matches b) su = true).
  { revert Hsu. apply forallb_impl. intros e He.
    unfold is_setup_event in He. apply andb_true_iff in He as [_ He].
    destruct e; try reflexivity; discriminate He. }
  assert (Hsb' : forallb (prep_matches b) sb = true).
  { revert Hsb. apply forallb_impl. intros e He.
    destruct e; try reflexivity; discriminate He. }
  rewrite Hrep, Hsu', Hsb'. reflexivity.
Qed.

End SetupProperties.

(** The witness of X11: the RX descriptor is refused (scenario C of the
    specification). *)
Lemma buffers_setup_failure_touches_nothing_witness :
  let E := descriptor_refused DMA_RX in
  returned (bcm2835_i2s_buffers_setup (Hdr := sample_header) E 64 2
              (boot "elk-pi")) = Some (- EINVAL)
  /\ exists evs : history,
      trace (final_world
        (bcm2835_i2s_buffers_setup (Hdr := sample_header) E 64 2
           (boot "elk-pi")))
      = evs ++ trace (boot "elk-pi")
      /\ existsb is_reg_access evs = false
      /\ existsb (is_submit DMA_TX) evs = false
      /\ existsb (is_submit DMA_RX) evs = false
      /\ existsb is_issue_pending evs = false
      /\ hd Wmb evs = Printk dma_prepare_failed_msg []
      /\ last evs Wmb
         = Store32 (cv_gate_out (buffer_geometry (Hdr := sample_header)
                                   64 2 (buffer (dev (boot "elk-pi"))))) 15.
Proof.
  cbv zeta. split; [vm_compute; reflexivity|].
  apply (buffers_setup_failure_touches_nothing (Hdr := sample_header)
           (descriptor_refused DMA_RX) 64 2 (boot "elk-pi")).
  vm_compute; reflexivity.
Defined.

(** The witness of X12: a setup that succeeds, with 2 channels. *)
Lemma buffers_setup_primes_fifo_witness :
  let E := quiet_env (fun _ _ => 0) in
  returned (bcm2835_i2s_buffers_setup (Hdr := sample_header) E 64 2
              (boot "elk-pi")) <> Some (- EINVAL)
  /\ exists later earlier : history,
      trace (final_world
        (bcm2835_i2s_buffers_setup (Hdr := sample_header) E 64 2
           (boot "elk-pi")))
      = later
        ++ repeat (Writel FIFO_A 0)
             (Z.to_nat (s32 (BCM2835_DMA_THR_TX (i2s_header := sample_header)
                             + 2)))
        ++ earlier ++ trace (boot "elk-pi")
      /\ existsb is_reg_access later = false
      /\ existsb (on_reg FIFO_A) earlier = false
      /\ existsb (is_submit DMA_TX) earlier = false
      /\ existsb (is_submit DMA_RX) earlier = false
      /\ existsb is_issue_pending earlier = false.
Proof.
  cbv zeta. split; [vm_compute; congruence|].
  apply (buffers_setup_primes_fifo (Hdr := sample_header)
           (quiet_env (fun _ _ => 0)) 64 2 (boot "elk-pi")).
  vm_compute; congruence.
Defined.

(** ** Programming the peripheral *)

Section Configure.

Context {Hdr : i2s_header}.
Variable E : env.

Lemma testbit_lor32 (a b i : Z) :
  Z.testbit (lor32 a b) i = (i <? 32) && (Z.testbit a i || Z.testbit b i).
Proof. unfold lor32. now rewrite testbit_u32, Z.lor_spec. Qed.

(** Or-ing a mask in sets its bits, and they stay set under further
    or-ing. *)
Lemma lor32_sets (a b : Z) : Z.land (lor32 a b) (u32 b) = u32 b.
Proof.
  apply Z.bits_inj'. intros i Hi.
  rewrite Z.land_spec, testbit_lor32, testbit_u32.
  destruct (i <? 32), (Z.testbit a i), (Z.testbit b i); reflexivity.
Qed.

Lemma lor32_keeps (a b m : Z) :
  Z.land a (u32 m) = u32 m -> Z.land (lor32 a b) (u32 m) = u32 m.
Proof.
  intros H. apply Z.bits_inj'. intros i Hi.
  pose proof (f_equal (fun z => Z.testbit z i) H) as Hb. cbn beta in Hb.
  rewrite Z.land_spec, testbit_u32 in Hb.
  rewrite Z.land_spec, testbit_lor32, testbit_u32.
  destruct (i <? 32), (Z.testbit a i), (Z.testbit b i), (Z.testbit m i);
    cbn in *; congruence.
Qed.

Lemma lor32_sets_sub (a b m : Z) :
  (forall i, 0 <= i -> Z.testbit m i = true -> Z.testbit b i = true) ->
  Z.land (lor32 a b) (u32 m) = u32 m.
Proof.
  intros H. apply Z.bits_inj'. intros i Hi. specialize (H i Hi).
  rewrite Z.land_spec, testbit_lor32, testbit_u32.
  destruct (Z.testbit m i); [rewrite (H eq_refl), orb_true_r|];
    destruct (i <? 32), (Z.testbit a i); cbn;
    rewrite ?andb_false_r; reflexivity.
Qed.

(** The branch on the hardware variant. *)
Lemma configure_hat_cases (frame_length : Z) (w : world) :
  let rate := s32 (frame_length * HIFI_BERRY_SAMPLING_RATE) in
  exists (l : hat_locals) (w' : world) (evs : history),
    configure_hat E frame_length w = Ok l w'
    /\ trace w' = evs ++ trace w
    /\ nreads w' = nreads w /\ latched w' = latched w
    /\ existsb is_reg_access evs = false
    /\ if String.eqb (audio_hat (dev w)) "hifi-berry"
       then l = {| bit_clock_master := true; frame_sync_master := true;
                   mode0 := u32 BCM2835_I2S_CLKI;
                   ch1_pos := 1; ch2_pos := 33 |}
            /\ dev w' = set_clk_rate rate (dev w)
            /\ exists rc,
                 evs = [ClkPrepareEnable]
                       ++ (if rc =? 0 then []
                           else [Printk clk_set_rate_failed_msg []])
                       ++ [ClkSetRate (wrap word_bits rate) rc]
       else l = {| bit_clock_master := false; frame_sync_master := false;
                   mode0 := 0;
                   ch1_pos := if String.eqb (audio_hat (dev w))
                                   "hifi-berry-pro" then 1 else 0;
                   ch2_pos := if String.eqb (audio_hat (dev w))
                                   "hifi-berry-pro" then 33 else 32 |}
            /\ dev w' = dev w /\ evs = [].
Proof.
  cbv zeta. unfold configure_hat, audio_hat_is. run.
  destruct (String.eqb (audio_hat (dev w)) "hifi-berry"); cbn.
  - match goal with |- context [clk_set_rate E (trace w) ?r] =>
      set (rc := s32 (clk_set_rate E (trace w) r)) end.
    destruct (Z.eqb_spec rc 0) as [H0|H0]; cbn.
    + do 2 eexists. eexists [_; _]. repeat split; try reflexivity.
      exists rc. rewrite H0. reflexivity.
    + do 2 eexists. eexists [_; _; _]. repeat split; try reflexivity.
      exists rc. destruct (Z.eqb_spec rc 0); [contradiction|reflexivity].
  - destruct (String.eqb (audio_hat (dev w)) "hifi-berry-pro");
      do 2 eexists; exists []; repeat split; reflexivity.
Qed.

Lemma writes_to_no_access r h :
  existsb is_reg_access h = false -> writes_to r h = [].
Proof.
  unfold writes_to. induction h as [|e h IH] using rev_ind;
    [reflexivity|].
  rewrite existsb_app, rev_app_distr. cbn. rewrite orb_false_r.
  intros H. apply orb_false_iff in H as [Hh He].
  rewrite (IH Hh). destruct e; try reflexivity; discriminate He.
Qed.

(** Everything bcm2835_i2s_configure does after the variant branch. *)
Lemma configure_run (w : world) :
  exists (l : hat_locals) (w1 w' : world),
    configure_hat E 64 w = Ok l w1
    /\ bcm2835_i2s_configure E w = Ok tt w'
    /\ dev w' = dev w1
    /\ exists rm rc rd : Z,
        trace w'
        = [Writel DREQ_A
             (rmw rd
                (Z.lor (Z.lor (Z.lor
                   (BCM2835_I2S_TX_PANIC BCM2835_DMA_TX_PANIC_THR)
                   (BCM2835_I2S_RX_PANIC BCM2835_DMA_RX_PANIC_THR))
                   (BCM2835_I2S_TX BCM2835_DMA_THR_TX))
                   (BCM2835_I2S_RX BCM2835_DMA_THR_RX))
                4294967295);
           Readl DREQ_A rd;
           Writel CS_A
             (rmw rc
                (Z.lor (Z.lor (BCM2835_I2S_RXTHR 1) (BCM2835_I2S_TXTHR 1))
                   BCM2835_I2S_DMAEN)
                4294967295);
           Readl CS_A rc;
           Writel MODE_A (rmw rm BCM2835_I2S_CLKDIS 0);
           Readl MODE_A rm;
           Writel TXC_A (chan_word l);
           Writel RXC_A (chan_word l);
           Writel MODE_A (mode_word l)]
          ++ trace w1.
Proof.
  unfold bcm2835_i2s_configure. cbv zeta.
  change (s32 (BCM2835_PCM_SLOTS * BCM2835_PCM_WORD_LEN)) with 64.
  destruct (configure_hat_cases 64 w)
    as (l & w1 & e1 & Hh & _).
  exists l, w1. unfold bind at 1. rewrite Hh.
  cbv [rpi_reg_update_bits bind rpi_reg_write rpi_reg_read
       dev nreads latched trace].
  eexists. split; [reflexivity|]. split; [reflexivity|].
  split; [reflexivity|]. do 3 eexists. cbn [trace].
  unfold mode_word, chan_word, channel_format, rmw, lor32.
  rewrite !u32_idem. reflexivity.
Qed.

(** X14.  The clock in bcm2835_i2s_configure.  For "hifi-berry" the
    int bclk_rate = 64 x HIFI_BERRY_SAMPLING_RATE (one frame of two 32-bit
    slots per sample period) is recorded in the device structure, and the
    clock is asked for that int converted to unsigned long, as
    clk_set_rate takes it; the two are 64 x HIFI_BERRY_SAMPLING_RATE
    itself whenever that product is below 2^31.  The clock is enabled
    whether or not the request succeeded: a failure only adds a log line.
    For every other variant the clock is not touched and the recorded
    rate stays.  In both cases the rest of the device structure is
    unchanged. *)
Theorem configure_clock (w : world) :
  let bclk_rate := s32 (64 * HIFI_BERRY_SAMPLING_RATE) in
  let asked := wrap word_bits bclk_rate in
  exists (w' : world) (evs : history),
    bcm2835_i2s_configure E w = Ok tt w'
    /\ trace w' = evs ++ trace w
    /\ (0 <= 64 * HIFI_BERRY_SAMPLING_RATE < 2 ^ 31 -> 31 <= word_bits ->
        bclk_rate = 64 * HIFI_BERRY_SAMPLING_RATE
        /\ asked = 64 * HIFI_BERRY_SAMPLING_RATE)
    /\ if String.eqb (audio_hat (dev w)) "hifi-berry"
       then dev w' = set_clk_rate bclk_rate (dev w)
            /\ exists rc,
                 filter (fun e => negb (is_reg_access e)) evs
                 = [ClkPrepareEnable]
                   ++ (if rc =? 0 then []
                       else [Printk clk_set_rate_failed_msg []])
                   ++ [ClkSetRate asked rc]
       else dev w' = dev w
            /\ filter (fun e => negb (is_reg_access e)) evs = [].
Proof.
  cbv zeta.
  destruct (configure_run w)
    as (l & w1 & w' & Hh & Hr & Hd & rm & rc & rd & Ht).
  destruct (configure_hat_cases 64 w)
    as (l' & w1' & e1 & Hh' & T1 & _ & _ & _ & Hc).
  rewrite Hh in Hh'. injection Hh' as <- <-.
  cbv zeta in Hc. rewrite T1 in Ht.
  exists w'. eexists. split; [exact Hr|].
  split; [rewrite Ht, app_assoc; reflexivity|].
  split.
  { intros Hrange Hbits.
    assert (Hs : s32 (64 * HIFI_BERRY_SAMPLING_RATE)
                 = 64 * HIFI_BERRY_SAMPLING_RATE).
    { unfold s32. change (2 ^ 31) with 2147483648 in *.
      change (2 ^ 32) with 4294967296. rewrite Z.mod_small; lia. }
    rewrite Hs. split; [reflexivity|]. unfold wrap.
    apply Z.mod_small. split; [lia|].
    apply Z.lt_le_trans with (2 ^ 31); [lia|].
    apply Z.pow_le_mono_r; lia. }
  rewrite filter_app. cbn [filter is_reg_access negb app].
  rewrite Hd.
  destruct (String.eqb (audio_hat (dev w)) "hifi-berry").
  - destruct Hc as (_ & Hd' & rc' & ->). split; [exact Hd'|].
    exists rc'. destruct (rc' =? 0); reflexivity.
  - destruct Hc as (_ & Hd' & ->). split; [exact Hd' | reflexivity].
Qed.

(** X15.  The words bcm2835_i2s_configure writes.  The mode register is
    written twice: first a word that has the frame-sync-invert bits set
    and, for every variant but "hifi-berry", all of the clock-disable,
    clock-slave, clock-invert and frame-sync-slave bits; for "hifi-berry"
    it is exactly clock-invert, frame length 63, frame-sync length 32 and
    frame-sync-invert.  The second write clears the clock-disable bits.
    Both channel-format registers are written once, with the same word,
    built from slot positions 1 and 33 for "hifi-berry" and
    "hifi-berry-pro" and 0 and 32 otherwise. *)
Theorem configure_words (w : world) :
  exists (l : hat_locals) (evs : history) (m m2 : Z),
    trace (final_world (bcm2835_i2s_configure E w)) = evs ++ trace w
    /\ writes_to MODE_A evs = [m; m2]
    /\ writes_to RXC_A evs = [chan_word l]
    /\ writes_to TXC_A evs = [chan_word l]
    /\ Z.land m (u32 BCM2835_I2S_FSI) = u32 BCM2835_I2S_FSI
    /\ Z.land m2 (u32 BCM2835_I2S_CLKDIS) = 0
    /\ (if String.eqb (audio_hat (dev w)) "hifi-berry"
        then m = lor32 (lor32 (lor32 (u32 BCM2835_I2S_CLKI)
                                 (BCM2835_I2S_FLEN 63))
                          (BCM2835_I2S_FSLEN 32))
                   BCM2835_I2S_FSI
             /\ (ch1_pos l, ch2_pos l) = (1, 33)
        else Z.land m (u32 BCM2835_I2S_CLKDIS) = u32 BCM2835_I2S_CLKDIS
             /\ Z.land m (u32 BCM2835_I2S_CLKM) = u32 BCM2835_I2S_CLKM
             /\ Z.land m (u32 BCM2835_I2S_CLKI) = u32 BCM2835_I2S_CLKI
             /\ Z.land m (u32 BCM2835_I2S_FSM) = u32 BCM2835_I2S_FSM
             /\ (ch1_pos l, ch2_pos l)
                = if String.eqb (audio_hat (dev w)) "hifi-berry-pro"
                  then (1, 33) else (0, 32)).
Proof.
  destruct (configure_run w)
    as (l & w1 & w' & Hh & Hr & Hd & rm & rc & rd & Ht).
  destruct (configure_hat_cases 64 w)
    as (l' & w1' & e1 & Hh' & T1 & _ & _ & Hna & Hc).
  rewrite Hh in Hh'. injection Hh' as <- <-.
  cbv zeta in Hc. rewrite T1 in Ht. rewrite Hr. cbn [final_world].
  exists l. eexists. exists (mode_word l), (rmw rm BCM2835_I2S_CLKDIS 0).
  split; [rewrite Ht, app_assoc; reflexivity|].
  rewrite !writes_to_app, !(writes_to_no_access _ _ Hna).
  do 3 (split; [reflexivity|]).
  split; [apply lor32_sets|].
  split.
  { apply Z.bits_inj'. intros i Hi. unfold rmw.
    rewrite Z.land_spec, testbit_u32, Z.lor_spec, !Z.land_spec,
      testbit_not32, !testbit_u32, Z.testbit_0_l by assumption.
    destruct (i <? 32), (Z.testbit BCM2835_I2S_CLKDIS i),
      (Z.testbit rm i); reflexivity. }
  destruct (String.eqb (audio_hat (dev w)) "hifi-berry").
  - destruct Hc as (-> & _). split; reflexivity.
  - destruct Hc as (-> & _). unfold mode_word. cbn [negb mode0
      bit_clock_master frame_sync_master ch1_pos ch2_pos].
    split; [|split; [|split; [|split]]].
    + do 2 apply lor32_keeps. apply lor32_sets_sub.
      intros i Hi Hb. now rewrite !Z.lor_spec, Hb.
    + do 2 apply lor32_keeps. apply lor32_sets_sub.
      intros i Hi Hb. now rewrite !Z.lor_spec, Hb, orb_true_r.
    + do 2 apply lor32_keeps. apply lor32_sets_sub.
      intros i Hi Hb. now rewrite !Z.lor_spec, Hb, orb_true_r.
    + apply lor32_keeps. apply lor32_sets.
    + destruct (String.eqb (audio_hat (dev w)) "hifi-berry-pro");
        reflexivity.
Qed.

(** ** bcm2835_i2s_clear_regs and bcm2835_i2s_enable *)

(** X16.  bcm2835_i2s_clear_regs leaves 0 in every register but the
    FIFO, which it does not touch; it reads no register and changes
    nothing in the device structure. *)
Theorem clear_regs_zeroes (w : world) :
  exists w' : world,
    bcm2835_i2s_clear_regs w = Ok tt w'
    /\ (forall r, r <> FIFO_A -> latched w' r = 0)
    /\ latched w' FIFO_A = latched w FIFO_A
    /\ nreads w' = nreads w
    /\ dev w' = dev w
    /\ exists evs, trace w' = evs ++ trace w
                   /\ List.length evs = 8%nat
                   /\ existsb (on_reg FIFO_A) evs = false.
Proof.
  eexists. split; [reflexivity|]. cbn.
  split; [intros r Hr; destruct r; try reflexivity; congruence|].
  do 3 (split; [reflexivity|]).
  eexists [_; _; _; _; _; _; _; _]. repeat split; reflexivity.
Qed.

(** X17.  bcm2835_i2s_enable makes three read-modify-writes, in this
    order: the control register with the standby bits set, the
    interrupt-enable register with the TX-error and RX-error bits set,
    and only then the control register with the enable bits set.  It
    touches no other register. *)
Theorem enable_order (w : world) :
  exists (w' : world) (c1 i1 c2 v1 v2 v3 : Z),
    bcm2835_i2s_enable E w = Ok tt w'
    /\ trace w' = [Writel CS_A v3; Readl CS_A c2;
                   Writel INTEN_A v2; Readl INTEN_A i1;
                   Writel CS_A v1; Readl CS_A c1] ++ trace w
    /\ Z.land v1 (u32 BCM2835_I2S_STBY) = u32 BCM2835_I2S_STBY
    /\ Z.land v2 (u32 BCM2835_I2S_INT_TXERR) = u32 BCM2835_I2S_INT_TXERR
    /\ Z.land v2 (u32 BCM2835_I2S_INT_RXERR) = u32 BCM2835_I2S_INT_RXERR
    /\ Z.land v3 (u32 BCM2835_I2S_EN) = u32 BCM2835_I2S_EN
    /\ dev w' = dev w.
Proof.
  unfold bcm2835_i2s_enable, rpi_reg_update_bits. run.
  do 7 eexists. split; [reflexivity|]. cbn [trace dev].
  split; [reflexivity|].
  assert (Hset : forall orig mask sub,
            (forall i, 0 <= i -> Z.testbit sub i = true ->
                       Z.testbit mask i = true) ->
            Z.land (u32 (Z.lor (Z.land orig (not32 (u32 mask)))
                           (Z.land (u32 mask) (u32 mask)))) (u32 sub)
            = u32 sub).
  { intros orig mask sub Hs. apply Z.bits_inj'. intros i Hi.
    specialize (Hs i Hi).
    rewrite Z.land_spec, testbit_u32, Z.lor_spec, !Z.land_spec,
      testbit_not32, !testbit_u32 by assumption.
    destruct (Z.testbit sub i); [rewrite (Hs eq_refl)|];
      destruct (i <? 32), (Z.testbit orig i); cbn;
      rewrite ?andb_false_r; reflexivity. }
  repeat split; try reflexivity; apply Hset; intros i Hi Hb;
    rewrite ?Z.lor_spec, ?Hb, ?orb_true_r; auto.
Qed.

End Configure.

(** * Set-up and tear-down *)

Section LifecycleLists.

Import Lifecycle.

Lemma flat_map_rev_nil {A B} (f : A -> list B) (l : list A) :
  (forall x, In x l -> f x = []) -> flat_map f (rev l) = [].
Proof.
  intros H.
  assert (G : forall l', (forall x, In x l' -> f x = []) ->
                         flat_map f l' = []).
  { induction l' as [|x l' IH]; [reflexivity|]. intros Hl. cbn.
    rewrite (Hl x (or_introl eq_refl)). apply IH.
    intros y Hy. apply Hl. now right. }
  apply G. intros x Hx. apply H. now apply in_rev.
Qed.

Lemma flat_map_rev_app {A B} (f : A -> list B) (a b : list A) :
  flat_map f (rev (a ++ b)) = flat_map f (rev b) ++ flat_map f (rev a).
Proof. now rewrite rev_app_distr, flat_map_app. Qed.

Lemma gpio_answers_app a b :
  gpio_answers (a ++ b) = gpio_answers b ++ gpio_answers a.
Proof. apply flat_map_rev_app. Qed.

Lemma claimed_pins_app a b :
  claimed_pins (a ++ b) = claimed_pins b ++ claimed_pins a.
Proof. apply flat_map_rev_app. Qed.

Lemma freed_pins_app a b :
  freed_pins (a ++ b) = freed_pins b ++ freed_pins a.
Proof. apply flat_map_rev_app. Qed.

Lemma granted_chans_app a b :
  granted_chans (a ++ b) = granted_chans b ++ granted_chans a.
Proof. apply flat_map_rev_app. Qed.

Lemma released_chans_app a b :
  released_chans (a ++ b) = released_chans b ++ released_chans a.
Proof. apply flat_map_rev_app. Qed.

Lemma coherent_allocated_app a b :
  coherent_allocated (a ++ b)
  = coherent_allocated b ++ coherent_allocated a.
Proof. apply flat_map_rev_app. Qed.

Lemma coherent_freed_app a b :
  coherent_freed (a ++ b) = coherent_freed b ++ coherent_freed a.
Proof. apply flat_map_rev_app. Qed.

(** The calls of bcm2835_init_cv_gates free no pin and touch neither DMA
    channels nor coherent memory. *)
Lemma pin_setup_only (h : list kcall) :
  forallb is_pin_setup h = true ->
  freed_pins h = [] /\ granted_chans h = [] /\ released_chans h = []
  /\ coherent_allocated h = [] /\ coherent_freed h = [].
Proof.
  intros H. rewrite forallb_forall in H.
  repeat split; apply flat_map_rev_nil; intros c Hc;
    specialize (H c Hc); destruct c; try reflexivity; discriminate H.
Qed.

Lemma same_fields_refl s : same_fields s s.
Proof. repeat split. Qed.

Lemma same_fields_trans s1 s2 s3 :
  same_fields s1 s2 -> same_fields s2 s3 -> same_fields s1 s3.
Proof.
  unfold same_fields. intros (?&?&?&?&?&?&?) (?&?&?&?&?&?&?).
  repeat split; congruence.
Qed.

End LifecycleLists.

Section LifecycleProperties.

Import Lifecycle.

Context {Hdr : i2s_header} {Lhdr : lifecycle_header}.
Variable K : kernel.

Ltac lrun :=
  cbv [andthen call set_dma_tx set_dma_rx set_clk set_i2s_base_addr
       set_audio_dev adopt set_buffer_ptr alter note current pure stop
       record];
  cbn [calls dma_tx dma_rx audio_dev_static audio_dev clk i2s_base_addr
       buffer_ptr].

(** ** bcm2835_i2s_dma_setup *)

Lemma dma_setup_run (s : state) :
  exists (r : Z) (s' : state) (new : list kcall),
    bcm2835_i2s_dma_setup K s = Done r s'
    /\ calls s' = new ++ calls s
    /\ audio_dev_static s' = audio_dev_static s
    /\ audio_dev s' = audio_dev s
    /\ buffer_ptr s' = buffer_ptr s
    /\ clk s' = clk s
    /\ i2s_base_addr s' = i2s_base_addr s
    /\ claimed_pins new = [] /\ freed_pins new = []
    /\ coherent_allocated new = [] /\ coherent_freed new = []
    /\ existsb is_kcalloc new = false
    /\ ((r = 0
         /\ granted_chans new = [dma_tx s'; dma_rx s']
         /\ released_chans new = [])
        \/ (r = - ENODEV
            /\ dma_tx s' = 0
            /\ released_chans new = granted_chans new
            /\ dma_rx s' = match granted_chans new with
                           | [] => dma_rx s
                           | _ :: _ => 0
                           end)).
Proof.
  unfold bcm2835_i2s_dma_setup. lrun.
  destruct (IS_ERR (dma_request_chan K (calls s) "tx")) eqn:Htx.
  - do 2 eexists. eexists [_]. repeat (split; [reflexivity|]).
    right. cbn. rewrite Htx. repeat split; reflexivity.
  - lrun.
    destruct (IS_ERR (dma_request_chan K
                        (DmaRequestChan "tx" _ :: calls s) "rx")) eqn:Hrx.
    + do 2 eexists. eexists [_; _; _]. repeat (split; [reflexivity|]).
      right. cbn. rewrite Htx, Hrx. repeat split; reflexivity.
    + do 2 eexists. eexists [_; _; _]. repeat (split; [reflexivity|]).
      left. cbn. rewrite Htx, Hrx. repeat split; reflexivity.
Qed.

(** X18.  bcm2835_i2s_dma_setup takes both channels or none.  It always
    returns.  With result 0, the channels it was granted are the two now
    in dma_tx and dma_rx, TX requested first, and none was released.
    Otherwise the result is -ENODEV, dma_tx is NULL and every channel it
    was granted has been released again; dma_rx is NULL when the RX
    request failed and is left as it was when the TX request failed. *)
Theorem dma_setup_all_or_nothing (s : state) :
  exists (r : Z) (s' : state) (new : list kcall),
    bcm2835_i2s_dma_setup K s = Done r s'
    /\ calls s' = new ++ calls s
    /\ ((r = 0
         /\ granted_chans new = [dma_tx s'; dma_rx s']
         /\ released_chans new = [])
        \/ (r = - ENODEV
            /\ dma_tx s' = 0
            /\ released_chans new = granted_chans new
            /\ dma_rx s' = match granted_chans new with
                           | [] => dma_rx s
                           | _ :: _ => 0
                           end)).
Proof.
  destruct (dma_setup_run s)
    as (r & s' & new & E & C & _ & _ & _ & _ & _ & _ & _ & _ & _ & _ & H).
  exists r, s', new. auto.
Qed.

(** ** bcm2835_init_cv_gates and bcm2835_free_cv_gates *)

Lemma answers_snoc (front good : list Z) (r : Z) :
  Forall (fun a => 0 <= a) front ->
  Forall (fun a => 0 <= a) good ->
  exists good', front ++ good ++ [r] = good' ++ [r]
                /\ Forall (fun a => 0 <= a) good'.
Proof.
  intros Hf Hg. exists (front ++ good). rewrite app_assoc. split;
    [reflexivity | now apply Forall_app].
Qed.

(** What either loop of bcm2835_init_cv_gates does. *)
Lemma init_cv_gate_outs_spec (pins : list Z) :
  forall (ret : option Z) (s : state),
  exists (o : Z + option Z) (s' : state) (new : list kcall),
    init_cv_gate_outs K pins ret s = Done o s'
    /\ calls s' = new ++ calls s
    /\ same_fields s s'
    /\ forallb is_pin_setup new = true
    /\ match o with
       | inl r =>
           r < 0
           /\ (exists good, gpio_answers new = good ++ [r]
                            /\ Forall (fun a => 0 <= a) good)
           /\ exists k, claimed_pins new = firstn k pins
       | inr ret' =>
           Forall (fun a => 0 <= a) (gpio_answers new)
           /\ claimed_pins new = pins
           /\ ((new = [] /\ ret' = ret /\ pins = [])
               \/ exists good r, gpio_answers new = good ++ [r]
                                 /\ ret' = Some r)
       end.
Proof.
  induction pins as [|pin rest IH].
  - intros ret s. exists (inr ret), s, []. repeat split; auto.
  - intros ret s. cbn [init_cv_gate_outs init_cv_gate_ins]. lrun.
    match goal with
    | |- context [s32 (gpio_request K (calls s) ?pin)] =>
        set (r1 := s32 (gpio_request K (calls s) pin))
    end.
    destruct (Z.ltb_spec r1 0) as [H1|H1].
    { do 2 eexists. eexists [_; _]. split; [reflexivity|].
      split; [reflexivity|]. split; [repeat split|].
      split; [reflexivity|]. split; [exact H1|]. split.
      - exists []. split; [reflexivity | constructor].
      - exists 0%nat. cbn. apply Z.ltb_lt in H1. now rewrite H1. }
    lrun.
    match goal with
    | |- context [if ?r <? 0 then _ else _] => set (r2 := r)
    end.
    destruct (Z.ltb_spec r2 0) as [H2|H2].
    { do 2 eexists. eexists [_; _; _]. split; [reflexivity|].
      split; [reflexivity|]. split; [repeat split|].
      split; [reflexivity|]. split; [exact H2|]. split.
      - exists [r1]. split; [reflexivity | repeat constructor; exact H1].
      - exists 1%nat. cbn. apply Z.ltb_ge in H1. now rewrite H1. }
    match goal with
    | |- context [_ K rest (Some r2) ?s2] =>
        destruct (IH (Some r2) s2)
          as (o & s' & new & -> & Hc & Hs & Hp & Ho)
    end.
    cbn [calls] in Hc.
    exists o, s'. eexists (new ++ [_; _]).
    split; [reflexivity|].
    split; [rewrite Hc, <- app_assoc; reflexivity|].
    split; [exact Hs|].
    split; [rewrite forallb_app, Hp; reflexivity|].
    rewrite gpio_answers_app, claimed_pins_app.
    change (gpio_answers [_; _]) with [r1; r2].
    assert (Hpin : claimed_pins [GpioDirectionOutput pin 0 r2;
                                 GpioRequest pin "cv_out_gate" r1] = [pin]
                   /\ claimed_pins [GpioDirectionInput pin r2;
                                    GpioRequest pin "cv_in_gate" r1] = [pin]).
    { cbn. pose proof H1 as H1'. apply Z.ltb_ge in H1'. rewrite H1'.
      split; reflexivity. }
    first [rewrite (proj1 Hpin) | rewrite (proj2 Hpin)]. clear Hpin.
    destruct o as [r|ret'].
    + destruct Ho as (Hr & (good & -> & Hg) & (k & Hk)).
      split; [exact Hr|]. split.
      * exists (r1 :: r2 :: good). split;
          [reflexivity | repeat constructor; assumption].
      * exists (S k). rewrite Hk. reflexivity.
    + destruct Ho as (Hg & Hk & Hl).
      split; [apply Forall_app; split;
              [repeat constructor; assumption | exact Hg]|].
      split; [rewrite Hk; reflexivity|].
      right.
      destruct Hl as [(-> & -> & _)|(good & r & -> & ->)].
      * exists [r1], r2. split; reflexivity.
      * exists (r1 :: r2 :: good), r. split; reflexivity.
Qed.

Lemma init_cv_gate_ins_spec (pins : list Z) :
  forall (ret : option Z) (s : state),
  exists (o : Z + option Z) (s' : state) (new : list kcall),
    init_cv_gate_ins K pins ret s = Done o s'
    /\ calls s' = new ++ calls s
    /\ same_fields s s'
    /\ forallb is_pin_setup new = true
    /\ match o with
       | inl r =>
           r < 0
           /\ (exists good, gpio_answers new = good ++ [r]
                            /\ Forall (fun a => 0 <= a) good)
           /\ exists k, claimed_pins new = firstn k pins
       | inr ret' =>
           Forall (fun a => 0 <= a) (gpio_answers new)
           /\ claimed_pins new = pins
           /\ ((new = [] /\ ret' = ret /\ pins = [])
               \/ exists good r, gpio_answers new = good ++ [r]
                                 /\ ret' = Some r)
       end.
Proof.
  induction pins as [|pin rest IH].
  - intros ret s. exists (inr ret), s, []. repeat split; auto.
  - intros ret s. cbn [init_cv_gate_outs init_cv_gate_ins]. lrun.
    match goal with
    | |- context [s32 (gpio_request K (calls s) ?pin)] =>
        set (r1 := s32 (gpio_request K (calls s) pin))
    end.
    destruct (Z.ltb_spec r1 0) as [H1|H1].
    { do 2 eexists. eexists [_; _]. split; [reflexivity|].
      split; [reflexivity|]. split; [repeat split|].
      split; [reflexivity|]. split; [exact H1|]. split.
      - exists []. split; [reflexivity | constructor].
      - exists 0%nat. cbn. apply Z.ltb_lt in H1. now rewrite H1. }
    lrun.
    match goal with
    | |- context [if ?r <? 0 then _ else _] => set (r2 := r)
    end.
    destruct (Z.ltb_spec r2 0) as [H2|H2].
    { do 2 eexists. eexists [_; _; _]. split; [reflexivity|].
      split; [reflexivity|]. split; [repeat split|].
      split; [reflexivity|]. split; [exact H2|]. split.
      - exists [r1]. split; [reflexivity | repeat constructor; exact H1].
      - exists 1%nat. cbn. apply Z.ltb_ge in H1. now rewrite H1. }
    match goal with
    | |- context [_ K rest (Some r2) ?s2] =>
        destruct (IH (Some r2) s2)
          as (o & s' & new & -> & Hc & Hs & Hp & Ho)
    end.
    cbn [calls] in Hc.
    exists o, s'. eexists (new ++ [_; _]).
    split; [reflexivity|].
    split; [rewrite Hc, <- app_assoc; reflexivity|].
    split; [exact Hs|].
    split; [rewrite forallb_app, Hp; reflexivity|].
    rewrite gpio_answers_app, claimed_pins_app.
    change (gpio_answers [_; _]) with [r1; r2].
    assert (Hpin : claimed_pins [GpioDirectionOutput pin 0 r2;
                                 GpioRequest pin "cv_out_gate" r1] = [pin]
                   /\ claimed_pins [GpioDirectionInput pin r2;
                                    GpioRequest pin "cv_in_gate" r1] = [pin]).
    { cbn. pose proof H1 as H1'. apply Z.ltb_ge in H1'. rewrite H1'.
      split; reflexivity. }
    first [rewrite (proj1 Hpin) | rewrite (proj2 Hpin)]. clear Hpin.
    destruct o as [r|ret'].
    + destruct Ho as (Hr & (good & -> & Hg) & (k & Hk)).
      split; [exact Hr|]. split.
      * exists (r1 :: r2 :: good). split;
          [reflexivity | repeat constructor; assumption].
      * exists (S k). rewrite Hk. reflexivity.
    + destruct Ho as (Hg & Hk & Hl).
      split; [apply Forall_app; split;
              [repeat constructor; assumption | exact Hg]|].
      split; [rewrite Hk; reflexivity|].
      right.
      destruct Hl as [(-> & -> & _)|(good & r & -> & ->)].
      * exists [r1], r2. split; reflexivity.
      * exists (r1 :: r2 :: good), r. split; reflexivity.
Qed.

Lemma firstn_prefix_app {A} (k : nat) (a b : list A) :
  exists k', firstn k a = firstn k' (a ++ b).
Proof.
  destruct (Nat.le_gt_cases k (List.length a)) as [Hk|Hk].
  - exists k. rewrite firstn_app.
    replace (k - List.length a)%nat with 0%nat by lia.
    cbn. now rewrite app_nil_r.
  - exists (List.length a). rewrite firstn_all2 by lia.
    rewrite firstn_app, Nat.sub_diag, firstn_all. cbn.
    now rewrite app_nil_r.
Qed.

(** bcm2835_init_cv_gates as a whole. *)
Lemma init_cv_gates_run (s : state) :
  exists (s' : state) (new : list kcall),
    calls s' = new ++ calls s
    /\ same_fields s s'
    /\ forallb is_pin_setup new = true
    /\ ((CVGATE_OUTS_LIST ++ CVGATE_INS_LIST = [] /\ new = []
         /\ bcm2835_init_cv_gates K s = Crashed (Uninitialised "ret") s')
        \/ exists (r : Z) (good : list Z),
             bcm2835_init_cv_gates K s = Done r s'
             /\ gpio_answers new = good ++ [r]
             /\ Forall (fun a => 0 <= a) good
             /\ (exists k, claimed_pins new
                           = firstn k (CVGATE_OUTS_LIST ++ CVGATE_INS_LIST))
             /\ (0 <= r -> claimed_pins new
                           = CVGATE_OUTS_LIST ++ CVGATE_INS_LIST)).
Proof.
  destruct (init_cv_gate_outs_spec CVGATE_OUTS_LIST None s)
    as (o & s1 & n1 & E1 & C1 & S1 & P1 & O1).
  unfold bcm2835_init_cv_gates, andthen. rewrite E1.
  destruct o as [r|ret1]; cbv beta iota.
  - destruct O1 as (Hr & (good & Ha & Hg) & (k & Hk)).
    exists s1, n1. do 3 (split; [assumption|]).
    right. exists r, good. do 3 (split; [first [reflexivity|assumption]|]).
    split; [rewrite Hk; apply firstn_prefix_app | intros; lia].
  - destruct (init_cv_gate_ins_spec CVGATE_INS_LIST ret1 s1)
      as (i & s2 & n2 & E2 & C2 & S2 & P2 & O2).
    rewrite E2.
    exists s2, (n2 ++ n1).
    split; [rewrite C2, C1, app_assoc; reflexivity|].
    split; [exact (same_fields_trans _ _ _ S1 S2)|].
    split; [rewrite forallb_app, P1, P2; reflexivity|].
    rewrite gpio_answers_app, claimed_pins_app.
    destruct O1 as (G1 & K1 & L1). rewrite K1.
    destruct i as [r|ret2]; cbv beta iota.
    + destruct O2 as (Hr & (good & -> & Hg) & (k & ->)).
      right. exists r, (gpio_answers n1 ++ good).
      split; [reflexivity|]. split; [now rewrite app_assoc|].
      split; [now apply Forall_app|].
      split; [|intros; lia].
      exists (List.length CVGATE_OUTS_LIST + k)%nat.
      now rewrite firstn_app_2.
    + destruct O2 as (G2 & K2 & L2). rewrite K2.
      assert (Hall : exists k, CVGATE_OUTS_LIST ++ CVGATE_INS_LIST
                     = firstn k (CVGATE_OUTS_LIST ++ CVGATE_INS_LIST)).
      { exists (List.length (CVGATE_OUTS_LIST ++ CVGATE_INS_LIST)).
        now rewrite firstn_all. }
      destruct L2 as [(-> & -> & I2)|(good & r & A2 & ->)].
      * change (gpio_answers []) with (@nil Z). rewrite app_nil_r.
        cbn [app].
        destruct L1 as [(-> & -> & O1)|(good & r & A1 & ->)].
        -- left. rewrite O1, I2. repeat split; reflexivity.
        -- right. exists r, good. rewrite A1.
           split; [reflexivity|]. split; [reflexivity|].
           split; [rewrite A1 in G1; now apply Forall_app in G1|].
           split; [exact Hall | reflexivity].
      * right. exists r, (gpio_answers n1 ++ good). rewrite A2.
        split; [reflexivity|]. split; [now rewrite app_assoc|].
        split; [apply Forall_app; split; [exact G1|];
                rewrite A2 in G2; now apply Forall_app in G2|].
        split; [exact Hall | reflexivity].
Qed.

(** X19.  bcm2835_init_cv_gates stops at the first refusal.  With at
    least one pin listed it always returns, and its result is the answer
    of the last GPIO call it made; every answer before that one was not
    negative.  It frees no pin: the pins claimed before a refusal stay
    claimed.  The claimed pins are a prefix of the output pins followed
    by the input pins, and all of them when the result is not
    negative. *)
Theorem init_cv_gates_stops_at_first_failure (s : state) :
  CVGATE_OUTS_LIST ++ CVGATE_INS_LIST <> [] ->
  exists (r : Z) (s' : state) (new : list kcall) (good : list Z),
    bcm2835_init_cv_gates K s = Done r s'
    /\ calls s' = new ++ calls s
    /\ gpio_answers new = good ++ [r]
    /\ Forall (fun a => 0 <= a) good
    /\ freed_pins new = []
    /\ (exists k, claimed_pins new
                  = firstn k (CVGATE_OUTS_LIST ++ CVGATE_INS_LIST))
    /\ (0 <= r -> claimed_pins new
                  = CVGATE_OUTS_LIST ++ CVGATE_INS_LIST).
Proof.
  intros Hne.
  destruct (init_cv_gates_run s)
    as (s' & new & C & _ & P & [(He & _)|(r & good & E & A & G & Hk & Ha)]);
    [contradiction|].
  exists r, s', new, good.
  destruct (pin_setup_only new P) as (F & _). auto 10.
Qed.

Lemma gpio_free_each_run (pins : list Z) :
  forall s : state,
  exists s' : state,
    gpio_free_each pins s = Done tt s'
    /\ calls s' = rev (map GpioFree pins) ++ calls s
    /\ same_fields s s'.
Proof.
  induction pins as [|pin rest IH]; intros s.
  - exists s. repeat split.
  - cbn [gpio_free_each]. lrun.
    match goal with
    | |- context [gpio_free_each rest ?s1] =>
        destruct (IH s1) as (s' & -> & C & S)
    end.
    exists s'. split; [reflexivity|]. cbn [calls map rev] in *.
    split; [rewrite C, <- app_assoc; reflexivity | exact S].
Qed.

Lemma freed_pins_of_frees (pins : list Z) :
  freed_pins (rev (map GpioFree pins)) = pins
  /\ forallb is_gpio_free (rev (map GpioFree pins)) = true.
Proof.
  unfold freed_pins. rewrite rev_involutive. split.
  - induction pins as [|p l IH]; [reflexivity|]. cbn. now rewrite IH.
  - apply forallb_forall. intros c Hc. apply in_rev in Hc.
    apply in_map_iff in Hc as (p & <- & _). reflexivity.
Qed.

Lemma gpio_free_only (h : list kcall) :
  forallb is_gpio_free h = true ->
  claimed_pins h = [] /\ gpio_answers h = [] /\ granted_chans h = []
  /\ released_chans h = [] /\ coherent_allocated h = []
  /\ coherent_freed h = [].
Proof.
  intros H. rewrite forallb_forall in H.
  repeat split; apply flat_map_rev_nil; intros c Hc;
    specialize (H c Hc); destruct c; try reflexivity; discriminate H.
Qed.

Lemma free_cv_gates_run (s : state) :
  exists (s' : state) (new : list kcall),
    bcm2835_free_cv_gates s = Done tt s'
    /\ calls s' = new ++ calls s
    /\ same_fields s s'
    /\ forallb is_gpio_free new = true
    /\ freed_pins new = CVGATE_OUTS_LIST ++ CVGATE_INS_LIST.
Proof.
  unfold bcm2835_free_cv_gates, andthen.
  destruct (gpio_free_each_run CVGATE_OUTS_LIST s) as (s1 & -> & C1 & S1).
  destruct (gpio_free_each_run CVGATE_INS_LIST s1) as (s2 & -> & C2 & S2).
  exists s2. eexists (_ ++ _). split; [reflexivity|].
  split; [rewrite C2, C1, app_assoc; reflexivity|].
  split; [exact (same_fields_trans _ _ _ S1 S2)|].
  rewrite forallb_app, freed_pins_app.
  destruct (freed_pins_of_frees CVGATE_OUTS_LIST) as (-> & ->).
  destruct (freed_pins_of_frees CVGATE_INS_LIST) as (-> & ->).
  split; reflexivity.
Qed.

(** X20.  bcm2835_init_cv_gates followed by bcm2835_free_cv_gates.  The
    second frees every listed pin, outputs then inputs, whatever the
    first achieved: the pins claimed are a prefix of the pins freed, and
    the same pins when bcm2835_init_cv_gates did not fail. *)
Theorem cv_gates_round_trip (s : state) :
  CVGATE_OUTS_LIST ++ CVGATE_INS_LIST <> [] ->
  exists (r : Z) (s1 s2 : state) (new : list kcall),
    bcm2835_init_cv_gates K s = Done r s1
    /\ bcm2835_free_cv_gates s1 = Done tt s2
    /\ calls s2 = new ++ calls s
    /\ same_fields s s2
    /\ freed_pins new = CVGATE_OUTS_LIST ++ CVGATE_INS_LIST
    /\ (exists k, claimed_pins new = firstn k (freed_pins new))
    /\ (0 <= r -> claimed_pins new = freed_pins new).
Proof.
  intros Hne.
  destruct (init_cv_gates_run s)
    as (s1 & n1 & C1 & S1 & P1
        & [(He & _)|(r & good & E1 & A & G & Hk & Ha)]);
    [contradiction|].
  destruct (free_cv_gates_run s1) as (s2 & n2 & E2 & C2 & S2 & P2 & F2).
  exists r, s1, s2, (n2 ++ n1).
  split; [exact E1|]. split; [exact E2|].
  split; [rewrite C2, C1, app_assoc; reflexivity|].
  split; [exact (same_fields_trans _ _ _ S1 S2)|].
  rewrite freed_pins_app, claimed_pins_app, F2.
  destruct (pin_setup_only n1 P1) as (-> & _).
  destruct (gpio_free_only n2 P2) as (-> & _).
  rewrite app_nil_r. cbn [app]. auto.
Qed.

(** ** bcm2835_i2s_init *)

Lemma init_run (hat : string) (s : state) :
  audio_dev_static s <> 0 -> dma_rx s <> 0 -> buffer_ptr s <> 0 ->
  (hat = "elk-pi"%string -> CVGATE_OUTS_LIST ++ CVGATE_INS_LIST <> []) ->
  exists (s' : state) (gp : list kcall),
    let got := dma_alloc_coherent K (LogStr elk_hat_msg hat :: calls s)
                 (dma_rx s) reserved_buffer_size in
    let ok := negb (fst got =? 0) in
    bcm2835_i2s_init K hat s = Done (if ok then 0 else - ENOMEM) s'
    /\ calls s'
       = gp ++ (if ok then [] else [Log no_dma_mem_msg])
         ++ [DmaAllocCoherent (dma_rx s) reserved_buffer_size
               (fst got) (snd got);
             LogStr elk_hat_msg hat] ++ calls s
    /\ forallb is_pin_setup gp = true
    /\ (ok && String.eqb hat "elk-pi" = false -> gp = [])
    /\ (exists k, claimed_pins gp
                  = firstn k (CVGATE_OUTS_LIST ++ CVGATE_INS_LIST))
    /\ audio_dev_static s' = audio_dev_static s
    /\ clk s' = clk s
    /\ i2s_base_addr s' = i2s_base_addr s
    /\ dma_tx s' = dma_tx s
    /\ dma_rx s' = dma_rx s
    /\ buffer_ptr s' = buffer_ptr s
    /\ audio_dev s'
       = (if ok && String.eqb hat "elk-pi"
          then with_cv_gate_enabled true else fun d => d)
           ((if ok then with_buffer (with_rx_phys_addr (snd got))
             else fun d => d)
              (with_buffer (with_rx_buf (fst got))
                 (with_audio_hat hat (audio_dev s)))).
Proof.
  intros Hs Hrx Hb Hpins. cbv zeta.
  unfold bcm2835_i2s_init. lrun.
  apply Z.eqb_neq in Hs, Hrx, Hb. rewrite Hs, Hrx, Hb. lrun.
  set (got := dma_alloc_coherent K _ _ _).
  destruct (fst got =? 0) eqn:Hgot; cbn [negb andb].
  - eexists. exists []. repeat (split; [reflexivity|]).
    split; [exists 0%nat; reflexivity|].
    repeat (split; [reflexivity|]). reflexivity.
  - destruct (String.eqb hat "elk-pi") eqn:Hhat.
    + lrun.
      match goal with
      | |- context [bcm2835_init_cv_gates K ?s1] =>
          destruct (init_cv_gates_run s1)
            as (s' & gp & C & S & P
                & [(He & _)|(r & good & E & _ & _ & Hk & _)])
      end.
      { apply String.eqb_eq in Hhat. now apply Hpins in Hhat. }
      rewrite E. exists s', gp. cbn [calls] in C.
      destruct S as (S1 & S2 & S3 & S4 & S5 & S6 & S7).
      cbn [audio_dev_static audio_dev clk i2s_base_addr dma_tx dma_rx
           buffer_ptr] in *.
      split; [reflexivity|]. split; [exact C|]. split; [exact P|].
      split; [discriminate|]. split; [exact Hk|].
      repeat (split; [assumption|]). assumption.
    + eexists. exists []. repeat (split; [reflexivity|]).
      split; [exists 0%nat; reflexivity|].
      repeat (split; [reflexivity|]). reflexivity.
Qed.

(** X21.  bcm2835_i2s_init on a probed device (static pointer, RX
    channel and buffer structure not NULL).  It returns -ENOMEM when
    dma_alloc_coherent answers NULL and 0 otherwise, whatever the GPIO
    layer answers: a refusal met by bcm2835_init_cv_gates is not
    reported.  GPIO calls are made only for "elk-pi" after a successful
    allocation, and only then is cv_gate_enabled set.  The variant name
    and the CPU address are stored in either case. *)
Theorem init_result_ignores_gpio (hat : string) (s : state) :
  audio_dev_static s <> 0 -> dma_rx s <> 0 -> buffer_ptr s <> 0 ->
  (hat = "elk-pi"%string -> CVGATE_OUTS_LIST ++ CVGATE_INS_LIST <> []) ->
  exists (r : Z) (s' : state) (new : list kcall),
    bcm2835_i2s_init K hat s = Done r s'
    /\ calls s' = new ++ calls s
    /\ r = (if fst (dma_alloc_coherent K
                      (LogStr elk_hat_msg hat :: calls s) (dma_rx s)
                      reserved_buffer_size) =? 0
            then - ENOMEM else 0)
    /\ rx_buf (buffer (audio_dev s'))
       = fst (dma_alloc_coherent K (LogStr elk_hat_msg hat :: calls s)
                (dma_rx s) reserved_buffer_size)
    /\ audio_hat (audio_dev s') = hat
    /\ cv_gate_enabled (audio_dev s')
       = (if (r =? 0) && String.eqb hat "elk-pi" then true
          else cv_gate_enabled (audio_dev s))
    /\ (existsb is_gpio_call new = true
        -> r = 0 /\ hat = "elk-pi"%string)
    /\ coherent_allocated new
       = (if r =? 0
          then [(dma_rx s, reserved_buffer_size,
                 rx_buf (buffer (audio_dev s')),
                 rx_phys_addr (buffer (audio_dev s')))]
          else []).
Proof.
  intros Hs Hrx Hb Hpins.
  destruct (init_run hat s Hs Hrx Hb Hpins)
    as (s' & gp & E & C & P & Hgp & _ & _ & _ & _ & _ & _ & _ & D).
  cbv zeta in *.
  set (got := dma_alloc_coherent K _ _ _) in *.
  eexists. exists s'. eexists (gp ++ _ ++ [_; _]).
  split; [exact E|].
  split; [rewrite C, <- app_assoc, <- app_assoc; reflexivity|].
  rewrite D. rewrite existsb_app, coherent_allocated_app.
  destruct (pin_setup_only gp P) as (_ & _ & _ & -> & _).
  destruct (fst got =? 0) eqn:Hgot; cbn [negb andb] in *.
  - rewrite (Hgp eq_refl). cbn. rewrite Hgot.
    repeat split; try reflexivity; try discriminate.
  - destruct (String.eqb hat "elk-pi") eqn:Hhat.
    + cbn. rewrite Hgot. apply String.eqb_eq in Hhat.
      repeat split; try reflexivity; assumption.
    + rewrite (Hgp eq_refl). cbn. rewrite Hgot.
      repeat split; try reflexivity; discriminate.
Qed.

(** ** bcm2835_i2s_probe *)

Lemma s32_err_ptr (p : Z) :
  IS_ERR p = true -> s32 (PTR_ERR p) = p /\ - MAX_ERRNO <= p < 0.
Proof.
  unfold IS_ERR, PTR_ERR, MAX_ERRNO, s32. intros H.
  apply andb_prop in H as [H1 H2].
  apply Z.leb_le in H1. apply Z.ltb_lt in H2.
  change (2 ^ 31) with 2147483648. change (2 ^ 32) with 4294967296.
  rewrite Z.mod_small by lia. lia.
Qed.

Lemma probe_run (s : state) :
  exists (r : Z) (s' : state) (new : list kcall),
    bcm2835_i2s_probe K s = Done r s'
    /\ calls s' = new ++ calls s
    /\ - MAX_ERRNO <= r <= 0
    /\ claimed_pins new = [] /\ freed_pins new = []
    /\ coherent_allocated new = [] /\ coherent_freed new = []
    /\ (existsb is_kcalloc new = false
        -> r <> 0 /\ released_chans new = granted_chans new)
    /\ (existsb is_kcalloc new = true
        -> granted_chans new = [dma_tx s'; dma_rx s']
           /\ released_chans new = []
           /\ audio_dev_static s' <> 0
           /\ (r = 0 \/ (r = - ENOMEM /\ buffer_ptr s' = 0)))
    /\ (r = 0
        -> existsb is_kcalloc new = true
           /\ buffer_ptr s' <> 0
           /\ exists fifo,
               audio_dev s'
               = with_dma_params fifo DMA_SLAVE_BUSWIDTH_4_BYTES 2
                   zeroed_dev)
    /\ audio_dev_static s'
       = (if devm_kzalloc K (calls s) =? 0 then audio_dev_static s
          else devm_kzalloc K (calls s)).
Proof.
  unfold bcm2835_i2s_probe. lrun.
  set (p := devm_kzalloc K (calls s)).
  destruct (p =? 0) eqn:Hp.
  { do 2 eexists. eexists [_]. do 2 (split; [reflexivity|]).
    split; [vm_compute; split; discriminate|].
    do 4 (split; [reflexivity|]).
    split; [intros _; split; [discriminate | reflexivity]|].
    split; [discriminate|]. split; [discriminate|].
    reflexivity. }
  apply Z.eqb_neq in Hp. lrun.
  set (c := devm_clk_get K _).
  destruct (IS_ERR c) eqn:Hc.
  { destruct (s32_err_ptr c Hc) as (Hv & Hr). rewrite Hv.
    do 2 eexists. eexists [_; _; _]. do 2 (split; [reflexivity|]).
    split; [lia|]. do 4 (split; [reflexivity|]).
    split; [intros _; split; [lia | reflexivity]|].
    split; [discriminate|]. split; [lia|].
    reflexivity. }
  lrun.
  set (m := devm_platform_get_and_ioremap_resource K _).
  destruct (IS_ERR (fst m)) eqn:Hm.
  { destruct (s32_err_ptr (fst m) Hm) as (Hv & Hr). rewrite Hv.
    do 2 eexists. eexists [_; _; _; _]. do 2 (split; [reflexivity|]).
    split; [lia|]. do 4 (split; [reflexivity|]).
    split; [intros _; split; [lia | reflexivity]|].
    split; [discriminate|]. split; [lia|].
    reflexivity. }
  lrun.
  match goal with
  | |- context [bcm2835_i2s_dma_setup K ?st] =>
      destruct (dma_setup_run st)
        as (r & s2 & n & -> & C & S1 & S2 & S3 & S4 & S5
            & P1 & P2 & P3 & P4 & P5 & Hr)
  end.
  cbn [calls audio_dev_static audio_dev clk i2s_base_addr dma_tx dma_rx
       buffer_ptr] in *.
  assert (Hpre : forall b,
             existsb is_kcalloc
               (b ++ n ++ [EvlInitFlag; DevmIoremapResource 0 (fst m);
                           DevmClkGet c; DevmKzalloc p])
             = existsb is_kcalloc b).
  { intros b. rewrite !existsb_app, P5. cbn. now rewrite !orb_false_r. }
  assert (Hobs : forall b,
             claimed_pins
               (b ++ n ++ [EvlInitFlag; DevmIoremapResource 0 (fst m);
                           DevmClkGet c; DevmKzalloc p])
             = claimed_pins b
             /\ freed_pins
               (b ++ n ++ [EvlInitFlag; DevmIoremapResource 0 (fst m);
                           DevmClkGet c; DevmKzalloc p])
             = freed_pins b
             /\ coherent_allocated
               (b ++ n ++ [EvlInitFlag; DevmIoremapResource 0 (fst m);
                           DevmClkGet c; DevmKzalloc p])
             = coherent_allocated b
             /\ coherent_freed
               (b ++ n ++ [EvlInitFlag; DevmIoremapResource 0 (fst m);
                           DevmClkGet c; DevmKzalloc p])
             = coherent_freed b
             /\ granted_chans
               (b ++ n ++ [EvlInitFlag; DevmIoremapResource 0 (fst m);
                           DevmClkGet c; DevmKzalloc p])
             = granted_chans n ++ granted_chans b
             /\ released_chans
               (b ++ n ++ [EvlInitFlag; DevmIoremapResource 0 (fst m);
                           DevmClkGet c; DevmKzalloc p])
             = released_chans n ++ released_chans b).
  { intros b.
    rewrite !claimed_pins_app, !freed_pins_app, !coherent_allocated_app,
      !coherent_freed_app, !granted_chans_app, !released_chans_app,
      P1, P2, P3, P4.
    repeat split; reflexivity. }
  destruct Hr as [(-> & G & R)|(-> & T & R & X)].
  - cbn [negb Z.eqb]. lrun.
    set (b := kcalloc K (calls s2)).
    destruct (b =? 0) eqn:Hb.
    + exists (s32 (- ENOMEM)). eexists.
      eexists ([Log no_audio_buffer_msg; Kcalloc 1 b] ++ n ++ [_; _; _; _]).
      split; [reflexivity|].
      split; [cbn [calls]; rewrite C, <- !app_assoc; reflexivity|].
      split; [vm_compute; split; discriminate|].
      destruct (Hobs [Log no_audio_buffer_msg; Kcalloc 1 b])
        as (-> & -> & -> & -> & -> & ->).
      rewrite Hpre. do 4 (split; [reflexivity|]).
      split; [discriminate|].
      cbn [dma_tx dma_rx audio_dev_static buffer_ptr].
      split; [|split; [discriminate | now rewrite S1]].
      intros _. rewrite G, R, S1, S3. cbn.
      repeat split; auto.
    + exists 0. eexists.
      eexists ([Kcalloc 1 b] ++ n ++ [_; _; _; _]).
      split; [reflexivity|].
      split; [cbn [calls]; rewrite C, <- !app_assoc; reflexivity|].
      split; [vm_compute; split; discriminate|].
      destruct (Hobs [Kcalloc 1 b]) as (-> & -> & -> & -> & -> & ->).
      rewrite Hpre. do 4 (split; [reflexivity|]).
      split; [discriminate|].
      cbn [dma_tx dma_rx audio_dev_static buffer_ptr audio_dev].
      apply Z.eqb_neq in Hb.
      split; [|split].
      * intros _. rewrite G, R, S1. cbn. repeat split; auto.
      * intros _. split; [reflexivity|]. split; [exact Hb|].
        eexists. rewrite S2. reflexivity.
      * now rewrite S1.
  - change (negb (- ENODEV =? 0)) with true. cbv beta iota.
    exists (s32 (- ENODEV)), s2. eexists ([] ++ n ++ [_; _; _; _]).
    split; [reflexivity|].
    split; [rewrite C; cbn [app]; rewrite <- app_assoc; reflexivity|].
    split; [vm_compute; split; discriminate|].
    destruct (Hobs []) as (-> & -> & -> & -> & -> & ->).
    rewrite Hpre. do 4 (split; [reflexivity|]).
    split; [intros _; split; [discriminate|];
            now rewrite R, !app_nil_r|].
    split; [discriminate|]. split; [discriminate|].
    now rewrite S1.
Qed.

(** X22.  bcm2835_i2s_probe always returns, 0 or a negative errno.  When
    it stops before kcalloc the result is not 0 and every DMA channel it
    was granted has been released.  Once it has called kcalloc it holds
    both channels, in dma_tx and dma_rx, and releases neither: also when
    kcalloc fails and the result is -ENOMEM.  With result 0 the buffer
    structure is allocated and the device structure is zero but for the
    FIFO address, address width 4 and burst size 2. *)
Theorem probe_keeps_channels_after_kcalloc (s : state) :
  exists (r : Z) (s' : state) (new : list kcall),
    bcm2835_i2s_probe K s = Done r s'
    /\ calls s' = new ++ calls s
    /\ - MAX_ERRNO <= r <= 0
    /\ (existsb is_kcalloc new = false
        -> r <> 0 /\ released_chans new = granted_chans new)
    /\ (existsb is_kcalloc new = true
        -> granted_chans new = [dma_tx s'; dma_rx s']
           /\ released_chans new = []
           /\ audio_dev_static s' <> 0
           /\ (r = 0 \/ (r = - ENOMEM /\ buffer_ptr s' = 0)))
    /\ (r = 0
        -> existsb is_kcalloc new = true
           /\ buffer_ptr s' <> 0
           /\ exists fifo,
               audio_dev s'
               = with_dma_params fifo DMA_SLAVE_BUSWIDTH_4_BYTES 2
                   zeroed_dev).
Proof.
  destruct (probe_run s)
    as (r & s' & new & E & C & R & _ & _ & _ & _ & H1 & H2 & H3 & _).
  exists r, s', new. auto 10.
Qed.

(** X24.  The static pointer is published as soon as devm_kzalloc
    succeeds.  After bcm2835_i2s_probe, whatever its result,
    bcm2835_get_i2s_dev returns the structure just allocated; only when
    the allocation itself failed does it return what it returned
    before. *)
Theorem probe_publishes_static_pointer (s : state) :
  exists (r p : Z) (s' : state),
    bcm2835_i2s_probe K s = Done r s'
    /\ bcm2835_get_i2s_dev s' = Done p s'
    /\ p = (if devm_kzalloc K (calls s) =? 0 then audio_dev_static s
            else devm_kzalloc K (calls s))
    /\ (r = 0 -> p <> 0).
Proof.
  destruct (probe_run s)
    as (r & s' & new & E & _ & _ & _ & _ & _ & _ & _ & H2 & H3 & P).
  exists r, (audio_dev_static s'), s'.
  split; [exact E|]. split; [reflexivity|]. split; [exact P|].
  intros Hr. destruct (H3 Hr) as (Hk & _).
  now destruct (H2 Hk) as (_ & _ & Hs & _).
Qed.

(** ** bcm2835_i2s_remove *)

Lemma remove_run (s : state) :
  audio_dev_static s <> 0 -> dma_rx s <> 0 -> buffer_ptr s <> 0 ->
  exists (s' : state) (fr : list kcall),
    bcm2835_i2s_remove s = Done 0 s'
    /\ same_fields s s'
    /\ calls s'
       = [DevmKfree (audio_dev_static s); DevmIounmap (i2s_base_addr s)]
         ++ fr
         ++ [Kfree (buffer_ptr s); DmaReleaseChannel (dma_rx s);
             DmaReleaseChannel (dma_tx s);
             DmaFreeCoherent (dma_rx s) reserved_buffer_size
               (rx_buf (buffer (audio_dev s)))
               (rx_phys_addr (buffer (audio_dev s)))]
         ++ calls s
    /\ forallb is_gpio_free fr = true
    /\ freed_pins fr
       = if BCM2835_I2S_CVGATES_SUPPORT && cv_gate_enabled (audio_dev s)
         then CVGATE_OUTS_LIST ++ CVGATE_INS_LIST else [].
Proof.
  intros Hs Hrx Hb. unfold bcm2835_i2s_remove. lrun.
  apply Z.eqb_neq in Hs, Hrx, Hb. rewrite Hs, Hrx, Hb. lrun.
  assert (Hnone : exists (s' : state) (fr : list kcall),
             Done 0
               {| audio_dev_static := audio_dev_static s;
                  audio_dev := audio_dev s; clk := clk s;
                  i2s_base_addr := i2s_base_addr s;
                  dma_tx := dma_tx s; dma_rx := dma_rx s;
                  buffer_ptr := buffer_ptr s;
                  calls :=
                    DevmKfree (audio_dev_static s)
                    :: DevmIounmap (i2s_base_addr s)
                    :: Kfree (buffer_ptr s)
                    :: DmaReleaseChannel (dma_rx s)
                    :: DmaReleaseChannel (dma_tx s)
                    :: DmaFreeCoherent (dma_rx s) reserved_buffer_size
                         (rx_buf (buffer (audio_dev s)))
                         (rx_phys_addr (buffer (audio_dev s)))
                    :: calls s |} = Done 0 s'
             /\ same_fields s s'
             /\ calls s'
                = [DevmKfree (audio_dev_static s);
                   DevmIounmap (i2s_base_addr s)]
                  ++ fr
                  ++ [Kfree (buffer_ptr s); DmaReleaseChannel (dma_rx s);
                      DmaReleaseChannel (dma_tx s);
                      DmaFreeCoherent (dma_rx s) reserved_buffer_size
                        (rx_buf (buffer (audio_dev s)))
                        (rx_phys_addr (buffer (audio_dev s)))]
                  ++ calls s
             /\ forallb is_gpio_free fr = true
             /\ freed_pins fr = []).
  { eexists. exists []. repeat split; reflexivity. }
  destruct BCM2835_I2S_CVGATES_SUPPORT; cbn [andb]; [|exact Hnone].
  destruct (cv_gate_enabled (audio_dev s)); [|exact Hnone].
  clear Hnone.
  match goal with
  | |- context [bcm2835_free_cv_gates ?s1] =>
      destruct (free_cv_gates_run s1) as (s2 & fr & -> & C & S & P & F)
  end.
  cbn [calls] in C. destruct S as (S1 & S2 & S3 & S4 & S5 & S6 & S7).
  cbn [audio_dev_static audio_dev clk i2s_base_addr dma_tx dma_rx
       buffer_ptr] in *.
  eexists. exists fr. split; [reflexivity|].
  split; [repeat split; assumption|].
  cbn [calls]. rewrite C.
  split; [reflexivity|]. split; assumption.
Qed.

(** X23.  Probe, init, remove.  After a successful probe that got a
    non-NULL RX channel, bcm2835_i2s_init returns (0 or -ENOMEM) and
    bcm2835_i2s_remove then returns 0.  Over the three calls the DMA
    channels released are the channels granted, TX then RX.  Remove gives
    exactly one buffer to dma_free_coherent, the one init recorded: the
    buffer allocated when init returned 0, and a NULL address when init
    failed and nothing was allocated.  The GPIO pins are freed only when
    init got as far as enabling the CV gates.  The static pointer still
    holds the address of the freed structure afterwards. *)
Theorem remove_undoes_probe_and_init (hat : string) (s s1 : state) :
  bcm2835_i2s_probe K s = Done 0 s1 ->
  dma_rx s1 <> 0 ->
  (hat = "elk-pi"%string -> CVGATE_OUTS_LIST ++ CVGATE_INS_LIST <> []) ->
  exists (r : Z) (s2 s3 : state) (new : list kcall),
    bcm2835_i2s_init K hat s1 = Done r s2
    /\ bcm2835_i2s_remove s2 = Done 0 s3
    /\ calls s3 = new ++ calls s
    /\ released_chans new = granted_chans new
    /\ coherent_freed new
       = [(dma_rx s1, reserved_buffer_size,
           rx_buf (buffer (audio_dev s2)),
           rx_phys_addr (buffer (audio_dev s2)))]
    /\ coherent_allocated new
       = (if r =? 0 then coherent_freed new else [])
    /\ (r <> 0 -> rx_buf (buffer (audio_dev s2)) = 0)
    /\ freed_pins new
       = (if BCM2835_I2S_CVGATES_SUPPORT && (r =? 0)
             && String.eqb hat "elk-pi"
          then CVGATE_OUTS_LIST ++ CVGATE_INS_LIST else [])
    /\ audio_dev_static s3 = audio_dev_static s1
    /\ audio_dev_static s3 <> 0.
Proof.
  intros Hprobe Hrx Hpins.
  destruct (probe_run s)
    as (r0 & s1' & n1 & E1 & C1 & _ & Q1 & Q2 & Q3 & Q4 & _ & H2 & H3
        & _).
  rewrite Hprobe in E1. injection E1 as <- <-.
  destruct (H3 eq_refl) as (Hk & Hb & fifo & D1).
  destruct (H2 Hk) as (G1 & R1 & Hs & _).
  destruct (init_run hat s1 Hs Hrx Hb Hpins)
    as (s2 & gp & E2 & C2 & P2 & Hgp & _ & I1 & I2 & I3 & I4 & I5 & I6
        & D2).
  cbv zeta in *.
  set (got := dma_alloc_coherent K _ _ _) in *.
  assert (Hs2 : audio_dev_static s2 <> 0) by congruence.
  assert (Hrx2 : dma_rx s2 <> 0) by congruence.
  assert (Hb2 : buffer_ptr s2 <> 0) by congruence.
  destruct (remove_run s2 Hs2 Hrx2 Hb2)
    as (s3 & fr & E3 & S3 & C3 & P3 & F3).
  destruct S3 as (T1 & _).
  eexists. exists s2, s3.
  exists (([DevmKfree (audio_dev_static s2);
            DevmIounmap (i2s_base_addr s2)]
           ++ fr
           ++ [Kfree (buffer_ptr s2); DmaReleaseChannel (dma_rx s2);
               DmaReleaseChannel (dma_tx s2);
               DmaFreeCoherent (dma_rx s2) reserved_buffer_size
                 (rx_buf (buffer (audio_dev s2)))
                 (rx_phys_addr (buffer (audio_dev s2)))])
          ++ (gp ++ (if negb (fst got =? 0) then []
                     else [Log no_dma_mem_msg])
              ++ [DmaAllocCoherent (dma_rx s1) reserved_buffer_size
                    (fst got) (snd got);
                  LogStr elk_hat_msg hat]) ++ n1).
  split; [exact E2|]. split; [exact E3|].
  split.
  { rewrite C3, C2, C1. rewrite <- !app_assoc. reflexivity. }
  destruct (pin_setup_only gp P2) as (Fg & Gg & Rg & Ag & Zg).
  destruct (gpio_free_only fr P3) as (_ & _ & Gf & Rf & Af & Zf).
  rewrite !released_chans_app, !granted_chans_app, !coherent_freed_app,
    !coherent_allocated_app, !freed_pins_app.
  rewrite Q2, Q3, Q4, G1, R1, Fg, Gg, Rg, Ag, Zg, Gf, Rf, Af, Zf, F3.
  rewrite I4, I5, T1, I1, D2, D1.
  destruct (fst got =? 0) eqn:Hgot; cbn [negb andb].
  - cbn. rewrite Hgot, ?andb_false_r. cbn.
    apply Z.eqb_eq in Hgot.
    repeat split; try reflexivity; try assumption.
    intros _. exact Hgot.
  - destruct (String.eqb hat "elk-pi"); cbn; rewrite Hgot;
      destruct BCM2835_I2S_CVGATES_SUPPORT; cbn;
      rewrite ?app_nil_r;
      repeat split; try reflexivity; try assumption;
      intros; congruence.
Qed.

End LifecycleProperties.

(** The witness of X19: pin 27, the second output, is taken. *)
Lemma init_cv_gates_stops_at_first_failure_witness :
  @CVGATE_OUTS_LIST sample_header ++ @CVGATE_INS_LIST sample_header <> []
  /\ exists (r : Z) (s' : Lifecycle.state) (new : list Lifecycle.kcall)
       (good : list Z),
      Lifecycle.bcm2835_init_cv_gates (Hdr := sample_header)
        (Lifecycle.pin_taken 27) Lifecycle.unbound
      = Lifecycle.Done r s'
      /\ Lifecycle.calls s' = new ++ Lifecycle.calls Lifecycle.unbound
      /\ Lifecycle.gpio_answers new = good ++ [r]
      /\ Forall (fun a => 0 <= a) good
      /\ Lifecycle.freed_pins new = []
      /\ (exists k, Lifecycle.claimed_pins new
                    = firstn k (@CVGATE_OUTS_LIST sample_header
                                ++ @CVGATE_INS_LIST sample_header))
      /\ (0 <= r -> Lifecycle.claimed_pins new
                    = @CVGATE_OUTS_LIST sample_header
                      ++ @CVGATE_INS_LIST sample_header).
Proof.
  split; [discriminate|].
  apply (init_cv_gates_stops_at_first_failure (Hdr := sample_header)
           (Lifecycle.pin_taken 27) Lifecycle.unbound).
  discriminate.
Defined.

(** The witness of X20: every pin is granted. *)
Lemma cv_gates_round_trip_witness :
  @CVGATE_OUTS_LIST sample_header ++ @CVGATE_INS_LIST sample_header <> []
  /\ exists (r : Z) (s1 s2 : Lifecycle.state)
       (new : list Lifecycle.kcall),
      Lifecycle.bcm2835_init_cv_gates (Hdr := sample_header)
        Lifecycle.willing Lifecycle.unbound
      = Lifecycle.Done r s1
      /\ Lifecycle.bcm2835_free_cv_gates (Hdr := sample_header) s1
         = Lifecycle.Done tt s2
      /\ Lifecycle.calls s2 = new ++ Lifecycle.calls Lifecycle.unbound
      /\ Lifecycle.same_fields Lifecycle.unbound s2
      /\ Lifecycle.freed_pins new
         = @CVGATE_OUTS_LIST sample_header
           ++ @CVGATE_INS_LIST sample_header
      /\ (exists k, Lifecycle.claimed_pins new
                    = firstn k (Lifecycle.freed_pins new))
      /\ (0 <= r -> Lifecycle.claimed_pins new
                    = Lifecycle.freed_pins new).
Proof.
  split; [discriminate|].
  apply (cv_gates_round_trip (Hdr := sample_header)
           Lifecycle.willing Lifecycle.unbound).
  discriminate.
Defined.

(** The witness of X21: "elk-pi" on the probed device, input pin 5
    taken. *)
Lemma init_result_ignores_gpio_witness :
  let K := Lifecycle.pin_taken 5 in
  let s := Lifecycle.probed in
  let hat := "elk-pi"%string in
  let init :=
    Lifecycle.bcm2835_i2s_init (Hdr := sample_header)
      (Lhdr := Lifecycle.sample_lifecycle_header) K hat s in
  let cpu :=
    fst (Lifecycle.dma_alloc_coherent K
           (Lifecycle.LogStr Lifecycle.elk_hat_msg hat
            :: Lifecycle.calls s)
           (Lifecycle.dma_rx s)
           (Lifecycle.reserved_buffer_size (Hdr := sample_header)
              (Lhdr := Lifecycle.sample_lifecycle_header))) in
  Lifecycle.audio_dev_static s <> 0
  /\ Lifecycle.dma_rx s <> 0
  /\ Lifecycle.buffer_ptr s <> 0
  /\ (hat = "elk-pi"%string
      -> @CVGATE_OUTS_LIST sample_header ++ @CVGATE_INS_LIST sample_header
         <> [])
  /\ exists (r : Z) (s' : Lifecycle.state) (new : list Lifecycle.kcall),
      init = Lifecycle.Done r s'
      /\ Lifecycle.calls s' = new ++ Lifecycle.calls s
      /\ r = (if cpu =? 0 then - ENOMEM else 0)
      /\ rx_buf (buffer (Lifecycle.audio_dev s')) = cpu
      /\ audio_hat (Lifecycle.audio_dev s') = hat
      /\ cv_gate_enabled (Lifecycle.audio_dev s')
         = (if (r =? 0) && String.eqb hat "elk-pi" then true
            else cv_gate_enabled (Lifecycle.audio_dev s))
      /\ (existsb Lifecycle.is_gpio_call new = true
          -> r = 0 /\ hat = "elk-pi"%string)
      /\ Lifecycle.coherent_allocated new
         = (if r =? 0
            then [(Lifecycle.dma_rx s,
                   Lifecycle.reserved_buffer_size (Hdr := sample_header)
                     (Lhdr := Lifecycle.sample_lifecycle_header),
                   rx_buf (buffer (Lifecycle.audio_dev s')),
                   rx_phys_addr (buffer (Lifecycle.audio_dev s')))]
            else []).
Proof.
  cbv zeta.
  assert (H1 : Lifecycle.audio_dev_static Lifecycle.probed <> 0)
    by (vm_compute; discriminate).
  assert (H2 : Lifecycle.dma_rx Lifecycle.probed <> 0)
    by (vm_compute; discriminate).
  assert (H3 : Lifecycle.buffer_ptr Lifecycle.probed <> 0)
    by (vm_compute; discriminate).
  assert (H4 : "elk-pi"%string = "elk-pi"%string
               -> @CVGATE_OUTS_LIST sample_header
                  ++ @CVGATE_INS_LIST sample_header <> [])
    by (intros _; discriminate).
  do 4 (split; [assumption|]).
  exact (init_result_ignores_gpio (Hdr := sample_header)
           (Lhdr := Lifecycle.sample_lifecycle_header)
           (Lifecycle.pin_taken 5) "elk-pi" Lifecycle.probed
           H1 H2 H3 H4).
Defined.

(** The witness of X23: probe, init for "elk-pi" and remove in a kernel
    that grants everything. *)
Lemma remove_undoes_probe_and_init_witness :
  let K := Lifecycle.willing in
  let s := Lifecycle.unbound in
  let s1 := Lifecycle.probed in
  let hat := "elk-pi"%string in
  let size :=
    Lifecycle.reserved_buffer_size (Hdr := sample_header)
      (Lhdr := Lifecycle.sample_lifecycle_header) in
  Lifecycle.bcm2835_i2s_probe (Hdr := sample_header)
    (Lhdr := Lifecycle.sample_lifecycle_header) K s
  = Lifecycle.Done 0 s1
  /\ Lifecycle.dma_rx s1 <> 0
  /\ (hat = "elk-pi"%string
      -> @CVGATE_OUTS_LIST sample_header ++ @CVGATE_INS_LIST sample_header
         <> [])
  /\ exists (r : Z) (s2 s3 : Lifecycle.state)
       (new : list Lifecycle.kcall),
      Lifecycle.bcm2835_i2s_init (Hdr := sample_header)
        (Lhdr := Lifecycle.sample_lifecycle_header) K hat s1
      = Lifecycle.Done r s2
      /\ Lifecycle.bcm2835_i2s_remove (Hdr := sample_header)
           (Lhdr := Lifecycle.sample_lifecycle_header) s2
         = Lifecycle.Done 0 s3
      /\ Lifecycle.calls s3 = new ++ Lifecycle.calls s
      /\ Lifecycle.released_chans new = Lifecycle.granted_chans new
      /\ Lifecycle.coherent_freed new
         = [(Lifecycle.dma_rx s1, size,
             rx_buf (buffer (Lifecycle.audio_dev s2)),
             rx_phys_addr (buffer (Lifecycle.audio_dev s2)))]
      /\ Lifecycle.coherent_allocated new
         = (if r =? 0 then Lifecycle.coherent_freed new else [])
      /\ (r <> 0 -> rx_buf (buffer (Lifecycle.audio_dev s2)) = 0)
      /\ Lifecycle.freed_pins new
         = (if @BCM2835_I2S_CVGATES_SUPPORT sample_header && (r =? 0)
               && String.eqb hat "elk-pi"
            then @CVGATE_OUTS_LIST sample_header
                 ++ @CVGATE_INS_LIST sample_header
            else [])
      /\ Lifecycle.audio_dev_static s3 = Lifecycle.audio_dev_static s1
      /\ Lifecycle.audio_dev_static s3 <> 0.
Proof.
  cbv zeta.
  assert (H1 : Lifecycle.bcm2835_i2s_probe (Hdr := sample_header)
                 (Lhdr := Lifecycle.sample_lifecycle_header)
                 Lifecycle.willing Lifecycle.unbound
               = Lifecycle.Done 0 Lifecycle.probed)
    by (vm_compute; reflexivity).
  assert (H2 : Lifecycle.dma_rx Lifecycle.probed <> 0)
    by (vm_compute; discriminate).
  assert (H3 : "elk-pi"%string = "elk-pi"%string
               -> @CVGATE_OUTS_LIST sample_header
                  ++ @CVGATE_INS_LIST sample_header <> [])
    by (intros _; discriminate).
  do 3 (split; [assumption|]).
  exact (remove_undoes_probe_and_init (Hdr := sample_header)
           (Lhdr := Lifecycle.sample_lifecycle_header)
           Lifecycle.willing "elk-pi" Lifecycle.unbound Lifecycle.probed
           H1 H2 H3).
Defined.
